(** * Merge-conflict evaluation pipeline and outcome reconciliation

    A shallow embedding of [src/python/latex_output.py],
    [src/python/diff3_pair_analysis.py] and [src/python/diff3_analysis.py],
    followed by the properties of the specification that were checked against
    it.  Python strings are [string], Python ints are [Z], exceptions are an
    explicit [Raise] result, and console / file-system / subprocess effects
    are an explicit trace of events. *)

From Stdlib Require Import String Ascii List Bool ZArith QArith Lia Lqa.
From Stdlib Require Import DecimalString.
Import ListNotations.

Local Open Scope list_scope.
Local Open Scope string_scope.

(* ===================================================================== *)
(** * Exceptions *)
(* ===================================================================== *)

(** A Python call either returns a value or raises. *)
Inductive result (A : Type) : Type :=
| Ok (a : A)
| Raise (msg : string).
Arguments Ok {A} a.
Arguments Raise {A} msg.

Definition rbind {A B : Type} (m : result A) (k : A -> result B) : result B :=
  match m with
  | Ok a => k a
  | Raise msg => Raise msg
  end.

Notation "'try' x := m 'in' k" := (rbind m (fun x => k))
  (at level 10, x name, m at level 100, k at level 200, only parsing).

(* ===================================================================== *)
(** * Outcome states ([repo.TEST_STATE], [repo.MERGE_STATE])

    The enumerations live in the module [repo]; [latex_output.py] only uses
    the [.name] of their members, which is the member's identifier. *)
(* ===================================================================== *)

Module TEST_STATE.
Definition Tests_passed : string := "Tests_passed".
Definition Tests_failed : string := "Tests_failed".
Definition Tests_timedout : string := "Tests_timedout".
Definition Git_checkout_failed : string := "Git_checkout_failed".
Definition Not_tested : string := "Not_tested".
End TEST_STATE.

Module MERGE_STATE.
Definition Merge_failed : string := "Merge_failed".
Definition Merge_timedout : string := "Merge_timedout".
Definition Git_checkout_failed : string := "Git_checkout_failed".
End MERGE_STATE.

(** [x in xs] for a Python list or tuple of strings. *)
Fixpoint py_in (x : string) (xs : list string) : bool :=
  match xs with
  | [] => false
  | y :: ys => String.eqb x y || py_in x ys
  end.

Definition MERGE_CORRECT_NAMES : list string :=
  [TEST_STATE.Tests_passed].

Definition MERGE_INCORRECT_NAMES : list string :=
  [TEST_STATE.Tests_failed; TEST_STATE.Tests_timedout].

Definition MERGE_UNHANDLED_NAMES : list string :=
  [MERGE_STATE.Merge_failed; MERGE_STATE.Merge_timedout].

Definition UNDESIRABLE_STATES : list string :=
  [TEST_STATE.Git_checkout_failed; TEST_STATE.Not_tested;
   MERGE_STATE.Git_checkout_failed; MERGE_STATE.Merge_timedout].

(* ===================================================================== *)
(** * The result table

    A pandas [DataFrame] is a list of rows; a row maps a column name to the
    cell's text.  The table has one outcome column per merge tool and one
    [<tool>_merge_fingerprint] column per tool. *)
(* ===================================================================== *)

Definition row : Type := string -> string.
Definition DataFrame : Type := list row.

(** [row[col] = v] *)
Definition set_col (r : row) (col v : string) : row :=
  fun c => if String.eqb c col then v else r c.

(** [result_df[col]] as a list of cells. *)
Definition column (col : string) (df : DataFrame) : list string :=
  map (fun r => r col) df.

(** [result_df[~result_df[col].isin(states)]] *)
Definition drop_isin (col : string) (states : list string) (df : DataFrame)
  : DataFrame :=
  filter (fun r => negb (py_in (r col) states)) df.

(** The loop "Remove undesired states" of [main]. *)
Fixpoint remove_undesired (tools : list string) (df : DataFrame) : DataFrame :=
  match tools with
  | [] => df
  | t :: ts => remove_undesired ts (drop_isin t UNDESIRABLE_STATES df)
  end.

(* ===================================================================== *)
(** * Reconciliation ([merge_two_states] and the "Oracle tool" column) *)
(* ===================================================================== *)

Definition merge_two_states (merge_result1 merge_result2 : string)
  : result string :=
  if py_in TEST_STATE.Tests_passed [merge_result1; merge_result2] then
    Ok TEST_STATE.Tests_passed
  else if py_in MERGE_STATE.Merge_failed [merge_result1; merge_result2] then
    Ok MERGE_STATE.Merge_failed
  else if py_in TEST_STATE.Tests_failed [merge_result1; merge_result2] then
    Ok TEST_STATE.Tests_failed
  else if String.eqb merge_result1 TEST_STATE.Tests_timedout
          && String.eqb merge_result2 TEST_STATE.Tests_timedout then
    Ok TEST_STATE.Tests_timedout
  else Raise "Invalid case".

Definition ORACLE : string := "Oracle tool".

(** [DataFrame.apply(f, axis=1)]: [f] on every row, top to bottom; the first
    exception aborts the whole call. *)
Fixpoint apply_rows (f : row -> result string) (df : DataFrame)
  : result (list string) :=
  match df with
  | [] => Ok []
  | r :: rs =>
      try v := f r in
      try vs := apply_rows f rs in
      Ok (v :: vs)
  end.

(** [result_df[col] = values] *)
Fixpoint assign (col : string) (values : list string) (df : DataFrame)
  : DataFrame :=
  match df, values with
  | r :: rs, v :: vs => set_col r col v :: assign col vs rs
  | _, _ => []
  end.

(** The loop over [MERGE_TOOL] that folds every tool's outcome into the
    "Oracle tool" column. *)
Fixpoint oracle_loop (tools : list string) (df : DataFrame)
  : result DataFrame :=
  match tools with
  | [] => Ok df
  | merge_tool :: rest =>
      try col := apply_rows
                   (fun r => merge_two_states (r ORACLE) (r merge_tool)) df in
      oracle_loop rest (assign ORACLE col df)
  end.

(** [result_df["Oracle tool"] = TEST_STATE.Tests_failed.name] followed by
    the loop.  [tools] is the list of names of the enumeration [MERGE_TOOL]
    (declared in [repo]). *)
Definition add_oracle (tools : list string) (df : DataFrame)
  : result DataFrame :=
  oracle_loop tools
    (assign ORACLE (map (fun _ => TEST_STATE.Tests_failed) df) df).

(* ===================================================================== *)
(** * Python strings *)
(* ===================================================================== *)

Module Py.

(** [s.startswith(p)] *)
Definition startswith (s p : string) : bool := String.prefix p s.

(** [needle in s]: [needle] occurs in [s] at some position. *)
Fixpoint contains (needle s : string) : bool :=
  String.prefix needle s
  || match s with
     | EmptyString => false
     | String _ s' => contains needle s'
     end.

(** [s.endswith(c)] for a one-character [c]. *)
Fixpoint endswith_char (s : string) (c : ascii) : bool :=
  match s with
  | EmptyString => false
  | String a EmptyString => Ascii.eqb a c
  | String _ s' => endswith_char s' c
  end.

(** [s.rfind(c)] for a one-character [c]: the highest index of [c] in
    [s], or [-1]. *)
Fixpoint rfind (s : string) (c : ascii) : Z :=
  match s with
  | EmptyString => (-1)%Z
  | String a s' =>
      let i := rfind s' c in
      if (0 <=? i)%Z then (i + 1)%Z
      else if Ascii.eqb a c then 0%Z else (-1)%Z
  end.

Fixpoint take (n : nat) (s : string) : string :=
  match n, s with
  | S n', String a s' => String a (take n' s')
  | _, _ => EmptyString
  end.

Fixpoint drop (n : nat) (s : string) : string :=
  match n, s with
  | S n', String _ s' => drop n' s'
  | _, _ => s
  end.

(** [s[:i]], [s[i:]] and [s[i:j]] for non-negative [i], [j] (the only
    indices the path functions below produce). *)
Definition slice_to (s : string) (i : Z) : string := take (Z.to_nat i) s.
Definition slice_from (s : string) (i : Z) : string := drop (Z.to_nat i) s.
Definition slice (s : string) (i j : Z) : string :=
  take (Z.to_nat j - Z.to_nat i) (drop (Z.to_nat i) s).

(** [s == c * len(s)] *)
Fixpoint all_char (s : string) (c : ascii) : bool :=
  match s with
  | EmptyString => true
  | String a s' => Ascii.eqb a c && all_char s' c
  end.

(** [s.rstrip(c)] for a one-character [c]. *)
Fixpoint rstrip_char (s : string) (c : ascii) : string :=
  match s with
  | EmptyString => EmptyString
  | String a s' =>
      match rstrip_char s' c with
      | EmptyString => if Ascii.eqb a c then EmptyString
                       else String a EmptyString
      | t => String a t
      end
  end.

(** Python's white space for [str.strip()] on ASCII text. *)
Definition isspace (a : ascii) : bool :=
  let n := nat_of_ascii a in
  Nat.eqb n 32 || (Nat.leb 9 n && Nat.leb n 13) || (Nat.leb 28 n && Nat.leb n 31).

Fixpoint lstrip (s : string) : string :=
  match s with
  | EmptyString => EmptyString
  | String a s' => if isspace a then lstrip s' else s
  end.

Fixpoint rstrip (s : string) : string :=
  match s with
  | EmptyString => EmptyString
  | String a s' =>
      match rstrip s' with
      | EmptyString => if isspace a then EmptyString
                       else String a EmptyString
      | t => String a t
      end
  end.

(** [s.strip()] *)
Definition strip (s : string) : string := rstrip (lstrip s).

(** [str(i)] for an int. *)
Definition str (i : Z) : string := NilZero.string_of_int (Z.to_int i).

(** [str(n)] for a non-negative count. *)
Definition str_nat (n : nat) : string := NilZero.string_of_uint (Nat.to_uint n).

End Py.

(* ===================================================================== *)
(** * [os.path] on POSIX ([posixpath]) *)
(* ===================================================================== *)

Module os_path.

Definition sep : ascii := "/"%char.
Definition extsep : ascii := "."%char.

(** One step of [join]: the loop body [for b in p]. *)
Definition join2 (path b : string) : string :=
  if Py.startswith b "/" then b
  else if String.eqb path "" || Py.endswith_char path sep then path ++ b
  else path ++ "/" ++ b.

(** [os.path.join(a, *p)] *)
Definition join (a : string) (p : list string) : string :=
  fold_left join2 p a.

(** [os.path.basename(p)] *)
Definition basename (p : string) : string :=
  let i := (Py.rfind p sep + 1)%Z in
  Py.slice_from p i.

(** [os.path.dirname(p)] *)
Definition dirname (p : string) : string :=
  let i := (Py.rfind p sep + 1)%Z in
  let head := Py.slice_to p i in
  if negb (String.eqb head "") && negb (Py.all_char head sep)
  then Py.rstrip_char head sep
  else head.

(** [os.path.splitext(p)]: the extension starts at the last dot of the
    last component, unless only dots precede it there. *)
Definition splitext (p : string) : string * string :=
  let sepIndex := Py.rfind p sep in
  let dotIndex := Py.rfind p extsep in
  if (sepIndex <? dotIndex)%Z then
    if negb (Py.all_char (Py.slice p (sepIndex + 1) dotIndex) extsep)
    then (Py.slice_to p dotIndex, Py.slice_from p dotIndex)
    else (p, "")
  else (p, "").

End os_path.

(* ===================================================================== *)
(** * Regular expressions ([re])

    The fragment the program uses: literal text, [.+] and [(.+)].  Matching
    is by backtracking, greedy quantifiers trying the longest run first,
    and [.] is any character but a newline. *)
(* ===================================================================== *)

Module re.

Inductive item : Type :=
| Lit (text : string)          (* literal (escaped) characters *)
| AnyPlus (capture : bool).    (* [.+], or [(.+)] when capturing *)

Definition pattern : Type := list item.

Definition newline : ascii := ascii_of_nat 10.

(** [.]: no flag is given, so a dot matches anything but a newline. *)
Definition dot (c : ascii) : bool := negb (Ascii.eqb c newline).

(** The rest of [s] after the literal [lit], when [s] starts with it. *)
Fixpoint strip_prefix (lit s : string) : option string :=
  match lit, s with
  | EmptyString, _ => Some s
  | String a lit', String b s' =>
      if Ascii.eqb a b then strip_prefix lit' s' else None
  | String _ _, EmptyString => None
  end.

Section Greedy.
Context {R : Type}.
(** What follows the quantifier: given the text it consumed and the
    text left, the rest of the pattern matches or fails. *)
Variable k : string -> string -> option R.

(** [.*] after [acc] is consumed: take one more character when
    possible and backtrack to the shorter run when the rest fails. *)
Fixpoint greedy_star (acc s : string) : option R :=
  match s with
  | String c s' =>
      if dot c then
        match greedy_star (acc ++ String c EmptyString) s' with
        | Some r => Some r
        | None => k acc s
        end
      else k acc s
  | EmptyString => k acc s
  end.

(** [.+] *)
Definition greedy_plus (s : string) : option R :=
  match s with
  | String c s' =>
      if dot c then greedy_star (String c EmptyString) s' else None
  | EmptyString => None
  end.
End Greedy.

(** Match [p] at the start of [s]: the captured groups (after [caps])
    and the text left after the match. *)
Fixpoint match_items (p : pattern) (caps : list string) (s : string)
  : option (list string * string) :=
  match p with
  | [] => Some (caps, s)
  | Lit text :: p' =>
      match strip_prefix text s with
      | Some s' => match_items p' caps s'
      | None => None
      end
  | AnyPlus capture :: p' =>
      greedy_plus
        (fun consumed rest =>
           match_items p' (if capture then (caps ++ [consumed])%list else caps) rest)
        s
  end.

(** No newline in [s]: every character is matched by a dot. *)
Fixpoint all_dot (s : string) : bool :=
  match s with
  | EmptyString => true
  | String c s' => dot c && all_dot s'
  end.

(** What [findall] reports for a match of a pattern with one group. *)
Definition group1 (m : list string * string) : string :=
  match fst m with
  | g :: _ => g
  | [] => EmptyString
  end.

(** The scan of [findall]: try a match at the current position; after a
    match go on where it ended, otherwise move one character on. *)
Fixpoint findall_scan (p : pattern) (fuel : nat) (s : string) : list string :=
  match fuel with
  | O => []
  | S fuel' =>
      match match_items p [] s with
      | Some m => group1 m :: findall_scan p fuel' (snd m)
      | None =>
          match s with
          | EmptyString => []
          | String _ s' => findall_scan p fuel' s'
          end
      end
  end.

(** [re.findall(p, s)] for a pattern with one group whose matches are
    never empty: every step of the scan moves on by at least one
    character, so [length s + 1] steps reach the end. *)
Definition findall (p : pattern) (s : string) : list string :=
  findall_scan p (S (String.length s)) s.

End re.

(** [r"CONFLICT \(.+\): Merge conflict in (.+)"] *)
Definition CONFLICT_RE : re.pattern :=
  [re.Lit "CONFLICT ("; re.AnyPlus false;
   re.Lit "): Merge conflict in "; re.AnyPlus true].

(* ===================================================================== *)
(** * Effects

    What a run does to the outside world, in order.  Repository handling
    ([clone_repo_to_path], GitPython) belongs to collaborators and is
    recorded as opaque events; it is taken to succeed. *)
(* ===================================================================== *)

Inductive event : Type :=
| Rmtree (path : string)                       (* shutil.rmtree *)
| CloneRepo (repo_name path : string)          (* clone_repo_to_path *)
| Fetch (repo : string)                        (* repo.remote().fetch() *)
| Checkout (repo : string) (args : list string)(* repo.git.checkout(..., force=True) *)
| SubmoduleUpdate (repo : string)              (* repo.submodule_update() *)
| Exec (cwd : option string) (argv : list string)  (* subprocess.run starts argv *)
| ChildStdout (text : string)                  (* a child's stdout that was not piped *)
| ChildStderr (text : string)                  (* a child's stderr that was not piped *)
| Print (text : string)                        (* print(str) *)
| PrintList (items : list string)              (* print(list) *)
| Makedirs (path : string)                     (* os.makedirs(path, exist_ok=True) *)
| WriteFile (path text : string)               (* open(path, "w").write(text) *)
| RemoveFile (path : string)                   (* os.remove *)
| LoggerError (text : string)                  (* logger.error(str) *)
| LoggerErrorRows (cells : list (list string)). (* logger.error(DataFrame) *)

(** A computation: the events it caused and how it ended. *)
Definition IO (A : Type) : Type := (list event * result A)%type.

Definition ret {A : Type} (a : A) : IO A := ([], Ok a).

Definition bind {A B : Type} (m : IO A) (k : A -> IO B) : IO B :=
  match m with
  | (t, Ok a) => let (t', r) := k a in ((t ++ t')%list, r)
  | (t, Raise msg) => (t, Raise msg)
  end.

Definition emit (e : event) : IO unit := ([e], Ok tt).

Definition raise {A : Type} (msg : string) : IO A := ([], Raise msg).

Declare Scope io_scope.
Delimit Scope io_scope with io.
Notation "x <- m ;; k" := (bind m (fun x => k))
  (at level 61, m at next level, right associativity) : io_scope.
Notation "m ;; k" := (bind m (fun _ => k))
  (at level 61, right associativity) : io_scope.
Local Open Scope io_scope.

(** [for x in xs: body(x)] *)
Fixpoint for_each {A : Type} (xs : list A) (body : A -> IO unit) : IO unit :=
  match xs with
  | [] => ret tt
  | x :: xs' => bind (body x) (fun _ => for_each xs' body)
  end.

Definition trace {A : Type} (m : IO A) : list event := fst m.
Definition outcome {A : Type} (m : IO A) : result A := snd m.

(* ===================================================================== *)
(** * [check_fingerprint_consistency] *)
(* ===================================================================== *)

(** [mask.sum()] *)
Definition mask_sum (mask : list bool) : nat :=
  List.length (filter (fun b => b) mask).

(** [a & b] and [~a] on boolean series. *)
Fixpoint mask_and (a b : list bool) : list bool :=
  match a, b with
  | x :: a', y :: b' => (x && y) :: mask_and a' b'
  | _, _ => []
  end.
Definition mask_not (a : list bool) : list bool := map negb a.

(** [result_df.loc[mask][cols]] *)
Fixpoint loc_cols (df : DataFrame) (mask : list bool) (cols : list string)
  : list (list string) :=
  match df, mask with
  | r :: df', b :: mask' =>
      ((if b then [map r cols] else []) ++ loc_cols df' mask' cols)%list
  | _, _ => []
  end.

Definition inconsistency_message (merge_tool1 merge_tool2 : string) (n : nat)
  : string :=
  "Inconsistency found between " ++ merge_tool1 ++ " and " ++ merge_tool2
  ++ " in " ++ Py.str_nat n ++ " cases.".

Definition same_fingerprint_mask (df : DataFrame) (merge_tool1 merge_tool2 : string)
  : list bool :=
  map (fun r => String.eqb (r (merge_tool1 ++ "_merge_fingerprint"))
                           (r (merge_tool2 ++ "_merge_fingerprint"))) df.

Definition same_result_mask (df : DataFrame) (merge_tool1 merge_tool2 : string)
  : list bool :=
  map (fun r => String.eqb (r merge_tool1) (r merge_tool2)) df.

Definition inconsistent_mask (df : DataFrame) (merge_tool1 merge_tool2 : string)
  : list bool :=
  mask_and (same_fingerprint_mask df merge_tool1 merge_tool2)
           (mask_not (same_result_mask df merge_tool1 merge_tool2)).

(** The body of the inner loop, for one ordered pair of tools. *)
Definition check_pair (result_df : DataFrame) (merge_tool1 merge_tool2 : string)
  : IO unit :=
  if String.eqb merge_tool1 "gitmerge_resolve"
     || String.eqb merge_tool2 "gitmerge_resolve" then ret tt
  else if String.eqb merge_tool1 "gitmerge_ort_adjacent"
          || String.eqb merge_tool2 "gitmerge_ort_adjacent" then ret tt
  else if String.eqb merge_tool1 "gitmerge_ort_imports"
          || String.eqb merge_tool2 "gitmerge_ort_imports" then ret tt
  else if String.eqb merge_tool1 "gitmerge_ort_imports_ignorespace"
          || String.eqb merge_tool2 "gitmerge_ort_imports_ignorespace" then ret tt
  else if negb (String.eqb merge_tool1 merge_tool2) then
    let mask := inconsistent_mask result_df merge_tool1 merge_tool2 in
    (if (0 <? mask_sum mask)%nat then
        emit (LoggerError
                (inconsistency_message merge_tool1 merge_tool2 (mask_sum mask))) ;;
        emit (LoggerErrorRows
                (loc_cols result_df mask
                   [merge_tool1; merge_tool2;
                    merge_tool1 ++ "_merge_fingerprint"]))
      else ret tt) ;;
    (if (mask_sum mask =? 0)%nat then ret tt
     else raise ("AssertionError: "
                 ++ inconsistency_message merge_tool1 merge_tool2 (mask_sum mask)))
  else ret tt.

Definition check_fingerprint_consistency
  (result_df : DataFrame) (merge_tools : list string) : IO unit :=
  for_each merge_tools (fun merge_tool1 =>
    for_each merge_tools (fun merge_tool2 =>
      check_pair result_df merge_tool1 merge_tool2)).

(* ===================================================================== *)
(** * Cost-tradeoff score (the cost plots of [main]) *)
(* ===================================================================== *)

(** [sum(val in names for val in merge_tool_status)] *)
Definition count_in (names : list string) (merge_tool_status : list string) : Z :=
  Z.of_nat (List.length (filter (fun val => py_in val names) merge_tool_status)).

(** The three statements computing [score] for one [cost_factor].  The
    program evaluates them in binary floating point; here they are taken
    over the rationals, that is, without rounding. *)
Definition score (unhandled incorrect correct : Z) (cost_factor : Q) : Q :=
  let score := (inject_Z (unhandled * 1) + inject_Z incorrect * cost_factor)%Q in
  let score := (score / inject_Z (unhandled + incorrect + correct))%Q in
  (1 - score)%Q.

(* ===================================================================== *)
(** * The outside world of the diff3 analyses *)
(* ===================================================================== *)

(** [subprocess.CompletedProcess] *)
Record CompletedProcess : Type := {
  returncode : Z;
  stdout : string;
  stderr : string
}.

(** Everything the analyses read from outside: what an external program
    does when started with a working directory and an argument vector,
    the cells of the CSV files, the top-level directory git reports for a
    clone, and the names [tempfile] hands out.  [subprocess_run] gives the
    [CompletedProcess] that [subprocess.run(..., text=True)] returns when
    both streams are piped: its [stdout] and [stderr] are the texts as
    Python decoded them (newlines translated).  A call whose output does
    not decode raises in Python and has no [CompletedProcess]; a [World]
    describes the runs in which every captured output decodes. *)
Record World : Type := {
  subprocess_run : option string -> list string -> CompletedProcess;
  read_csv : string -> Z -> string -> string;   (* pd.read_csv(path).iloc[i][col] *)
  rev_parse_show_toplevel : string -> string;
  temp_file_name : nat -> string
}.

(** How [subprocess.run] is asked to treat the child's output streams. *)
Inductive pipes : Type :=
| PipeBoth      (* stdout=PIPE, stderr=PIPE *)
| PipeStdout    (* stdout=PIPE: stderr goes to the terminal *)
| PipeNone.     (* neither: both go to the terminal *)

(** [subprocess.run(argv, ..., text=True)] without [check].  A stream that
    is not piped is inherited by the child and is [None] in the result
    (here: empty).  The captured texts are those of the [World], so [run]
    describes the calls whose output decodes; the [UnicodeDecodeError] of
    the other calls is outside this model. *)
Definition run (w : World) (p : pipes) (cwd : option string) (argv : list string)
  : IO CompletedProcess :=
  let cp := subprocess_run w cwd argv in
  emit (Exec cwd argv) ;;
  match p with
  | PipeBoth => ret cp
  | PipeStdout =>
      emit (ChildStderr (stderr cp)) ;;
      ret {| returncode := returncode cp; stdout := stdout cp; stderr := "" |}
  | PipeNone =>
      emit (ChildStdout (stdout cp)) ;;
      emit (ChildStderr (stderr cp)) ;;
      ret {| returncode := returncode cp; stdout := ""; stderr := "" |}
  end.

(** [subprocess.run(argv, check=True)] *)
Definition run_checked (w : World) (argv : list string) : IO CompletedProcess :=
  cp <- run w PipeNone None argv ;;
  if (returncode cp =? 0)%Z then ret cp
  else raise "CalledProcessError".

(** The literal the analyses look for in diff3's error stream. *)
Definition error_message : string := "No such file or directory".

(** Which diff produced the text that is kept. *)
Inductive diff_mode : Type := ThreeWay | TwoWay.

(** The comparator, written out identically at the three places the
    analyses diff a conflicting file: [diff3] of base, merge attempt and
    programmer merge with both streams piped, replaced by a plain [diff] of
    merge attempt and programmer merge when the error stream contains
    [error_message].  The value is the final [diff_results]. *)
Definition compare (w : World)
  (conflict_path_base conflict_path_merge_attempt
   conflict_path_programmer_merge : string) : IO CompletedProcess :=
  diff_results <- run w PipeBoth None
    ["diff3"; conflict_path_base; conflict_path_merge_attempt;
     conflict_path_programmer_merge] ;;
  if Py.contains error_message (stderr diff_results) then
    run w PipeStdout None
      ["diff"; conflict_path_merge_attempt; conflict_path_programmer_merge]
  else ret diff_results.

(** The branch [compare] takes. *)
Definition compare_mode (w : World)
  (conflict_path_base conflict_path_merge_attempt
   conflict_path_programmer_merge : string) : diff_mode :=
  if Py.contains error_message
       (stderr (subprocess_run w None
                  ["diff3"; conflict_path_base; conflict_path_merge_attempt;
                   conflict_path_programmer_merge]))
  then TwoWay else ThreeWay.

(** Check out [left] and [right] of the clone [repo] as the branches
    [TEMP_LEFT_BRANCH] and [TEMP_RIGHT_BRANCH].  [announce] is set where the
    source prints the shas. *)
Definition checkout_branches (repo left_sha right_sha : string) (announce : bool)
  : IO unit :=
  emit (Fetch repo) ;;
  emit (Checkout repo [left_sha]) ;;
  (if announce then emit (Print ("Checking out left" ++ left_sha)) else ret tt) ;;
  emit (SubmoduleUpdate repo) ;;
  emit (Checkout repo ["-b"; "TEMP_LEFT_BRANCH"]) ;;
  emit (Checkout repo [right_sha]) ;;
  (if announce then emit (Print ("Checking out right" ++ right_sha)) else ret tt) ;;
  emit (SubmoduleUpdate repo) ;;
  emit (Checkout repo ["-b"; "TEMP_RIGHT_BRANCH"]).

(* ===================================================================== *)
(** * [diff3_pair_analysis] *)
(* ===================================================================== *)

(** The report for one tool and one conflicting file: the path of the
    artifact, its directory, the write and the message. *)
Definition write_report (repo_output_dir : string) (results_index : Z)
  (merge_tool conflicting_file_base : string) (diff_results : CompletedProcess)
  : IO unit :=
  let diff_filename :=
    os_path.join repo_output_dir
      [Py.str results_index; merge_tool;
       "diff_" ++ conflicting_file_base ++ ".txt"] in
  let output_dir := os_path.dirname diff_filename in
  emit (Makedirs output_dir) ;;
  emit (WriteFile diff_filename (stdout diff_results)) ;;
  emit (Print ("Diff results saved to " ++ diff_filename)).

(** The body of [for conflict_file_match in conflict_file_matches]. *)
Definition pair_loop_body (w : World) (merge_tool1 merge_tool2 : string)
  (results_index : Z) (repo_output_dir repo_name conflicting_file : string)
  : IO unit :=
  let conflict_path := os_path.join repo_name [conflicting_file] in
  let conflict_path_merge_attempt :=
    os_path.join "./repos/merge_attempt1" [conflict_path] in
  let conflict_path_base := os_path.join "./repos/base" [conflict_path] in
  let conflict_path_programmer_merge :=
    os_path.join "./repos/programmer_merge" [conflict_path] in
  diff_results <- compare w conflict_path_base conflict_path_merge_attempt
                    conflict_path_programmer_merge ;;
  let conflicting_file_base :=
    fst (os_path.splitext (os_path.basename conflicting_file)) in
  write_report repo_output_dir results_index merge_tool1
    conflicting_file_base diff_results ;;
  let conflict_path := os_path.join repo_name [conflicting_file] in
  let conflict_path_merge_attempt :=
    os_path.join "./repos/merge_attempt2" [conflict_path] in
  diff_results <- compare w conflict_path_base conflict_path_merge_attempt
                    conflict_path_programmer_merge ;;
  write_report repo_output_dir results_index merge_tool2
    conflicting_file_base diff_results.

Definition diff3_pair_analysis (w : World) (merge_tool1 merge_tool2 : string)
  (results_index : Z) (repo_output_dir : string) : IO unit :=
  emit (Rmtree "./repos") ;;
  let df := read_csv w "../../results/combined/result.csv" in
  let repo_name := df results_index "repository" in
  let script := "../scripts/merge_tools/" ++ merge_tool1 ++ ".sh" in
  let repo := "./repos/merge_attempt1" in
  emit (CloneRepo repo_name repo) ;;
  checkout_branches repo (df results_index "left") (df results_index "right")
    true ;;
  base_sha <- run w PipeStdout (Some ("./repos/merge_attempt1/" ++ repo_name))
    ["git"; "merge-base"; "TEMP_LEFT_BRANCH"; "TEMP_RIGHT_BRANCH"] ;;
  emit (Print ("Found base sha" ++ stdout base_sha)) ;;
  let repo2 := "./repos/base" in
  emit (CloneRepo repo_name repo2) ;;
  emit (Fetch repo2) ;;
  let base_sha := Py.strip (stdout base_sha) in
  emit (Checkout repo2 [base_sha]) ;;
  emit (SubmoduleUpdate repo2) ;;
  result <- run w PipeStdout None
    [script; rev_parse_show_toplevel w repo;
     "TEMP_LEFT_BRANCH"; "TEMP_RIGHT_BRANCH"] ;;
  let conflict_file_matches := re.findall CONFLICT_RE (stdout result) in
  emit (Print (stdout result)) ;;
  match conflict_file_matches with
  | [] => emit (Print "No conflict files to search")
  | _ :: _ =>
      let repo3 := "./repos/programmer_merge" in
      emit (CloneRepo repo_name repo3) ;;
      emit (Checkout repo3 [df results_index "merge"]) ;;
      emit (SubmoduleUpdate repo3) ;;
      emit (PrintList conflict_file_matches) ;;
      let repo4 := "./repos/merge_attempt2" in
      emit (CloneRepo repo_name repo4) ;;
      checkout_branches repo4 (df results_index "left")
        (df results_index "right") true ;;
      for_each conflict_file_matches
        (pair_loop_body w merge_tool1 merge_tool2 results_index
           repo_output_dir repo_name)
  end.

(* ===================================================================== *)
(** * [diff3_analysis] *)
(* ===================================================================== *)

(** The body of the loop over the conflicting files; [n] counts the
    temporary files made so far. *)
Definition loop_body (w : World) (repo_name : string)
  (n : nat) (conflicting_file : string) : IO unit :=
  let conflict_path := os_path.join repo_name [conflicting_file] in
  let conflict_path_merge_attempt :=
    os_path.join "./repos/merge_attempt" [conflict_path] in
  let conflict_path_base := os_path.join "./repos/base" [conflict_path] in
  let conflict_path_programmer_merge :=
    os_path.join "./repos/programmer_merge" [conflict_path] in
  diff_results <- compare w conflict_path_base conflict_path_merge_attempt
                    conflict_path_programmer_merge ;;
  let temp_file := temp_file_name w n in
  emit (WriteFile temp_file (stdout diff_results)) ;;
  run_checked w ["xdg-open"; temp_file] ;;
  emit (RemoveFile temp_file).

Fixpoint loop_from (w : World) (repo_name : string) (n : nat)
  (conflict_file_matches : list string) : IO unit :=
  match conflict_file_matches with
  | [] => ret tt
  | conflict_file_match :: rest =>
      loop_body w repo_name n conflict_file_match ;;
      loop_from w repo_name (S n) rest
  end.

Definition diff3_analysis (w : World) (merge_tool : string) (repo_num : Z)
  : IO unit :=
  let df := read_csv w "../../results/result.csv" in
  let repo_name := df repo_num "repo_name" in
  let script := "../scripts/merge_tools/" ++ merge_tool ++ ".sh" in
  let repo := "./repos/merge_attempt" in
  emit (CloneRepo repo_name repo) ;;
  checkout_branches repo (df repo_num "left") (df repo_num "right") false ;;
  result <- run w PipeStdout None
    [script; rev_parse_show_toplevel w repo;
     "TEMP_LEFT_BRANCH"; "TEMP_RIGHT_BRANCH"] ;;
  let conflict_file_matches := re.findall CONFLICT_RE (stdout result) in
  let repo := "./repos/programmer_merge" in
  emit (CloneRepo repo_name repo) ;;
  emit (Checkout repo [df repo_num "merge"]) ;;
  emit (SubmoduleUpdate repo) ;;
  let repo := "./repos/base" in
  emit (CloneRepo repo_name repo) ;;
  emit (Checkout repo [df repo_num "base"]) ;;
  emit (SubmoduleUpdate repo) ;;
  loop_from w repo_name 0 conflict_file_matches ;;
  emit (Print "reached delete repo") ;;
  run w PipeBoth None ["rm"; "-rf"; "./repos/base"] ;;
  run w PipeBoth None ["rm"; "-rf"; "./repos/merge_attempt"] ;;
  run w PipeBoth None ["rm"; "-rf"; "./repos/programmer_merge"] ;;
  ret tt.

(* ===================================================================== *)
(** * Further parts of [latex_output.py] *)
(* ===================================================================== *)

(** ** Case and splitting of ASCII text

    [str.capitalize], [str.title], [str.replace] and [str.split] as they
    act on ASCII text (tool and run names are ASCII identifiers); bytes
    above 127 are left as they are. *)

Module PyCase.

Definition is_upper (a : ascii) : bool :=
  let n := nat_of_ascii a in Nat.leb 65 n && Nat.leb n 90.

Definition is_lower (a : ascii) : bool :=
  let n := nat_of_ascii a in Nat.leb 97 n && Nat.leb n 122.

Definition upper (a : ascii) : ascii :=
  if is_lower a then ascii_of_nat (nat_of_ascii a - 32) else a.

Definition lower (a : ascii) : ascii :=
  if is_upper a then ascii_of_nat (nat_of_ascii a + 32) else a.

Fixpoint map_chars (f : ascii -> ascii) (s : string) : string :=
  match s with
  | EmptyString => EmptyString
  | String a s' => String (f a) (map_chars f s')
  end.

(** [s.capitalize()]: the first character upper case, the rest lower. *)
Definition capitalize (s : string) : string :=
  match s with
  | EmptyString => EmptyString
  | String a s' => String (upper a) (map_chars lower s')
  end.

(** [s.replace(a, b)] for one-character [a] and [b]. *)
Definition replace_char (a b : ascii) (s : string) : string :=
  map_chars (fun c => if Ascii.eqb c a then b else c) s.

(** [s.title()]: a letter after a letter is made lower case, a letter
    after anything else (or at the start) upper case. *)
Fixpoint title_from (previous_is_cased : bool) (s : string) : string :=
  match s with
  | EmptyString => EmptyString
  | String a s' =>
      if is_lower a then
        String (if previous_is_cased then a else upper a) (title_from true s')
      else if is_upper a then
        String (if previous_is_cased then lower a else a) (title_from true s')
      else String a (title_from false s')
  end.

Definition title (s : string) : string := title_from false s.

(** [s.split(c)] for a one-character separator. *)
Fixpoint split (c : ascii) (s : string) : list string :=
  match s with
  | EmptyString => [EmptyString]
  | String a s' =>
      if Ascii.eqb a c then EmptyString :: split c s'
      else match split c s' with
           | [] => [String a EmptyString]
           | piece :: pieces => String a piece :: pieces
           end
  end.

(** ["".join(pieces)] *)
Fixpoint join_all (pieces : list string) : string :=
  match pieces with
  | [] => EmptyString
  | piece :: rest => piece ++ join_all rest
  end.

End PyCase.

(** ** [merge_tool_latex_name] *)

Definition MERGE_TOOL_RENAME : list (string * string) :=
  [("gitmerge_ort_adjacent", "Adjacent+ort");
   ("gitmerge_ort_imports", "Imports+ort");
   ("gitmerge_ort_imports_ignorespace", "Imports+ort-ignorespace");
   ("intellimerge", "IntelliMerge");
   ("git_hires_merge", "Hires-Merge")].

(** [d[key]] when [key in d]. *)
Fixpoint dict_get (d : list (string * string)) (key : string) : option string :=
  match d with
  | [] => None
  | (k, v) :: d' => if String.eqb key k then Some v else dict_get d' key
  end.

Definition merge_tool_latex_name (name : string) : string :=
  match dict_get MERGE_TOOL_RENAME name with
  | Some latex => latex
  | None =>
      let name := PyCase.capitalize name in
      let name := PyCase.replace_char "_" "-" name in
      PyCase.capitalize name
  end.

(** ** The run name in camel case ([main], before [defs.tex] is built) *)

Definition run_name_camel_case (run_name : string) : string :=
  hd EmptyString (PyCase.split "_" run_name)
  ++ PyCase.join_all (map PyCase.title (tl (PyCase.split "_" run_name))).

(** ** Main and other branches ([main]) *)

Definition main_branch_names : list string :=
  ["main"; "refs/heads/main"; "master"; "refs/heads/master"].

(** [result_df[result_df["branch_name"].isin(main_branch_names)]] *)
Definition main_rows (result_df : DataFrame) : DataFrame :=
  filter (fun r => py_in (r "branch_name") main_branch_names) result_df.

(** [result_df[~result_df["branch_name"].isin(main_branch_names)]] *)
Definition feature_rows (result_df : DataFrame) : DataFrame :=
  filter (fun r => negb (py_in (r "branch_name") main_branch_names)) result_df.

(** [round(a / b)] for ints [a >= 0] and [b > 0]: Python rounds the
    quotient to the nearest int, a tie to the even one.  Taken on the exact
    quotient. *)
Definition round_div (a b : Z) : Z :=
  let q := (a / b)%Z in
  let r := (a mod b)%Z in
  if (2 * r <? b)%Z then q
  else if (b <? 2 * r)%Z then (q + 1)%Z
  else if Z.even q then q else (q + 1)%Z.

(** [round(len(part) * 100 / len(result_df))], the value of the macros
    [MainBranchMergesPercent] and [OtherBranchMergesPercent]. *)
Definition branch_percent (part result_df : DataFrame) : result Z :=
  if Nat.eqb (List.length result_df) 0 then Raise "ZeroDivisionError"
  else Ok (round_div (Z.of_nat (List.length part) * 100)
                     (Z.of_nat (List.length result_df))).

(** ** The percentages of the tables ([build_table1], [build_table2]) *)

(** [round(100 * count / total if total != 0 else 0)]: the percentages of
    [build_table1] and the main-branch percentages of [build_table2]. *)
Definition rounded_percentage (count : Z) (total : nat) : Z :=
  if negb (Nat.eqb total 0)
  then round_div (100 * count) (Z.of_nat total)
  else 0%Z.

(** [round(100 * count / len(feature) if len(feature) > 0 else -1)]: the
    other-branch percentages of [build_table2]. *)
Definition rounded_percentage_feature (count : Z) (total : nat) : Z :=
  if Nat.ltb 0 total
  then round_div (100 * count) (Z.of_nat total)
  else (-1)%Z.

(** The count and the percentage [build_table2] prints for the outcomes
    [names] of a tool on the main-branch merges and on the others. *)
Definition main_cell (names : list string) (merge_tool : string)
  (main : DataFrame) : Z * Z :=
  let merge_main := column merge_tool main in
  let count := count_in names merge_main in
  (count, rounded_percentage count (List.length main)).

Definition feature_cell (names : list string) (merge_tool : string)
  (feature : DataFrame) : Z * Z :=
  let merge_feature := column merge_tool feature in
  let count := count_in names merge_feature in
  (count, rounded_percentage_feature count (List.length feature)).

(** ** The heat map of differing merges ([main]) *)

Fixpoint mask_or (a b : list bool) : list bool :=
  match a, b with
  | x :: a', y :: b' => (x || y) :: mask_or a' b'
  | _, _ => []
  end.

(** [result_df[col].isin(names)] *)
Definition isin (col : string) (names : list string) (df : DataFrame)
  : list bool :=
  map (fun r => py_in (r col) names) df.

(** The value stored at [result.loc[merge_tool1, merge_tool2]]. *)
Definition heatmap_cell (result_df : DataFrame) (merge_tool1 merge_tool2 : string)
  : nat :=
  let mask_diff_fingerprint :=
    map (fun r => negb (String.eqb (r (merge_tool1 ++ "_merge_fingerprint"))
                                   (r (merge_tool2 ++ "_merge_fingerprint"))))
        result_df in
  let merge_name_flags1 :=
    isin merge_tool1 (MERGE_CORRECT_NAMES ++ MERGE_INCORRECT_NAMES)%list result_df in
  let merge_name_flags2 :=
    isin merge_tool2 (MERGE_CORRECT_NAMES ++ MERGE_INCORRECT_NAMES)%list result_df in
  let mask_merge_name := mask_or merge_name_flags1 merge_name_flags2 in
  mask_sum (mask_and mask_diff_fingerprint mask_merge_name).

(** The table [result]: one row per [merge_tool1], one column per
    [merge_tool2]. *)
Definition heatmap (result_df : DataFrame) (merge_tools : list string)
  : list (list nat) :=
  map (fun merge_tool1 =>
         map (fun merge_tool2 => heatmap_cell result_df merge_tool1 merge_tool2)
             merge_tools)
      merge_tools.

(** ** Counting outcomes and the cost intersection ([main]) *)

(** The lists [correct], [incorrect] and [unhandled]. *)
Definition counts : Type := (list Z * list Z * list Z)%type.

(** [l[-1]] and [l[0]] of a list that is not empty (the loop has just
    appended to it). *)
Definition last_of (l : list Z) : Z := last l 0%Z.
Definition first_of (l : list Z) : Z := hd 0%Z l.

(** The loop [for merge_tool in merge_tools + ["Oracle tool"]] with its
    two assertions. *)
Fixpoint count_loop (result_df : DataFrame) (tools : list string) (acc : counts)
  : result counts :=
  match tools with
  | [] => Ok acc
  | merge_tool :: rest =>
      let '(correct, incorrect, unhandled) := acc in
      let merge_tool_status := column merge_tool result_df in
      let correct := (correct ++ [count_in MERGE_CORRECT_NAMES merge_tool_status])%list in
      let incorrect :=
        (incorrect ++ [count_in MERGE_INCORRECT_NAMES merge_tool_status])%list in
      let unhandled :=
        (unhandled ++ [count_in MERGE_UNHANDLED_NAMES merge_tool_status])%list in
      if negb (last_of incorrect + last_of correct + last_of unhandled
               =? Z.of_nat (List.length merge_tool_status))%Z
      then Raise "AssertionError"
      else if negb (first_of incorrect + first_of correct + first_of unhandled
                    =? last_of incorrect + last_of correct + last_of unhandled)%Z
      then Raise "AssertionError"
      else count_loop result_df rest (correct, incorrect, unhandled)
  end.

Definition count_outcomes (result_df : DataFrame) (merge_tools : list string)
  : result counts :=
  count_loop result_df (merge_tools ++ [ORACLE])%list ([], [], []).

(** [l[idx]] *)
Definition py_index (l : list Z) (idx : nat) : result Z :=
  match nth_error l idx with
  | Some x => Ok x
  | None => Raise "IndexError"
  end.

(** [max(a, b)]: [b] when it is larger, otherwise [a]. *)
Definition py_max (a b : Q) : Q := if Qle_bool b a then a else b.

(** The loop that finds [max_cost_intersection], from index [idx] on; the
    quotient is taken without rounding. *)
Fixpoint max_cost_loop (idx : nat) (merge_tools : list string) (c : counts)
  (max_cost_intersection : Q) : result Q :=
  match merge_tools with
  | [] => Ok max_cost_intersection
  | _ :: rest =>
      let '(correct, incorrect, unhandled) := c in
      try i := py_index incorrect idx in
      if (i =? 0)%Z then max_cost_loop (S idx) rest c max_cost_intersection
      else
        try u := py_index unhandled idx in
        try k := py_index correct idx in
        max_cost_loop (S idx) rest c
          (py_max max_cost_intersection
                  (inject_Z ((u + i + k) - u) * 1 / inject_Z i)%Q)
  end.

Definition max_cost_intersection (merge_tools : list string) (c : counts)
  : result Q :=
  max_cost_loop 0 merge_tools c 0%Q.

(** Evaluate the monad and the effects of a run, leaving the world's answers
    and [re.findall] as they are. *)
Ltac io_norm :=
  cbn [bind ret emit raise run trace outcome fst snd app
       stdout stderr returncode checkout_branches write_report].

(* ===================================================================== *)
(** * Statements compared with the program *)
(* ===================================================================== *)

(** The states the reconciliation is specified on. *)
Definition valid_state (s : string) : Prop :=
  s = TEST_STATE.Tests_passed \/ s = MERGE_STATE.Merge_failed \/
  s = TEST_STATE.Tests_failed \/ s = TEST_STATE.Tests_timedout.

(** The two orders in which a non-empty sequence [x; xs] of outcomes can be
    reduced with [merge_two_states]: from the left, as the oracle loop
    does, and from the right. *)
Fixpoint reduce_left (acc : string) (xs : list string) : result string :=
  match xs with
  | [] => Ok acc
  | x :: xs' => try a := merge_two_states acc x in reduce_left a xs'
  end.

Fixpoint reduce_right (x : string) (xs : list string) : result string :=
  match xs with
  | [] => Ok x
  | y :: ys => try r := reduce_right y ys in merge_two_states x r
  end.

(** A row on which two tools have the same fingerprint and different
    outcomes. *)
Definition inconsistent_row (merge_tool1 merge_tool2 : string) (r : row) : Prop :=
  r (merge_tool1 ++ "_merge_fingerprint") = r (merge_tool2 ++ "_merge_fingerprint")
  /\ r merge_tool1 <> r merge_tool2.

Definition inconsistent_rowb (merge_tool1 merge_tool2 : string) (r : row) : bool :=
  String.eqb (r (merge_tool1 ++ "_merge_fingerprint"))
             (r (merge_tool2 ++ "_merge_fingerprint"))
  && negb (String.eqb (r merge_tool1) (r merge_tool2)).

(** The tools [check_fingerprint_consistency] skips. *)
Definition skipped_tool (t : string) : bool :=
  py_in t ["gitmerge_resolve"; "gitmerge_ort_adjacent"; "gitmerge_ort_imports";
           "gitmerge_ort_imports_ignorespace"].

(** The adjacency-based and import-reordering variants (the tools renamed
    "Adjacent+ort", "Imports+ort" and "Imports+ort-ignorespace" in
    [MERGE_TOOL_RENAME]). *)
Definition adjacency_or_imports_variant (t : string) : bool :=
  py_in t ["gitmerge_ort_adjacent"; "gitmerge_ort_imports";
           "gitmerge_ort_imports_ignorespace"].

(** The number of inconsistent rows of a pair of tools, and what is
    logged for them. *)
Definition inconsistent_count (df : DataFrame) (t1 t2 : string) : nat :=
  List.length (filter (inconsistent_rowb t1 t2) df).

Definition offending_rows (df : DataFrame) (t1 t2 : string)
  : list (list string) :=
  map (fun r => [r t1; r t2; r (t1 ++ "_merge_fingerprint")])
      (filter (inconsistent_rowb t1 t2) df).

(** The check ends reporting the pair: both log entries, then the assertion. *)
Definition reports (df : DataFrame) (t1 t2 : string) (m : IO unit) : Prop :=
  m = ([LoggerError
          (inconsistency_message t1 t2 (inconsistent_count df t1 t2));
        LoggerErrorRows (offending_rows df t1 t2)],
       Raise ("AssertionError: "
              ++ inconsistency_message t1 t2 (inconsistent_count df t1 t2))).

(** A pair of distinct tools of the list that the check does not skip. *)
Definition checked_pair (tools : list string) (t1 t2 : string) : Prop :=
  In t1 tools /\ In t2 tools /\ t1 <> t2
  /\ skipped_tool t1 = false /\ skipped_tool t2 = false.

(** No character of [u] is [c]. *)
Fixpoint lacks (c : ascii) (u : string) : bool :=
  match u with
  | EmptyString => true
  | String a u' => negb (Ascii.eqb a c) && lacks c u'
  end.

(** A conflict line of the merge tools' console output. *)
Definition conflict_line (kind path : string) : string :=
  "CONFLICT (" ++ kind ++ "): Merge conflict in " ++ path.

Definition LF : string := String re.newline EmptyString.

(** Console output of a merge with two conflicting files. *)
Definition two_conflicts_output : string :=
  "Auto-merging src/A.txt" ++ LF
  ++ "CONFLICT (content): Merge conflict in src/A.txt" ++ LF
  ++ "Auto-merging src/B.txt" ++ LF
  ++ "CONFLICT (add/add): Merge conflict in src/B.txt" ++ LF
  ++ "Automatic merge failed; fix conflicts and then commit the result." ++ LF.

(** The files a trace writes, with their text. *)
Fixpoint artifacts (t : list event) : list (string * string) :=
  match t with
  | [] => []
  | WriteFile path text :: t' => (path, text) :: artifacts t'
  | _ :: t' => artifacts t'
  end.

(** The event starts [diff3] or [diff], or writes a file. *)
Definition is_diff_or_write (e : event) : bool :=
  match e with
  | Exec _ (prog :: _) => String.eqb prog "diff3" || String.eqb prog "diff"
  | WriteFile _ _ => true
  | _ => false
  end.

(** The program of the argument vector is [diff3]. *)
Definition is_diff3 (argv : list string) : bool :=
  match argv with
  | prog :: _ => String.eqb prog "diff3"
  | [] => false
  end.

(** Two worlds that differ at most in what [diff3] writes to its error
    stream, and agree on whether that text contains [error_message]. *)
Definition same_up_to_diff3_stderr (w1 w2 : World) : Prop :=
  (forall path i col, read_csv w1 path i col = read_csv w2 path i col)
  /\ (forall repo, rev_parse_show_toplevel w1 repo = rev_parse_show_toplevel w2 repo)
  /\ (forall n, temp_file_name w1 n = temp_file_name w2 n)
  /\ (forall cwd argv,
        returncode (subprocess_run w1 cwd argv) = returncode (subprocess_run w2 cwd argv)
        /\ stdout (subprocess_run w1 cwd argv) = stdout (subprocess_run w2 cwd argv)
        /\ (if is_diff3 argv
            then Py.contains error_message (stderr (subprocess_run w1 cwd argv))
                 = Py.contains error_message (stderr (subprocess_run w2 cwd argv))
            else stderr (subprocess_run w1 cwd argv)
                 = stderr (subprocess_run w2 cwd argv))).

(** A world for the examples: the repository is [org/repo], the merge
    script prints [console], and [diff3] and [diff] end as given whatever
    their arguments. *)
Definition example_world_with (console : string)
  (diff3_result diff_result : CompletedProcess) : World :=
  {| subprocess_run := fun _ argv =>
       match argv with
       | prog :: _ =>
           if String.eqb prog "diff3" then diff3_result
           else if String.eqb prog "diff" then diff_result
           else if String.eqb prog "git" then
             {| returncode := 0; stdout := "0a1b2c3" ++ LF; stderr := "" |}
           else if Py.startswith prog "../scripts/merge_tools/" then
             {| returncode := 1; stdout := console; stderr := "" |}
           else {| returncode := 0; stdout := ""; stderr := "" |}
       | [] => {| returncode := 0; stdout := ""; stderr := "" |}
       end;
     read_csv := fun _ _ col =>
       if String.eqb col "repository" || String.eqb col "repo_name"
       then "org/repo" else col ++ "-sha";
     rev_parse_show_toplevel := fun repo => repo ++ "/org/repo";
     temp_file_name := fun n => "/tmp/tmp" ++ Py.str_nat n |}.

(** The merge script reports [two_conflicts_output]. *)
Definition example_world : CompletedProcess -> CompletedProcess -> World :=
  example_world_with two_conflicts_output.

(** Console output of a merge without conflicts. *)
Definition clean_merge_output : string :=
  "Auto-merging src/A.txt" ++ LF
  ++ "Merge made by the 'ort' strategy." ++ LF.

(** The merge succeeds; [diff3] and [diff] would print differences. *)
Definition clean_merge_world : World :=
  example_world_with clean_merge_output
    {| returncode := 1; stdout := "====" ++ LF; stderr := "" |}
    {| returncode := 1; stdout := "1c1" ++ LF; stderr := "" |}.

(** Console output of a merge that fails on a file deleted on one side:
    git reports the conflict in a line of another form. *)
Definition modify_delete_output : string :=
  "CONFLICT (modify/delete): src/A.txt deleted in HEAD and modified in "
  ++ "TEMP_RIGHT_BRANCH. Version TEMP_RIGHT_BRANCH of src/A.txt left in tree."
  ++ LF
  ++ "Automatic merge failed; fix conflicts and then commit the result." ++ LF.

(** That merge; [diff3] and [diff] would print differences. *)
Definition modify_delete_world : World :=
  example_world_with modify_delete_output
    {| returncode := 1; stdout := "====" ++ LF; stderr := "" |}
    {| returncode := 1; stdout := "1c1" ++ LF; stderr := "" |}.

(** [diff3] finds no base file; the merge attempt equals the programmer
    merge, so [diff] prints nothing. *)
Definition missing_base_world : World :=
  example_world
    {| returncode := 2; stdout := "";
       stderr := "diff3: ./repos/base/org/repo/src/A.txt: No such file or directory"
                 ++ LF |}
    {| returncode := 0; stdout := ""; stderr := "" |}.

(** Base, merge attempt and programmer merge are the same text: [diff3]
    prints nothing. *)
Definition identical_files_world : World :=
  example_world
    {| returncode := 0; stdout := ""; stderr := "" |}
    {| returncode := 0; stdout := ""; stderr := "" |}.

(** [diff3] cannot read the merge attempt and says so. *)
Definition permission_denied_world : World :=
  example_world
    {| returncode := 2; stdout := "";
       stderr := "diff3: ./repos/merge_attempt1/org/repo/src/A.txt: Permission denied"
                 ++ LF |}
    {| returncode := 0; stdout := ""; stderr := "" |}.

(** The same failure of [diff3] without a word on its error stream. *)
Definition silent_failure_world : World :=
  example_world
    {| returncode := 2; stdout := ""; stderr := "" |}
    {| returncode := 0; stdout := ""; stderr := "" |}.

(** The viewer cannot be started: [xdg-open] ends with status 3. *)
Definition no_viewer_world : World :=
  {| subprocess_run := fun cwd argv =>
       if String.eqb (hd EmptyString argv) "xdg-open"
       then {| returncode := 3; stdout := ""; stderr := "" |}
       else subprocess_run missing_base_world cwd argv;
     read_csv := read_csv missing_base_world;
     rev_parse_show_toplevel := rev_parse_show_toplevel missing_base_world;
     temp_file_name := temp_file_name missing_base_world |}.

(** A row given by its non-empty cells. *)
Fixpoint row_of (cells : list (string * string)) : row :=
  fun c =>
    match cells with
    | [] => EmptyString
    | (col, v) :: rest => if String.eqb c col then v else row_of rest c
    end.

(** One merge on which ort passed and resolve failed with the same
    fingerprint. *)
Definition ort_resolve_row : row :=
  row_of [("gitmerge_ort", "Tests_passed");
          ("gitmerge_resolve", "Tests_failed");
          ("gitmerge_ort_merge_fingerprint", "4b825dc6");
          ("gitmerge_resolve_merge_fingerprint", "4b825dc6")].

(** One merge on which ort passed and recursive (myers) failed with the
    same fingerprint. *)
Definition ort_myers_row : row :=
  row_of [("gitmerge_ort", "Tests_passed");
          ("gitmerge_recursive_myers", "Tests_failed");
          ("gitmerge_ort_merge_fingerprint", "4b825dc6");
          ("gitmerge_recursive_myers_merge_fingerprint", "4b825dc6")].

(** One merge on which every tool timed out. *)
Definition all_timedout_row : row :=
  row_of [("gitmerge_ort", "Tests_timedout"); ("spork", "Tests_timedout");
          ("intellimerge", "Tests_timedout")].

(** The states an oracle cell can hold. *)
Definition oracle_state (s : string) : Prop :=
  s = TEST_STATE.Tests_passed \/ s = MERGE_STATE.Merge_failed
  \/ s = TEST_STATE.Tests_failed.

(** How a row of the table relates to the same row after the loop over
    [tools]. *)
Definition oracle_row_after (tools : list string) (r r' : row) : Prop :=
  oracle_state (r' ORACLE)
  /\ (forall c, c <> ORACLE -> r' c = r c)
  /\ (r ORACLE = TEST_STATE.Tests_failed ->
      (forall t, In t tools -> t = ORACLE \/ r t = TEST_STATE.Tests_timedout) ->
      r' ORACLE = TEST_STATE.Tests_failed).

(** A pattern makes progress when none of its matches is empty. *)
Definition progress (p : re.pattern) : Prop :=
  forall s m, re.match_items p [] s = Some m ->
              (String.length (snd m) < String.length s)%nat.

(** The same result, with [tail] put back after the text left. *)
Definition extend (tail : string) (m : option (list string * string))
  : option (list string * string) :=
  option_map (fun m => (fst m, snd m ++ tail)) m.

(** Every literal of the pattern is free of newlines. *)
Fixpoint lits_dot (p : re.pattern) : bool :=
  match p with
  | [] => true
  | re.Lit text :: p' => re.all_dot text && lits_dot p'
  | re.AnyPlus _ :: p' => lits_dot p'
  end.

(** The text between the kind and the path of a conflict line. *)
Definition CONFLICT_SEP : string := "): Merge conflict in ".

(** The best outcome among [states], tests failed when there is none
    better: tests passed before merge failed before tests failed. *)
Definition oracle_of (states : list string) : string :=
  if py_in TEST_STATE.Tests_passed states then TEST_STATE.Tests_passed
  else if py_in MERGE_STATE.Merge_failed states then MERGE_STATE.Merge_failed
  else TEST_STATE.Tests_failed.

(** The row has no undesirable state in the column of any of [tools]. *)
Definition desirable_row (tools : list string) (r : row) : bool :=
  forallb (fun t => negb (py_in (r t) UNDESIRABLE_STATES)) tools.

(** The outcome is counted as correct, incorrect or unhandled. *)
Definition known_outcome (val : string) : bool :=
  py_in val (MERGE_CORRECT_NAMES ++ MERGE_INCORRECT_NAMES
             ++ MERGE_UNHANDLED_NAMES)%list.

Definition column_known (result_df : DataFrame) (merge_tool : string) : bool :=
  forallb known_outcome (column merge_tool result_df).

(** A row of the table as it was, and the same row when the outcomes of
    the tools [done] have been folded into its oracle cell. *)
Definition folded (done : list string) (r0 r : row) : Prop :=
  r ORACLE = oracle_of (map r0 done) /\ forall c, c <> ORACLE -> r c = r0 c.

(** The lists of counts when the columns of [done] have been counted. *)
Definition counted (result_df : DataFrame) (done : list string) : counts :=
  (map (fun t => count_in MERGE_CORRECT_NAMES (column t result_df)) done,
   map (fun t => count_in MERGE_INCORRECT_NAMES (column t result_df)) done,
   map (fun t => count_in MERGE_UNHANDLED_NAMES (column t result_df)) done).

(** Where index [j] of the three lists holds the counts [k], [i], [u]. *)
Definition counts_at (c : counts) (j : nat) (k i u : Z) : Prop :=
  let '(correct, incorrect, unhandled) := c in
  nth_error correct j = Some k /\ nth_error incorrect j = Some i
  /\ nth_error unhandled j = Some u.

(** The cost factor at which the tool at index [j] would score zero. *)
Definition crossing (k i u : Z) : Q :=
  (inject_Z ((u + i + k) - u) * 1 / inject_Z i)%Q.

(** The rows counted in a cell of the heat map. *)
Definition differing (merge_tool1 merge_tool2 : string) (r : row) : bool :=
  negb (String.eqb (r (merge_tool1 ++ "_merge_fingerprint"))
                   (r (merge_tool2 ++ "_merge_fingerprint")))
  && (py_in (r merge_tool1) (MERGE_CORRECT_NAMES ++ MERGE_INCORRECT_NAMES)%list
      || py_in (r merge_tool2) (MERGE_CORRECT_NAMES ++ MERGE_INCORRECT_NAMES)%list).

(** The character that separates the words of a tool or run name. *)
Definition underscore : ascii := "_"%char.

(** Names made of ASCII characters only, as the tool names of the
    repository are; on them [PyCase] agrees with Python's [str] methods. *)
Definition ascii_only (s : string) : bool :=
  forallb (fun a => Nat.ltb (nat_of_ascii a) 128) (list_ascii_of_string s).

(** What a cell adds to the count of the outcomes [names]. *)
Definition weight (names : list string) (val : string) : Z :=
  if py_in val names then 1%Z else 0%Z.

(** The score line of a column of the table at a cost factor. *)
Definition column_score (merge_tool : string) (df : DataFrame)
  (cost_factor : Q) : Q :=
  score (count_in MERGE_UNHANDLED_NAMES (column merge_tool df))
        (count_in MERGE_INCORRECT_NAMES (column merge_tool df))
        (count_in MERGE_CORRECT_NAMES (column merge_tool df)) cost_factor.

(** A line that reads [CONFLICT (kind): Merge conflict in path] from some
    position on, with a kind and a path that are not empty. *)
Definition reads_conflict (line path : string) : Prop :=
  exists before kind,
    line = before ++ conflict_line kind path /\ kind <> "" /\ path <> "".

(** The text the comparator keeps: the output of [diff3], or of [diff]
    when [diff3] reported a missing file. *)
Definition kept (w : World) (base attempt merge : string) : string :=
  match compare_mode w base attempt merge with
  | TwoWay => stdout (subprocess_run w None ["diff"; attempt; merge])
  | ThreeWay => stdout (subprocess_run w None ["diff3"; base; attempt; merge])
  end.

(** Where the report of a tool on a conflicting file goes. *)
Definition report_path (repo_output_dir : string) (results_index : Z)
  (merge_tool conflicting_file : string) : string :=
  os_path.join repo_output_dir
    [Py.str results_index; merge_tool;
     "diff_" ++ fst (os_path.splitext (os_path.basename conflicting_file))
     ++ ".txt"].

(** The two reports of a conflicting file, path and text. *)
Definition pair_reports (w : World) (merge_tool1 merge_tool2 : string)
  (results_index : Z) (repo_output_dir repo_name conflicting_file : string)
  : list (string * string) :=
  let conflict_path := os_path.join repo_name [conflicting_file] in
  let base := os_path.join "./repos/base" [conflict_path] in
  let merge := os_path.join "./repos/programmer_merge" [conflict_path] in
  [(report_path repo_output_dir results_index merge_tool1 conflicting_file,
    kept w base (os_path.join "./repos/merge_attempt1" [conflict_path]) merge);
   (report_path repo_output_dir results_index merge_tool2 conflicting_file,
    kept w base (os_path.join "./repos/merge_attempt2" [conflict_path]) merge)].

(** The argument vectors of the programs a run started, in order. *)
Fixpoint started (t : list event) : list (list string) :=
  match t with
  | [] => []
  | Exec _ argv :: t' => argv :: started t'
  | _ :: t' => started t'
  end.

(** The files a run removed, in order. *)
Fixpoint removed (t : list event) : list string :=
  match t with
  | [] => []
  | RemoveFile path :: t' => path :: removed t'
  | _ :: t' => removed t'
  end.

(** The program of an argument vector. *)
Definition program (argv : list string) : string := hd EmptyString argv.

(** The programs the comparator may start. *)
Definition is_diff (argv : list string) : bool :=
  String.eqb (program argv) "diff3" || String.eqb (program argv) "diff".

(** The program that deletes the clones. *)
Definition is_rm (argv : list string) : bool := String.eqb (program argv) "rm".

(** The script of a merge tool. *)
Definition merge_script (merge_tool : string) : string :=
  "../scripts/merge_tools/" ++ merge_tool ++ ".sh".

(** Whether [xdg-open] ends with status 0 on the [k]-th temporary file. *)
Definition opens (w : World) (k : nat) : bool :=
  (returncode (subprocess_run w None ["xdg-open"; temp_file_name w k]) =? 0)%Z.

(** The names of the temporary files [first], ..., [first + count - 1]. *)
Definition temp_files (w : World) (first count : nat) : list string :=
  map (temp_file_name w) (seq first count).

(* ===================================================================== *)
(** * Reconciliation: properties *)
(* ===================================================================== *)

Section Reconciliation.

Import TEST_STATE MERGE_STATE.

Lemma py_in_pair (x a b : string) :
  py_in x [a; b] = true <-> x = a \/ x = b.
Proof.
  simpl. rewrite orb_false_r, orb_true_iff, !String.eqb_eq. tauto.
Qed.

Lemma py_in_pair_false (x a b : string) :
  py_in x [a; b] = false <-> x <> a /\ x <> b.
Proof.
  simpl. rewrite orb_false_r, orb_false_iff, !String.eqb_neq. tauto.
Qed.

(** On valid states the reconciliation never raises and stays valid. *)
Lemma merge_two_states_valid (a b : string) :
  valid_state a -> valid_state b ->
  exists r, merge_two_states a b = Ok r /\ valid_state r.
Proof.
  unfold valid_state.
  intros [-> | [-> | [-> | ->]]] [-> | [-> | [-> | ->]]];
    eexists; (split; [reflexivity | tauto]).
Qed.

Lemma merge_two_states_assoc_valid (a b c : string) :
  valid_state a -> valid_state b -> valid_state c ->
  (try x := merge_two_states a b in merge_two_states x c)
  = (try y := merge_two_states b c in merge_two_states a y).
Proof.
  unfold valid_state.
  intros [-> | [-> | [-> | ->]]] [-> | [-> | [-> | ->]]]
         [-> | [-> | [-> | ->]]]; reflexivity.
Qed.

Lemma reduce_right_valid (xs : list string) :
  forall x, valid_state x -> Forall valid_state xs ->
  exists r, reduce_right x xs = Ok r /\ valid_state r.
Proof.
  induction xs as [| y ys IH]; intros x Hx Hxs.
  - exists x. split; [reflexivity | assumption].
  - inversion Hxs as [| ? ? Hy Hys]; subst.
    destruct (IH y Hy Hys) as (r & Hr & Hv).
    simpl. rewrite Hr. simpl. apply merge_two_states_valid; assumption.
Qed.

(** C1: [merge_two_states] follows the precedence tests passed, merge
    failed, tests failed, and returns tests timed out only for two
    timeouts; every other pair raises "Invalid case".  In particular a
    passing first argument always gives tests passed. *)
Theorem merge_two_states_precedence (a b : string) :
  ((a = Tests_passed \/ b = Tests_passed) ->
     merge_two_states a b = Ok Tests_passed)
  /\ (a <> Tests_passed -> b <> Tests_passed ->
      (a = Merge_failed \/ b = Merge_failed) ->
      merge_two_states a b = Ok Merge_failed)
  /\ (a <> Tests_passed -> b <> Tests_passed ->
      a <> Merge_failed -> b <> Merge_failed ->
      (a = Tests_failed \/ b = Tests_failed) ->
      merge_two_states a b = Ok Tests_failed)
  /\ (a = Tests_timedout -> b = Tests_timedout ->
      merge_two_states a b = Ok Tests_timedout)
  /\ (a <> Tests_passed -> b <> Tests_passed ->
      a <> Merge_failed -> b <> Merge_failed ->
      a <> Tests_failed -> b <> Tests_failed ->
      ~ (a = Tests_timedout /\ b = Tests_timedout) ->
      merge_two_states a b = Raise "Invalid case")
  /\ (forall X, merge_two_states Tests_passed X = Ok Tests_passed).
Proof.
  assert (Hpass : forall x y, x = Tests_passed \/ y = Tests_passed ->
                              merge_two_states x y = Ok Tests_passed).
  { intros x y H. unfold merge_two_states.
    replace (py_in Tests_passed [x; y]) with true; [reflexivity |].
    symmetry. apply py_in_pair. intuition congruence. }
  assert (Hnp : forall x y, x <> Tests_passed -> y <> Tests_passed ->
                            py_in Tests_passed [x; y] = false).
  { intros x y Hx Hy. apply py_in_pair_false. split; congruence. }
  assert (Hnm : forall x y, x <> Merge_failed -> y <> Merge_failed ->
                            py_in Merge_failed [x; y] = false).
  { intros x y Hx Hy. apply py_in_pair_false. split; congruence. }
  split; [| split; [| split; [| split; [| split]]]].
  - apply Hpass.
  - intros Ha Hb H. unfold merge_two_states. rewrite (Hnp a b Ha Hb).
    replace (py_in Merge_failed [a; b]) with true; [reflexivity |].
    symmetry. apply py_in_pair. intuition congruence.
  - intros Ha Hb Ha' Hb' H. unfold merge_two_states.
    rewrite (Hnp a b Ha Hb), (Hnm a b Ha' Hb').
    replace (py_in Tests_failed [a; b]) with true; [reflexivity |].
    symmetry. apply py_in_pair. intuition congruence.
  - intros -> ->. reflexivity.
  - intros Ha Hb Ha' Hb' Ha'' Hb'' Ht. unfold merge_two_states.
    rewrite (Hnp a b Ha Hb), (Hnm a b Ha' Hb').
    replace (py_in Tests_failed [a; b]) with false
      by (symmetry; apply py_in_pair_false; split; congruence).
    destruct (String.eqb_spec a Tests_timedout) as [Ea | Ea];
      destruct (String.eqb_spec b Tests_timedout) as [Eb | Eb];
      simpl; try reflexivity.
    exfalso. apply Ht. split; assumption.
  - intros X. apply Hpass. left. reflexivity.
Qed.

(** The precedence at the pair (tests timed out, tests failed) and at a
    pair outside the table. *)
Lemma merge_two_states_precedence_witness :
  merge_two_states Tests_timedout Tests_failed = Ok Tests_failed
  /\ merge_two_states Tests_timedout Merge_timedout = Raise "Invalid case".
Proof.
  split.
  - apply (merge_two_states_precedence Tests_timedout Tests_failed);
      try discriminate. right. reflexivity.
  - apply (merge_two_states_precedence Tests_timedout Merge_timedout);
      try discriminate. intros [_ H]. discriminate H.
Defined.

(** C2: on the valid states the reconciliation is associative (and
    total), so reducing a sequence of outcomes from the left and from the
    right gives the same state. *)
Theorem merge_two_states_associative (a b c : string) (xs : list string) :
  valid_state a -> valid_state b -> valid_state c -> Forall valid_state xs ->
  (try x := merge_two_states a b in merge_two_states x c)
  = (try y := merge_two_states b c in merge_two_states a y)
  /\ (exists r, (try x := merge_two_states a b in merge_two_states x c) = Ok r
                /\ valid_state r)
  /\ reduce_left a xs = reduce_right a xs.
Proof.
  intros Ha Hb Hc Hxs. split; [| split].
  - apply merge_two_states_assoc_valid; assumption.
  - destruct (merge_two_states_valid a b Ha Hb) as (x & Hx & Hvx).
    rewrite Hx. simpl. apply merge_two_states_valid; assumption.
  - clear b c Hb Hc. revert a Ha.
    induction Hxs as [| y ys Hy Hys IH]; intros a Ha; [reflexivity |].
    simpl.
    destruct (merge_two_states_valid a y Ha Hy) as (m & Hm & Hvm).
    rewrite Hm. simpl. rewrite (IH m Hvm).
    (* (a . y) . R = a . (y . R) *)
    destruct Hys as [| z zs Hz Hzs]; simpl.
    + symmetry. exact Hm.
    + destruct (reduce_right_valid zs z Hz Hzs) as (r & Hr & Hvr).
      rewrite Hr. simpl.
      pose proof (merge_two_states_assoc_valid a y r Ha Hy Hvr) as A.
      rewrite Hm in A. simpl in A. exact A.
Qed.

Lemma merge_two_states_associative_witness :
  (try x := merge_two_states Tests_timedout Tests_failed in
   merge_two_states x Merge_failed)
  = (try y := merge_two_states Tests_failed Merge_failed in
     merge_two_states Tests_timedout y)
  /\ reduce_left Tests_timedout [Tests_failed; Merge_failed; Tests_timedout]
     = reduce_right Tests_timedout [Tests_failed; Merge_failed; Tests_timedout].
Proof.
  assert (V : forall s, In s [Tests_passed; Merge_failed; Tests_failed;
                              Tests_timedout] -> valid_state s).
  { unfold valid_state. simpl. intros s H. intuition auto. }
  destruct (merge_two_states_associative
              Tests_timedout Tests_failed Merge_failed
              [Tests_failed; Merge_failed; Tests_timedout]) as (H1 & _ & H3).
  - apply V; simpl; tauto.
  - apply V; simpl; tauto.
  - apply V; simpl; tauto.
  - repeat constructor; apply V; simpl; tauto.
  - split; assumption.
Defined.

End Reconciliation.

(* ===================================================================== *)
(** * The oracle column: properties *)
(* ===================================================================== *)

Section Oracle.

Import TEST_STATE MERGE_STATE.

(** From an oracle state, one more outcome (any text at all) never
    raises and gives an oracle state again; a timeout or a repeated
    tests failed leaves tests failed as it is. *)
Lemma merge_two_states_oracle (o x : string) :
  oracle_state o ->
  exists o', merge_two_states o x = Ok o' /\ oracle_state o'
             /\ (o = Tests_failed ->
                 x = Tests_timedout \/ x = Tests_failed ->
                 o' = Tests_failed).
Proof.
  unfold oracle_state.
  intros [-> | [-> | ->]].
  - exists Tests_passed.
    split; [reflexivity | split; [auto | discriminate]].
  - unfold merge_two_states.
    destruct (py_in Tests_passed [Merge_failed; x]) eqn:E.
    + exists Tests_passed.
      split; [reflexivity | split; [auto | discriminate]].
    + exists Merge_failed.
      split; [reflexivity | split; [auto | discriminate]].
  - unfold merge_two_states.
    destruct (py_in Tests_passed [Tests_failed; x]) eqn:E.
    + exists Tests_passed.
      split; [reflexivity | split; [auto |]].
      apply py_in_pair in E. destruct E as [E | E]; [discriminate E |].
      subst x. intros _ [H | H]; discriminate H.
    + destruct (py_in Merge_failed [Tests_failed; x]) eqn:E'.
      * exists Merge_failed.
        split; [reflexivity | split; [auto |]].
        apply py_in_pair in E'. destruct E' as [E' | E']; [discriminate E' |].
        subst x. intros _ [H | H]; discriminate H.
      * exists Tests_failed.
        split; [reflexivity | split; [auto | reflexivity]].
Qed.

Lemma apply_rows_oracle (merge_tool : string) (df : DataFrame) :
  Forall (fun r => oracle_state (r ORACLE)) df ->
  exists col,
    apply_rows (fun r => merge_two_states (r ORACLE) (r merge_tool)) df = Ok col
    /\ Forall2 (oracle_row_after [merge_tool]) df (assign ORACLE col df).
Proof.
  induction 1 as [| r rs Hr Hrs IH].
  - exists []. split; [reflexivity | constructor].
  - destruct IH as (col & Hcol & Hall).
    destruct (merge_two_states_oracle (r ORACLE) (r merge_tool) Hr)
      as (o' & Ho' & Hgood & Hkeep).
    exists (o' :: col). simpl. rewrite Ho'. simpl. rewrite Hcol. simpl.
    split; [reflexivity |]. constructor; [| exact Hall].
    unfold oracle_row_after, set_col. rewrite String.eqb_refl.
    split; [exact Hgood | split].
    + intros c Hc. apply String.eqb_neq in Hc. rewrite Hc. reflexivity.
    + intros Ho Ht. apply Hkeep; [exact Ho |].
      destruct (Ht merge_tool (or_introl eq_refl)) as [-> | E].
      * right. exact Ho.
      * left. exact E.
Qed.

Lemma oracle_loop_rows (tools : list string) :
  forall df, Forall (fun r => oracle_state (r ORACLE)) df ->
  exists df', oracle_loop tools df = Ok df'
              /\ Forall2 (oracle_row_after tools) df df'.
Proof.
  induction tools as [| t ts IH]; intros df Hdf.
  - exists df. split; [reflexivity |].
    induction Hdf as [| r rs Hr _ IHrs]; constructor; [| exact IHrs].
    unfold oracle_row_after. intuition auto.
  - destruct (apply_rows_oracle t df Hdf) as (col & Hcol & Hstep).
    assert (Hmid : Forall (fun r => oracle_state (r ORACLE))
                     (assign ORACLE col df)).
    { clear - Hstep. induction Hstep as [| r r1 rs rs1 H _ IHs];
        constructor; [apply H | exact IHs]. }
    destruct (IH _ Hmid) as (df' & Hloop & Hrest).
    exists df'. simpl. rewrite Hcol. simpl. split; [exact Hloop |].
    clear - Hstep Hrest. revert df' Hrest.
    induction Hstep as [| r r1 rs rs1 H1 _ IHs]; intros df' Hrest;
      inversion Hrest as [| ? r' ? rs' H2 Hrs2]; subst; constructor.
    + destruct H1 as (G1 & K1 & F1). destruct H2 as (G2 & K2 & F2).
      split; [exact G2 | split].
      * intros c Hc. rewrite (K2 c Hc). apply K1. exact Hc.
      * intros Ho Ht. apply F2.
        -- apply F1; [exact Ho |]. intros t' [<- | []]. apply Ht. left.
           reflexivity.
        -- intros t' Hin. destruct (Ht t' (or_intror Hin)) as [E | E];
             [left; exact E |].
           destruct (String.eqb_spec t' ORACLE) as [E' | E'];
             [left; exact E' | right].
           rewrite (K1 t' E'). exact E.
    + apply IHs. exact Hrs2.
Qed.

(** Seeded with tests failed and folded over the tools, the oracle column
    only holds tests passed, merge failed or tests failed, and tests
    failed where every tool timed out. *)
Lemma oracle_loop_states (tools : list string) (df : DataFrame) :
  exists df',
    add_oracle tools df = Ok df'
    /\ Forall2 (fun r r' =>
                  (r' ORACLE = Tests_passed \/ r' ORACLE = Merge_failed
                   \/ r' ORACLE = Tests_failed)
                  /\ r' ORACLE <> Tests_timedout
                  /\ (forall c, c <> ORACLE -> r' c = r c)
                  /\ ((forall t, In t tools -> r t = Tests_timedout) ->
                      r' ORACLE = Tests_failed))
               df df'.
Proof.
  unfold add_oracle.
  set (df0 := assign ORACLE (map (fun _ => Tests_failed) df) df).
  assert (H0 : Forall2 (fun r r0 => r0 ORACLE = Tests_failed
                                    /\ forall c, c <> ORACLE -> r0 c = r c)
                 df df0).
  { subst df0. induction df as [| r rs IH]; simpl; constructor; [| exact IH].
    unfold set_col. rewrite String.eqb_refl. split; [reflexivity |].
    intros c Hc. apply String.eqb_neq in Hc. rewrite Hc. reflexivity. }
  assert (Hgood : Forall (fun r => oracle_state (r ORACLE)) df0).
  { clear - H0. induction H0 as [| r r0 rs rs0 [E _] _ IH]; constructor;
      [| exact IH]. right. right. exact E. }
  destruct (oracle_loop_rows tools df0 Hgood) as (df' & Hloop & Hrows).
  exists df'. split; [exact Hloop |].
  clear - H0 Hrows. revert df' Hrows.
  induction H0 as [| r r0 rs rs0 [E0 K0] _ IH]; intros df' Hrows;
    inversion Hrows as [| ? r' ? rs' (G & K & F) Hrs]; subst; constructor.
  - split; [exact G | split; [| split]].
    + destruct G as [E | [E | E]]; rewrite E; discriminate.
    + intros c Hc. rewrite (K c Hc). apply K0. exact Hc.
    + intros Ht. apply F; [exact E0 |].
      intros t Hin.
      destruct (String.eqb_spec t ORACLE) as [E' | E'];
        [left; exact E' | right].
      rewrite (K0 t E'). apply Ht. exact Hin.
  - apply IH. exact Hrs.
Qed.

End Oracle.

(* ===================================================================== *)
(** * The cost-tradeoff score: properties *)
(* ===================================================================== *)

Section Score.

Local Open Scope Q_scope.

Lemma score_le (unhandled incorrect correct : Z) (k1 k2 : Q) :
  (0 <= incorrect)%Z ->
  (0 <= unhandled + incorrect + correct)%Z ->
  k1 <= k2 ->
  score unhandled incorrect correct k2 <= score unhandled incorrect correct k1.
Proof.
  intros Hi Ht Hk. unfold score, Qminus.
  apply Qplus_le_compat; [apply Qle_refl |].
  apply Qopp_le_compat.
  unfold Qdiv. apply Qmult_le_compat_r.
  - apply Qplus_le_compat; [apply Qle_refl |].
    rewrite (Qmult_comm _ k1), (Qmult_comm _ k2).
    apply Qmult_le_compat_r; [exact Hk |].
    change 0 with (inject_Z 0). rewrite <- Zle_Qle. exact Hi.
  - apply Qinv_le_0_compat.
    change 0 with (inject_Z 0). rewrite <- Zle_Qle. exact Ht.
Qed.

(** The counts the cost plots are drawn from are never negative, so the
    score of a tool's column does not increase with the cost factor. *)
Lemma count_in_nonneg (names merge_tool_status : list string) :
  (0 <= count_in names merge_tool_status)%Z.
Proof. unfold count_in. lia. Qed.

Lemma score_of_column_le (merge_tool_status : list string) (k1 k2 : Q) :
  k1 <= k2 ->
  score (count_in MERGE_UNHANDLED_NAMES merge_tool_status)
        (count_in MERGE_INCORRECT_NAMES merge_tool_status)
        (count_in MERGE_CORRECT_NAMES merge_tool_status) k2
  <= score (count_in MERGE_UNHANDLED_NAMES merge_tool_status)
           (count_in MERGE_INCORRECT_NAMES merge_tool_status)
           (count_in MERGE_CORRECT_NAMES merge_tool_status) k1.
Proof.
  intros Hk. apply score_le; [apply count_in_nonneg | | exact Hk].
  pose proof (count_in_nonneg MERGE_UNHANDLED_NAMES merge_tool_status).
  pose proof (count_in_nonneg MERGE_INCORRECT_NAMES merge_tool_status).
  pose proof (count_in_nonneg MERGE_CORRECT_NAMES merge_tool_status).
  lia.
Qed.

(** C7: for non-negative counts with a positive total, the score does
    not increase when the cost factor grows (in particular when some
    merge is incorrect), and without incorrect merges it does not depend
    on the cost factor. *)
Theorem score_monotone_in_cost_factor
  (correct incorrect unhandled : Z) (k1 k2 : Q) :
  (0 <= correct)%Z -> (0 <= incorrect)%Z -> (0 <= unhandled)%Z ->
  (0 < correct + incorrect + unhandled)%Z ->
  ((0 < incorrect)%Z -> k1 <= k2 ->
   score unhandled incorrect correct k2 <= score unhandled incorrect correct k1)
  /\ (incorrect = 0%Z ->
      score unhandled incorrect correct k1 == score unhandled incorrect correct k2).
Proof.
  intros Hc Hi Hu Ht. split.
  - intros _ Hk. apply score_le; [exact Hi | lia | exact Hk].
  - intros ->. unfold score.
    setoid_replace (inject_Z 0 * k1) with 0 by apply Qmult_0_l.
    setoid_replace (inject_Z 0 * k2) with 0 by apply Qmult_0_l.
    reflexivity.
Qed.

(** Three correct, two incorrect and five unhandled merges at the cost
    factors 1 and 4: the scores are 3/10 and -3/10. *)
Lemma score_monotone_in_cost_factor_witness :
  score 5 2 3 4 <= score 5 2 3 1
  /\ score 5 2 3 1 == 3 # 10
  /\ score 5 2 3 4 == - (3 # 10)
  /\ score 5 0 3 1 == score 5 0 3 4.
Proof.
  destruct (score_monotone_in_cost_factor 3 2 5 1 4) as [Hmono _];
    [lia | lia | lia | lia |].
  destruct (score_monotone_in_cost_factor 3 0 5 1 4) as [_ Hconst];
    [lia | lia | lia | lia |].
  split; [apply Hmono; [lia | discriminate] |].
  split; [reflexivity |]. split; [reflexivity |].
  apply Hconst. reflexivity.
Defined.

End Score.

(* ===================================================================== *)
(** * The fingerprint check: properties *)
(* ===================================================================== *)

Section Fingerprints.

Lemma inconsistent_rowb_spec (t1 t2 : string) (r : row) :
  inconsistent_rowb t1 t2 r = true <-> inconsistent_row t1 t2 r.
Proof.
  unfold inconsistent_rowb, inconsistent_row.
  rewrite andb_true_iff, negb_true_iff, String.eqb_eq, String.eqb_neq.
  tauto.
Qed.

Lemma inconsistent_mask_map (df : DataFrame) (t1 t2 : string) :
  inconsistent_mask df t1 t2 = map (inconsistent_rowb t1 t2) df.
Proof.
  unfold inconsistent_mask, same_fingerprint_mask, same_result_mask, mask_not.
  induction df as [| r rs IH]; simpl; [reflexivity |].
  rewrite IH. reflexivity.
Qed.

Lemma mask_sum_map (f : row -> bool) (df : DataFrame) :
  mask_sum (map f df) = List.length (filter f df).
Proof.
  unfold mask_sum. induction df as [| r rs IH]; simpl; [reflexivity |].
  destruct (f r); simpl; rewrite IH; reflexivity.
Qed.

Lemma loc_cols_map (f : row -> bool) (cols : list string) (df : DataFrame) :
  loc_cols df (map f df) cols = map (fun r => map r cols) (filter f df).
Proof.
  induction df as [| r rs IH]; simpl; [reflexivity |].
  rewrite IH. destruct (f r); reflexivity.
Qed.

Lemma filter_nil_iff {A : Type} (f : A -> bool) (l : list A) :
  List.length (filter f l) = 0%nat <-> forall x, In x l -> f x = false.
Proof.
  induction l as [| a l IH]; simpl.
  - split; [intros _ x [] | reflexivity].
  - destruct (f a) eqn:E; simpl.
    + split; [discriminate |]. intros H.
      rewrite (H a (or_introl eq_refl)) in E. discriminate E.
    + rewrite IH. split.
      * intros H x [<- | Hx]; [exact E | apply H; exact Hx].
      * intros H x Hx. apply H. right. exact Hx.
Qed.

Lemma check_pair_skipped (df : DataFrame) (t1 t2 : string) :
  skipped_tool t1 = true \/ skipped_tool t2 = true \/ t1 = t2 ->
  check_pair df t1 t2 = ret tt.
Proof.
  unfold skipped_tool, py_in, check_pair.
  destruct (String.eqb t1 "gitmerge_resolve"),
           (String.eqb t2 "gitmerge_resolve"); try reflexivity.
  destruct (String.eqb t1 "gitmerge_ort_adjacent"),
           (String.eqb t2 "gitmerge_ort_adjacent"); try reflexivity.
  destruct (String.eqb t1 "gitmerge_ort_imports"),
           (String.eqb t2 "gitmerge_ort_imports"); try reflexivity.
  destruct (String.eqb t1 "gitmerge_ort_imports_ignorespace"),
           (String.eqb t2 "gitmerge_ort_imports_ignorespace"); try reflexivity.
  cbn [orb]. intros [H | [H | H]]; try discriminate H.
  subst t2. rewrite String.eqb_refl. reflexivity.
Qed.

Lemma check_pair_checked (df : DataFrame) (t1 t2 : string) :
  skipped_tool t1 = false -> skipped_tool t2 = false -> t1 <> t2 ->
  (inconsistent_count df t1 t2 = 0%nat /\ check_pair df t1 t2 = ret tt)
  \/ (inconsistent_count df t1 t2 <> 0%nat
      /\ reports df t1 t2 (check_pair df t1 t2)).
Proof.
  unfold skipped_tool, py_in, check_pair, reports.
  intros H1 H2 Hne.
  rewrite !orb_false_r in H1, H2.
  apply orb_false_iff in H1. destruct H1 as [A1 H1].
  apply orb_false_iff in H1. destruct H1 as [B1 H1].
  apply orb_false_iff in H1. destruct H1 as [C1 D1].
  apply orb_false_iff in H2. destruct H2 as [A2 H2].
  apply orb_false_iff in H2. destruct H2 as [B2 H2].
  apply orb_false_iff in H2. destruct H2 as [C2 D2].
  rewrite A1, A2, B1, B2, C1, C2, D1, D2. cbn [orb].
  apply String.eqb_neq in Hne. rewrite Hne. cbn [negb].
  rewrite inconsistent_mask_map, mask_sum_map, loc_cols_map.
  fold (inconsistent_count df t1 t2).
  destruct (inconsistent_count df t1 t2) as [| n] eqn:En.
  - left. split; reflexivity.
  - right. split; [discriminate |]. reflexivity.
Qed.

(** A loop whose bodies either do nothing or end in a report. *)
Lemma for_each_quiet {A : Type} (xs : list A) (body : A -> IO unit) :
  (forall x, In x xs -> body x = ret tt) -> for_each xs body = ret tt.
Proof.
  induction xs as [| x xs IH]; intros H; simpl; [reflexivity |].
  rewrite (H x (or_introl eq_refl)). simpl.
  rewrite IH; [reflexivity |]. intros y Hy. apply H. right. exact Hy.
Qed.

Lemma bind_ret_tt {B : Type} (k : unit -> IO B) : bind (ret tt) k = k tt.
Proof.
  unfold bind, ret. destruct (k tt) as [t r]. reflexivity.
Qed.

Lemma for_each_dichotomy {A : Type} (P : IO unit -> Prop)
  (xs : list A) (body : A -> IO unit) :
  (forall x, In x xs ->
     body x = ret tt \/ (P (body x) /\ exists t msg, body x = (t, Raise msg))) ->
  ((forall x, In x xs -> body x = ret tt) /\ for_each xs body = ret tt)
  \/ (P (for_each xs body) /\ exists t msg, for_each xs body = (t, Raise msg)).
Proof.
  induction xs as [| x xs IH]; intros Hall.
  - left. split; [intros x [] | reflexivity].
  - simpl.
    destruct (Hall x (or_introl eq_refl)) as [Hq | (HP & t & msg & Hr)].
    + rewrite Hq, bind_ret_tt.
      destruct IH as [[Hqs Hret] | Hrep].
      * intros z Hz. apply Hall. right. exact Hz.
      * left. split; [| exact Hret].
        intros z [<- | Hz]; [exact Hq | apply Hqs; exact Hz].
      * right. exact Hrep.
    + right. rewrite Hr in *. simpl. split; [exact HP | eauto].
Qed.

(** C8 (amended): the check looks at the pairs of distinct tools neither
    of which is gitmerge_resolve, gitmerge_ort_adjacent, gitmerge_ort_imports
    or gitmerge_ort_imports_ignorespace.  When some row has equal
    fingerprints and different outcomes for such a pair, the check logs the
    count and the offending rows of a pair and ends in an assertion error;
    when no row does, it logs nothing and returns. *)
Theorem fingerprint_check_reports (result_df : DataFrame) (merge_tools : list string) :
  ((exists t1 t2 r, checked_pair merge_tools t1 t2 /\ In r result_df
                    /\ inconsistent_row t1 t2 r) ->
   exists u1 u2, checked_pair merge_tools u1 u2
                 /\ inconsistent_count result_df u1 u2 <> 0%nat
                 /\ reports result_df u1 u2
                      (check_fingerprint_consistency result_df merge_tools))
  /\ ((forall t1 t2 r, checked_pair merge_tools t1 t2 -> In r result_df ->
                       ~ inconsistent_row t1 t2 r) ->
      check_fingerprint_consistency result_df merge_tools = ret tt).
Proof.
  set (P := fun m : IO unit =>
              exists u1 u2, checked_pair merge_tools u1 u2
                            /\ inconsistent_count result_df u1 u2 <> 0%nat
                            /\ reports result_df u1 u2 m).
  assert (Hpair : forall t1 t2, In t1 merge_tools -> In t2 merge_tools ->
            (check_pair result_df t1 t2 = ret tt
             /\ (checked_pair merge_tools t1 t2 ->
                 inconsistent_count result_df t1 t2 = 0%nat))
            \/ (P (check_pair result_df t1 t2)
                /\ exists t msg, check_pair result_df t1 t2 = (t, Raise msg))).
  { intros t1 t2 H1 H2.
    destruct (skipped_tool t1) eqn:S1;
      [left; split; [apply check_pair_skipped; tauto
                    | intros (_ & _ & _ & S & _); congruence] |].
    destruct (skipped_tool t2) eqn:S2;
      [left; split; [apply check_pair_skipped; tauto
                    | intros (_ & _ & _ & _ & S); congruence] |].
    destruct (String.eqb_spec t1 t2) as [E | E];
      [left; split; [apply check_pair_skipped; tauto
                    | intros (_ & _ & N & _); contradiction] |].
    destruct (check_pair_checked result_df t1 t2 S1 S2 E)
      as [[Hz Hq] | [Hnz Hrep]].
    - left. split; [exact Hq | intros _; exact Hz].
    - right. split.
      + exists t1, t2. unfold checked_pair. tauto.
      + unfold reports in Hrep. rewrite Hrep. eauto. }
  assert (Hinner : forall t1, In t1 merge_tools ->
            ((forall t2, In t2 merge_tools -> check_pair result_df t1 t2 = ret tt)
             /\ for_each merge_tools (check_pair result_df t1) = ret tt)
            \/ (P (for_each merge_tools (check_pair result_df t1))
                /\ exists t msg,
                     for_each merge_tools (check_pair result_df t1)
                     = (t, Raise msg))).
  { intros t1 H1. apply for_each_dichotomy.
    intros t2 H2. destruct (Hpair t1 t2 H1 H2) as [[Hq _] | Hrep]; tauto. }
  assert (Houter :
            ((forall t1, In t1 merge_tools ->
                for_each merge_tools (check_pair result_df t1) = ret tt)
             /\ check_fingerprint_consistency result_df merge_tools = ret tt)
            \/ (P (check_fingerprint_consistency result_df merge_tools)
                /\ exists t msg,
                     check_fingerprint_consistency result_df merge_tools
                     = (t, Raise msg))).
  { unfold check_fingerprint_consistency. apply for_each_dichotomy.
    intros t1 H1. destruct (Hinner t1 H1) as [[_ Hq] | Hrep]; tauto. }
  assert (Hzero : forall t1 t2 r, checked_pair merge_tools t1 t2 ->
            In r result_df -> inconsistent_row t1 t2 r ->
            check_pair result_df t1 t2 <> ret tt).
  { intros t1 t2 r Hc Hr Hbad Hq.
    destruct Hc as (H1 & H2 & Hne & S1 & S2).
    destruct (check_pair_checked result_df t1 t2 S1 S2 Hne)
      as [[Hz _] | [_ Hrep]].
    - unfold inconsistent_count in Hz.
      rewrite filter_nil_iff in Hz. specialize (Hz r Hr).
      apply inconsistent_rowb_spec in Hbad. congruence.
    - unfold reports in Hrep. rewrite Hrep in Hq. discriminate Hq. }
  split.
  - intros (t1 & t2 & r & Hc & Hr & Hbad).
    destruct Houter as [[Hall _] | [HP _]]; [| exact HP].
    exfalso.
    pose proof Hc as (H1 & H2 & _).
    destruct (Hinner t1 H1) as [[Hq _] | [_ (t & msg & Hraise)]].
    + exact (Hzero t1 t2 r Hc Hr Hbad (Hq t2 H2)).
    + rewrite (Hall t1 H1) in Hraise. discriminate Hraise.
  - intros Hnone. apply for_each_quiet. intros t1 H1.
    apply for_each_quiet. intros t2 H2.
    destruct (Hpair t1 t2 H1 H2) as [[Hq _] | [(u1 & u2 & Hc & Hnz & _) _]];
      [exact Hq |].
    exfalso. apply Hnz. unfold inconsistent_count. apply filter_nil_iff.
    intros r Hr. destruct (inconsistent_rowb u1 u2 r) eqn:E; [| reflexivity].
    apply inconsistent_rowb_spec in E. destruct (Hnone u1 u2 r Hc Hr E).
Qed.

(** The check on one row that is inconsistent for ort and recursive
    (myers). *)
Lemma fingerprint_check_reports_witness :
  exists u1 u2,
    checked_pair ["gitmerge_ort"; "gitmerge_recursive_myers"] u1 u2
    /\ inconsistent_count [ort_myers_row] u1 u2 <> 0%nat
    /\ reports [ort_myers_row] u1 u2
         (check_fingerprint_consistency [ort_myers_row]
            ["gitmerge_ort"; "gitmerge_recursive_myers"]).
Proof.
  apply (fingerprint_check_reports [ort_myers_row]
           ["gitmerge_ort"; "gitmerge_recursive_myers"]).
  exists "gitmerge_ort", "gitmerge_recursive_myers", ort_myers_row.
  split; [| split].
  - unfold checked_pair. simpl.
    split; [tauto | split; [tauto | split; [discriminate | split; reflexivity]]].
  - left. reflexivity.
  - split; [reflexivity | discriminate].
Defined.

(** C8, as stated, fails: gitmerge_resolve is neither an adjacency-based
    nor an import-reordering variant, yet a row with equal fingerprints
    and different outcomes for ort and resolve passes the check without a
    log entry. *)
Lemma fingerprint_check_skips_resolve :
  adjacency_or_imports_variant "gitmerge_ort" = false
  /\ adjacency_or_imports_variant "gitmerge_resolve" = false
  /\ "gitmerge_ort" <> "gitmerge_resolve"
  /\ inconsistent_row "gitmerge_ort" "gitmerge_resolve" ort_resolve_row
  /\ check_fingerprint_consistency [ort_resolve_row]
       ["gitmerge_ort"; "gitmerge_resolve"] = ret tt.
Proof.
  split; [reflexivity | split; [reflexivity | split; [discriminate | split]]].
  - split; [reflexivity | discriminate].
  - reflexivity.
Qed.

End Fingerprints.

(* ===================================================================== *)
(** * Strings: basic facts *)
(* ===================================================================== *)

Section Strings.

Lemma append_nil_r (s : string) : s ++ "" = s.
Proof. induction s as [| a s IH]; simpl; [| rewrite IH]; reflexivity. Qed.

Lemma append_assoc (a b c : string) : (a ++ b) ++ c = a ++ (b ++ c).
Proof. induction a as [| x a IH]; simpl; [| rewrite IH]; reflexivity. Qed.

Lemma length_append (a b : string) :
  String.length (a ++ b) = (String.length a + String.length b)%nat.
Proof. induction a as [| x a IH]; simpl; [| rewrite IH]; reflexivity. Qed.

Lemma prefix_nil (s : string) : String.prefix "" s = true.
Proof. destruct s; reflexivity. Qed.

Lemma prefix_append (a b : string) : String.prefix a (a ++ b) = true.
Proof.
  induction a as [| x a IH]; simpl; [apply prefix_nil |].
  destruct (Ascii.ascii_dec x x) as [_ | N]; [exact IH | contradiction].
Qed.

Lemma prefix_true_inv (a s : string) :
  String.prefix a s = true -> exists r, s = a ++ r.
Proof.
  revert s. induction a as [| x a IH]; intros s H.
  - exists s. reflexivity.
  - destruct s as [| y s]; [discriminate H |]. simpl in H.
    destruct (Ascii.ascii_dec x y) as [-> | _]; [| discriminate H].
    destruct (IH s H) as (r & ->). exists r. reflexivity.
Qed.

Lemma prefix_append_l (a b s : string) :
  String.prefix (a ++ b) s = true -> String.prefix a s = true.
Proof.
  intros H. destruct (prefix_true_inv _ _ H) as (r & ->).
  rewrite append_assoc. apply prefix_append.
Qed.

(** [needle in s] exactly when [needle] starts some suffix of [s]. *)
Lemma contains_true_iff (needle s : string) :
  Py.contains needle s = true <-> exists a b, s = a ++ needle ++ b.
Proof.
  induction s as [| c s IH].
  - change (Py.contains needle "") with (String.prefix needle "" || false).
    rewrite orb_false_r. split.
    + intros H. destruct (prefix_true_inv _ _ H) as (r & E).
      exists "", r. exact E.
    + intros (a & b & E). destruct a; [| discriminate E].
      simpl in E. rewrite E. apply prefix_append.
  - change (Py.contains needle (String c s))
      with (String.prefix needle (String c s) || Py.contains needle s).
    rewrite orb_true_iff, IH. split.
    + intros [H | (a & b & ->)].
      * destruct (prefix_true_inv _ _ H) as (r & E). exists "", r. exact E.
      * exists (String c a), b. reflexivity.
    + intros (a & b & E). destruct a as [| x a].
      * left. simpl in E. rewrite E. apply prefix_append.
      * right. simpl in E. injection E as _ ->. exists a, b. reflexivity.
Qed.

Lemma contains_false_suffix (needle a b : string) :
  Py.contains needle (a ++ b) = false -> String.prefix needle b = false.
Proof.
  intros H. destruct (String.prefix needle b) eqn:E; [| reflexivity].
  destruct (prefix_true_inv _ _ E) as (r & ->).
  assert (T : Py.contains needle (a ++ needle ++ r) = true)
    by (apply contains_true_iff; exists a, r; reflexivity).
  congruence.
Qed.

End Strings.

(* ===================================================================== *)
(** * Regular expressions: properties of the matcher *)
(* ===================================================================== *)

Section Matcher.

Import re.

Lemma strip_prefix_some (lit s r : string) :
  strip_prefix lit s = Some r <-> s = lit ++ r.
Proof.
  revert s. induction lit as [| a lit IH]; intros s; simpl.
  - split; [intros [= ->]; reflexivity | intros ->; reflexivity].
  - destruct s as [| b s].
    + split; discriminate.
    + destruct (Ascii.eqb_spec a b) as [-> | N].
      * rewrite IH. split; [intros ->; reflexivity | intros [= ->]; reflexivity].
      * split; [discriminate | intros [= E _]; congruence].
Qed.

Lemma strip_prefix_append (lit r : string) : strip_prefix lit (lit ++ r) = Some r.
Proof. apply strip_prefix_some. reflexivity. Qed.

(** A successful [.*] is a success of what follows it at some split of the
    text, the part before the split being free of newlines. *)
Lemma greedy_star_some {R : Type} (k : string -> string -> option R) (s : string) :
  forall acc r, greedy_star k acc s = Some r ->
  exists x y, s = x ++ y /\ all_dot x = true /\ k (acc ++ x) y = Some r.
Proof.
  assert (Here : forall acc t r, k acc t = Some r ->
            exists x y, t = x ++ y /\ all_dot x = true /\ k (acc ++ x) y = Some r).
  { intros acc t r H. exists "", t. rewrite append_nil_r.
    split; [reflexivity | split; [reflexivity | exact H]]. }
  induction s as [| c s IH]; intros acc r H; simpl in H.
  - apply Here. exact H.
  - destruct (dot c) eqn:D; [| apply Here; exact H].
    destruct (greedy_star k (acc ++ String c "") s) as [r' |] eqn:G;
      [| apply Here; exact H].
    injection H as ->. destruct (IH _ _ G) as (x & y & -> & Hx & Hk).
    exists (String c x), y. rewrite append_assoc in Hk. simpl in *.
    rewrite D. split; [reflexivity | split; [exact Hx | exact Hk]].
Qed.

Lemma all_dot_append (a b : string) :
  all_dot (a ++ b) = all_dot a && all_dot b.
Proof.
  induction a as [| c a IH]; simpl; [reflexivity |].
  rewrite IH, andb_assoc. reflexivity.
Qed.

(** A match leaves a suffix of the text. *)
Lemma match_items_suffix (p : pattern) :
  forall caps s m, match_items p caps s = Some m -> exists x, s = x ++ snd m.
Proof.
  induction p as [| [text | capture] p IH]; intros caps s m H; simpl in H.
  - injection H as <-. exists "". reflexivity.
  - destruct (strip_prefix text s) as [s' |] eqn:E; [| discriminate H].
    apply strip_prefix_some in E. destruct (IH _ _ _ H) as (x & ->).
    exists (text ++ x). rewrite append_assoc. exact E.
  - unfold greedy_plus in H. destruct s as [| c s]; [discriminate H |].
    destruct (dot c); [| discriminate H].
    destruct (greedy_star_some _ _ _ _ H) as (x & y & -> & _ & Hk).
    destruct (IH _ _ _ Hk) as (z & ->).
    exists (String c (x ++ z)). simpl. rewrite append_assoc. reflexivity.
Qed.

Lemma progress_lit_first (c : ascii) (text : string) (p : pattern) :
  progress (Lit (String c text) :: p).
Proof.
  intros s m H. simpl in H. destruct s as [| b s]; [discriminate H |].
  destruct (Ascii.eqb c b); [| discriminate H].
  destruct (strip_prefix text s) as [s' |] eqn:E; [| discriminate H].
  apply strip_prefix_some in E. destruct (match_items_suffix _ _ _ _ H) as (x & ->).
  subst s. simpl. rewrite !length_append. lia.
Qed.

Lemma CONFLICT_RE_progress : progress CONFLICT_RE.
Proof. apply progress_lit_first. Qed.

Section Scan.

Variable p : pattern.
Hypothesis p_progress : progress p.

(** Enough fuel is as good as any more. *)
Lemma findall_scan_fuel (n : nat) :
  forall m s, (String.length s < n)%nat -> (String.length s < m)%nat ->
  findall_scan p n s = findall_scan p m s.
Proof.
  induction n as [| n IH]; intros m s Hn Hm; [lia |].
  destruct m as [| m]; [lia |]. simpl.
  destruct (match_items p [] s) as [mt |] eqn:E.
  - pose proof (p_progress _ _ E) as Hlt.
    f_equal. apply IH; lia.
  - destruct s as [| c s]; [reflexivity |]. simpl in Hn, Hm. apply IH; lia.
Qed.

Lemma findall_nil : findall p "" = [].
Proof.
  unfold findall. simpl.
  destruct (match_items p [] "") as [m |] eqn:E; [| reflexivity].
  pose proof (p_progress _ _ E) as Hlt. simpl in Hlt. lia.
Qed.

Lemma findall_match (s : string) (m : list string * string) :
  match_items p [] s = Some m ->
  findall p s = group1 m :: findall p (snd m).
Proof.
  intros E. unfold findall at 1.
  change (findall_scan p (S (String.length s)) s)
    with (match match_items p [] s with
          | Some m => group1 m :: findall_scan p (String.length s) (snd m)
          | None => match s with
                    | EmptyString => []
                    | String _ s' => findall_scan p (String.length s) s'
                    end
          end).
  rewrite E. f_equal.
  pose proof (p_progress _ _ E) as Hlt.
  unfold findall. apply findall_scan_fuel; lia.
Qed.

Lemma findall_no_match (c : ascii) (s : string) :
  match_items p [] (String c s) = None ->
  findall p (String c s) = findall p s.
Proof.
  intros E. unfold findall at 1.
  change (findall_scan p (S (String.length (String c s))) (String c s))
    with (match match_items p [] (String c s) with
          | Some m => group1 m
                      :: findall_scan p (String.length (String c s)) (snd m)
          | None => findall_scan p (String.length (String c s)) s
          end).
  rewrite E. reflexivity.
Qed.

End Scan.

(** ** Matching does not look past the end of the line *)

Section Line.

Variable rest : string.
Local Abbreviation tail := (String newline rest).

Lemma dot_newline : dot newline = false.
Proof. reflexivity. Qed.

Lemma strip_prefix_line (text : string) :
  all_dot text = true ->
  forall t, strip_prefix text (t ++ tail)
            = option_map (fun r => r ++ tail) (strip_prefix text t).
Proof.
  induction text as [| a text IH]; intros Ha t; [reflexivity |].
  simpl in Ha. apply andb_true_iff in Ha. destruct Ha as [Da Ha].
  destruct t as [| b t]; simpl.
  - unfold dot in Da. apply negb_true_iff in Da. rewrite Da. reflexivity.
  - destruct (Ascii.eqb a b); [apply IH; exact Ha | reflexivity].
Qed.

Lemma greedy_star_line (k1 k2 : string -> string -> option (list string * string)) :
  (forall acc t, all_dot t = true -> k2 acc (t ++ tail) = extend tail (k1 acc t)) ->
  forall t acc, all_dot t = true ->
  greedy_star k2 acc (t ++ tail) = extend tail (greedy_star k1 acc t).
Proof.
  intros Hk. induction t as [| c t IH]; intros acc Ht.
  - simpl. exact (Hk acc "" eq_refl).
  - pose proof Ht as Ht'. simpl in Ht'. apply andb_true_iff in Ht'.
    destruct Ht' as [Dc Ht'].
    simpl. rewrite Dc, (IH _ Ht').
    destruct (greedy_star k1 (acc ++ String c "") t) as [r |]; simpl.
    + reflexivity.
    + exact (Hk acc (String c t) Ht).
Qed.

Lemma match_items_line (p : pattern) :
  lits_dot p = true ->
  forall caps t, all_dot t = true ->
  match_items p caps (t ++ tail) = extend tail (match_items p caps t).
Proof.
  induction p as [| [text | capture] p IH]; intros Hp caps t Ht; simpl in Hp.
  - reflexivity.
  - apply andb_true_iff in Hp. destruct Hp as [Htext Hp].
    simpl. rewrite (strip_prefix_line text Htext).
    destruct (strip_prefix text t) as [r |] eqn:E; simpl; [| reflexivity].
    apply IH; [exact Hp |].
    apply strip_prefix_some in E. subst t.
    rewrite all_dot_append in Ht. apply andb_true_iff in Ht. tauto.
  - simpl. unfold greedy_plus. destruct t as [| c t]; [reflexivity |].
    simpl in Ht. apply andb_true_iff in Ht. destruct Ht as [Dc Ht].
    simpl. rewrite Dc.
    apply greedy_star_line; [| exact Ht].
    intros acc u Hu. apply IH; assumption.
Qed.

End Line.

Section ScanLines.

Variable p : pattern.
Hypothesis p_progress : progress p.
Hypothesis p_lits : lits_dot p = true.

Lemma match_items_empty : match_items p [] "" = None.
Proof.
  destruct (match_items p [] "") as [m |] eqn:E; [| reflexivity].
  pose proof (p_progress _ _ E) as Hlt. simpl in Hlt. lia.
Qed.

(** The matches of a text are those of its first line followed by those
    of the text after the newline. *)
Lemma findall_first_line (rest : string) (n : nat) :
  forall t, (String.length t <= n)%nat -> all_dot t = true ->
  findall p (t ++ String newline rest) = (findall p t ++ findall p rest)%list.
Proof.
  induction n as [| n IH]; intros t Hn Ht.
  - destruct t as [| c t]; [| simpl in Hn; lia].
    rewrite (findall_nil p p_progress). simpl.
    apply (findall_no_match p).
    change (String newline rest) with ("" ++ String newline rest).
    rewrite (match_items_line rest p p_lits [] "" eq_refl).
    rewrite match_items_empty. reflexivity.
  - destruct t as [| c t]; [apply IH; [simpl; lia | exact Ht] |].
    pose proof (match_items_line rest p p_lits [] (String c t) Ht) as E.
    destruct (match_items p [] (String c t)) as [m |] eqn:Em;
      cbn [extend option_map] in E.
    + rewrite (findall_match p p_progress _ _ E).
      rewrite (findall_match p p_progress _ _ Em). simpl.
      change (group1 (fst m, snd m ++ String newline rest)) with (group1 m).
      f_equal.
      pose proof (p_progress _ _ Em) as Hlt.
      destruct (match_items_suffix _ _ _ _ Em) as (x & Ex).
      apply IH; [simpl in *; lia |].
      rewrite Ex, all_dot_append in Ht. apply andb_true_iff in Ht. tauto.
    + cbn [append] in E |- *.
      rewrite (findall_no_match p _ _ E), (findall_no_match p _ _ Em).
      simpl in Ht. apply andb_true_iff in Ht.
      apply IH; [simpl in Hn; lia | tauto].
Qed.

(** The matches of lines joined by newlines are the matches of each line,
    in the order of the lines. *)
Lemma findall_lines (lines : list string) :
  Forall (fun line => all_dot line = true) lines ->
  findall p (String.concat (String newline "") lines)
  = flat_map (findall p) lines.
Proof.
  induction 1 as [| line lines Hline Hlines IH].
  - apply (findall_nil p p_progress).
  - destruct lines as [| line' lines'].
    + simpl. rewrite app_nil_r. reflexivity.
    + change (String.concat (String newline "") (line :: line' :: lines'))
        with (line ++ String newline
                (String.concat (String newline "") (line' :: lines'))).
      rewrite (findall_first_line _ (String.length line) line (le_n _) Hline).
      rewrite IH. reflexivity.
Qed.

End ScanLines.

(** ** What the greedy quantifiers choose *)

(** When the rest of the pattern is a final capturing [(.+)], the run takes
    the whole newline-free text. *)
Lemma greedy_star_all (caps : list string) (s : string) :
  forall acc, all_dot s = true ->
  greedy_star (fun consumed rest => Some ((caps ++ [consumed])%list, rest)) acc s
  = Some ((caps ++ [(acc ++ s)%string])%list, "").
Proof.
  induction s as [| c s IH]; intros acc Hs; simpl.
  - rewrite append_nil_r. reflexivity.
  - simpl in Hs. apply andb_true_iff in Hs. destruct Hs as [Dc Hs].
    rewrite Dc, (IH _ Hs), append_assoc. reflexivity.
Qed.

(** A success after a longer run wins over any shorter run. *)
Lemma greedy_star_deeper {R : Type} (k : string -> string -> option R)
  (x y : string) (r : R) :
  forall acc, all_dot x = true ->
  greedy_star k (acc ++ x) y = Some r ->
  greedy_star k acc (x ++ y) = Some r.
Proof.
  induction x as [| c x IH]; intros acc Hx H.
  - rewrite append_nil_r in H. exact H.
  - simpl in Hx. apply andb_true_iff in Hx. destruct Hx as [Dc Hx].
    simpl. rewrite Dc, (IH (acc ++ String c "") Hx); [reflexivity |].
    rewrite append_assoc. exact H.
Qed.

(** When every longer run fails, the run stops where it is. *)
Lemma greedy_star_here {R : Type} (k : string -> string -> option R) (y : string) :
  forall acc,
  (forall y1 y2, y = y1 ++ y2 -> y1 <> "" -> k (acc ++ y1) y2 = None) ->
  greedy_star k acc y = k acc y.
Proof.
  induction y as [| c y IH]; intros acc Hfail; [reflexivity |].
  simpl. destruct (dot c); [| reflexivity].
  rewrite IH.
  - rewrite (Hfail (String c "") y eq_refl); [reflexivity | discriminate].
  - intros y1 y2 E N. rewrite append_assoc.
    apply Hfail; [rewrite E; reflexivity | discriminate].
Qed.

(** A suffix of [u ++ v] that starts with a character [u] lacks is a
    suffix of [v]. *)
Lemma suffix_past (c : ascii) (u : string) :
  lacks c u = true ->
  forall y1 y2 v, y1 ++ String c y2 = u ++ v ->
  exists p1, v = p1 ++ String c y2.
Proof.
  induction u as [| a u IH]; intros Hu y1 y2 v E.
  - exists y1. symmetry. exact E.
  - simpl in Hu. apply andb_true_iff in Hu. destruct Hu as [Na Hu].
    apply negb_true_iff in Na.
    destruct y1 as [| b y1]; simpl in E; injection E as E1 E2.
    + subst a. rewrite Ascii.eqb_refl in Na. discriminate Na.
    + exact (IH Hu y1 y2 v E2).
Qed.

(** A line that starts with [CONFLICT (], goes on with a non-empty kind,
    the text [): Merge conflict in ] and a non-empty path in which that
    text does not occur again, matches as a whole and captures the
    path. *)
Lemma match_conflict_line (kind path : string) :
  kind <> "" -> path <> "" ->
  all_dot kind = true -> all_dot path = true ->
  Py.contains CONFLICT_SEP path = false ->
  match_items CONFLICT_RE []
    ("CONFLICT (" ++ kind ++ CONFLICT_SEP ++ path) = Some ([path], "").
Proof.
  intros Hk Hp Dk Dp Hsep.
  unfold CONFLICT_RE. cbn [match_items]. rewrite strip_prefix_append.
  destruct kind as [| c kind]; [contradiction |].
  simpl in Dk. apply andb_true_iff in Dk. destruct Dk as [Dc Dk].
  cbn [append greedy_plus]. rewrite Dc.
  apply greedy_star_deeper; [exact Dk |].
  rewrite greedy_star_here.
  - fold CONFLICT_SEP. rewrite strip_prefix_append.
    destruct path as [| d path]; [contradiction |].
    simpl in Dp. apply andb_true_iff in Dp. destruct Dp as [Dd Dp].
    cbn [greedy_plus]. rewrite Dd.
    rewrite (greedy_star_all [] path (String d "") Dp). reflexivity.
  - intros y1 y2 E N. fold CONFLICT_SEP.
    destruct (strip_prefix CONFLICT_SEP y2) as [s' |] eqn:S; [| reflexivity].
    exfalso. apply strip_prefix_some in S. subst y2.
    destruct y1 as [| b y1]; [contradiction |].
    unfold CONFLICT_SEP in E at 1. simpl in E. injection E as _ E.
    destruct (suffix_past ")"%char ": Merge conflict in " eq_refl
                y1 (": Merge conflict in " ++ s') path (eq_sym E))
      as (p1 & Ep).
    assert (T : Py.contains CONFLICT_SEP path = true).
    { apply contains_true_iff. exists p1, s'. exact Ep. }
    congruence.
Qed.

(** On one line a match runs to the end of the line. *)
Lemma match_conflict_to_end (t : string) (m : list string * string) :
  all_dot t = true -> match_items CONFLICT_RE [] t = Some m -> snd m = "".
Proof.
  intros Dt H. unfold CONFLICT_RE in H. cbn [match_items] in H.
  destruct (strip_prefix "CONFLICT (" t) as [t1 |] eqn:E1; [| discriminate H].
  apply strip_prefix_some in E1. subst t.
  rewrite all_dot_append in Dt. apply andb_true_iff in Dt. destruct Dt as [_ Dt].
  unfold greedy_plus in H. destruct t1 as [| c t1]; [discriminate H |].
  destruct (dot c); [| discriminate H].
  simpl in Dt. apply andb_true_iff in Dt. destruct Dt as [_ Dt].
  destruct (greedy_star_some _ _ _ _ H) as (x & y & -> & _ & Hk).
  rewrite all_dot_append in Dt. apply andb_true_iff in Dt. destruct Dt as [_ Dy].
  destruct (strip_prefix "): Merge conflict in " y) as [y' |] eqn:E2;
    [| discriminate Hk].
  apply strip_prefix_some in E2. subst y.
  rewrite all_dot_append in Dy. apply andb_true_iff in Dy. destruct Dy as [_ Dy].
  destruct y' as [| d y']; [discriminate Hk |].
  simpl in Dy. apply andb_true_iff in Dy. destruct Dy as [Dd Dy].
  cbn [greedy_plus] in Hk. rewrite Dd in Hk.
  rewrite (greedy_star_all [] y' (String d "") Dy) in Hk.
  injection Hk as <-. reflexivity.
Qed.

(** So a line holds at most one match. *)
Lemma findall_line_at_most_one (t : string) :
  all_dot t = true -> (List.length (findall CONFLICT_RE t) <= 1)%nat.
Proof.
  induction t as [| c t IH]; intros Dt.
  - rewrite (findall_nil _ CONFLICT_RE_progress). simpl. lia.
  - destruct (match_items CONFLICT_RE [] (String c t)) as [m |] eqn:E.
    + rewrite (findall_match _ CONFLICT_RE_progress _ _ E).
      rewrite (match_conflict_to_end _ _ Dt E).
      rewrite (findall_nil _ CONFLICT_RE_progress). simpl. lia.
    + rewrite (findall_no_match _ _ _ E). apply IH.
      simpl in Dt. apply andb_true_iff in Dt. tauto.
Qed.

(** Without the text [CONFLICT] there is no match. *)
Lemma findall_no_conflict (s : string) :
  Py.contains "CONFLICT" s = false -> findall CONFLICT_RE s = [].
Proof.
  induction s as [| c s IH]; intros H.
  - apply (findall_nil _ CONFLICT_RE_progress).
  - change (Py.contains "CONFLICT" (String c s))
      with (String.prefix "CONFLICT" (String c s) || Py.contains "CONFLICT" s) in H.
    apply orb_false_iff in H. destruct H as [Hp Hs].
    rewrite findall_no_match; [apply IH; exact Hs |].
    destruct (match_items CONFLICT_RE [] (String c s)) as [m |] eqn:E;
      [| reflexivity].
    exfalso. unfold CONFLICT_RE in E. cbn [match_items] in E.
    destruct (strip_prefix "CONFLICT (" (String c s)) as [r |] eqn:S;
      [| discriminate E].
    apply strip_prefix_some in S.
    assert (T : String.prefix "CONFLICT" (String c s) = true).
    { rewrite S. change "CONFLICT (" with ("CONFLICT" ++ " (").
      rewrite append_assoc. apply prefix_append. }
    congruence.
Qed.

End Matcher.

(* ===================================================================== *)
(** * Conflict extraction: properties *)
(* ===================================================================== *)

Section Extraction.

Import re.

(** Every text is a list of newline-free lines joined by newlines. *)
Lemma lines_of_text (s : string) :
  exists line lines,
    Forall (fun l => all_dot l = true) (line :: lines)
    /\ s = String.concat LF (line :: lines).
Proof.
  induction s as [| c s (line & lines & Hall & ->)].
  - exists "", []. split; [repeat constructor | reflexivity].
  - destruct (dot c) eqn:D.
    + exists (String c line), lines. split.
      * inversion Hall as [| ? ? Hl Hls]; subst. constructor; [| exact Hls].
        simpl. rewrite D, Hl. reflexivity.
      * destruct lines; reflexivity.
    + exists "", (line :: lines). split; [constructor; [reflexivity | exact Hall] |].
      unfold dot in D. apply negb_false_iff, Ascii.eqb_eq in D. subst c.
      reflexivity.
Qed.

(** A match of the conflict pattern is a conflict line with a kind and a
    path that are not empty and hold no newline. *)
Lemma match_conflict_shape (s : string) (m : list string * string) :
  match_items CONFLICT_RE [] s = Some m ->
  exists kind,
    s = conflict_line kind (group1 m) ++ snd m
    /\ kind <> "" /\ all_dot kind = true
    /\ group1 m <> "" /\ all_dot (group1 m) = true.
Proof.
  intros H. unfold CONFLICT_RE in H. cbn [match_items] in H.
  destruct (strip_prefix "CONFLICT (" s) as [t1 |] eqn:E1; [| discriminate H].
  apply strip_prefix_some in E1. subst s.
  unfold greedy_plus in H. destruct t1 as [| c t1]; [discriminate H |].
  destruct (dot c) eqn:Dc; [| discriminate H].
  destruct (greedy_star_some _ _ _ _ H) as (x & y & -> & Dx & Hk).
  destruct (strip_prefix "): Merge conflict in " y) as [y' |] eqn:E2;
    [| discriminate Hk].
  apply strip_prefix_some in E2. subst y.
  destruct y' as [| d y']; [discriminate Hk |].
  destruct (dot d) eqn:Dd; [| discriminate Hk].
  destruct (greedy_star_some _ _ _ _ Hk) as (x2 & y2 & -> & Dx2 & Hm).
  injection Hm as <-. cbn [group1 fst snd app].
  exists (String c x). unfold conflict_line.
  split; [| split; [discriminate | split; [| split; [discriminate |]]]].
  - rewrite !append_assoc. reflexivity.
  - cbn [all_dot append]. rewrite Dc, Dx. reflexivity.
  - cbn [all_dot append]. rewrite Dd, Dx2. reflexivity.
Qed.

(** On one line, a reported path is the end of the line. *)
Lemma findall_line_sound (path : string) :
  forall t, all_dot t = true -> In path (findall CONFLICT_RE t) ->
  exists before kind,
    t = before ++ conflict_line kind path
    /\ kind <> "" /\ all_dot kind = true
    /\ path <> "" /\ all_dot path = true.
Proof.
  induction t as [| c t IH]; intros Dt Hin.
  - rewrite (findall_nil _ CONFLICT_RE_progress) in Hin. destruct Hin.
  - destruct (match_items CONFLICT_RE [] (String c t)) as [m |] eqn:E.
    + rewrite (findall_match _ CONFLICT_RE_progress _ _ E) in Hin.
      pose proof (match_conflict_to_end _ _ Dt E) as Hend.
      rewrite Hend, (findall_nil _ CONFLICT_RE_progress) in Hin.
      destruct Hin as [<- | []].
      destruct (match_conflict_shape _ _ E) as (kind & Hs & Hrest).
      rewrite Hend, append_nil_r in Hs.
      exists "", kind. split; [exact Hs | exact Hrest].
    + rewrite (findall_no_match _ _ _ E) in Hin.
      simpl in Dt. apply andb_true_iff in Dt. destruct Dt as [_ Dt].
      destruct (IH Dt Hin) as (before & kind & -> & Hrest).
      exists (String c before), kind. split; [reflexivity | exact Hrest].
Qed.

(** The backtracking search finds a match whenever some run of the
    quantifier leads to one. *)
Lemma greedy_star_complete {R : Type} (k : string -> string -> option R)
  (x y : string) :
  forall acc, all_dot x = true -> k (acc ++ x) y <> None ->
  greedy_star k acc (x ++ y) <> None.
Proof.
  induction x as [| c x IH]; intros acc Hx Hk.
  - rewrite append_nil_r in Hk. cbn [append].
    destruct y as [| d y]; cbn [greedy_star]; [exact Hk |].
    destruct (dot d); [| exact Hk].
    destruct (greedy_star k (acc ++ String d "") y); [discriminate | exact Hk].
  - cbn [all_dot] in Hx. apply andb_true_iff in Hx. destruct Hx as [Dc Hx].
    cbn [append greedy_star]. rewrite Dc.
    specialize (IH (acc ++ String c "") Hx).
    rewrite append_assoc in IH. cbn [append] in IH. specialize (IH Hk).
    destruct (greedy_star k (acc ++ String c "") (x ++ y));
      [discriminate | contradiction].
Qed.

(** At the start of a conflict line the pattern matches. *)
Lemma match_conflict_exists (kind path : string) :
  kind <> "" -> path <> "" ->
  all_dot kind = true -> all_dot path = true ->
  match_items CONFLICT_RE [] (conflict_line kind path) <> None.
Proof.
  intros Hk Hp Dk Dp.
  change (conflict_line kind path)
    with ("CONFLICT (" ++ kind ++ CONFLICT_SEP ++ path).
  unfold CONFLICT_RE. cbn [match_items]. rewrite strip_prefix_append.
  destruct kind as [| c kind]; [contradiction |].
  simpl in Dk. apply andb_true_iff in Dk. destruct Dk as [Dc Dk].
  cbn [append greedy_plus]. rewrite Dc.
  apply greedy_star_complete; [exact Dk |].
  cbv beta. fold CONFLICT_SEP. rewrite strip_prefix_append.
  destruct path as [| d path]; [contradiction |].
  simpl in Dp. apply andb_true_iff in Dp. destruct Dp as [Dd Dp].
  cbn [greedy_plus]. rewrite Dd.
  rewrite (greedy_star_all [] path (String d "") Dp). discriminate.
Qed.

Lemma append_split (a : string) :
  forall r x y, a ++ r = x ++ y ->
  (String.length a <= String.length x)%nat ->
  exists k, x = a ++ k /\ r = k ++ y.
Proof.
  induction a as [| c a IH]; intros r x y E Hlen.
  - exists x. split; [reflexivity | exact E].
  - destruct x as [| d x]; [cbn [String.length] in Hlen; lia |].
    cbn [append] in E. injection E as <- E.
    cbn [String.length] in Hlen.
    destruct (IH r x y E ltac:(lia)) as (k & -> & ->).
    exists k. split; reflexivity.
Qed.

(** A match that starts anywhere before a conflict line whose path holds
    no further separator captures that path and ends the line. *)
Lemma match_conflict_anywhere (before kind path : string)
  (m : list string * string) :
  all_dot before = true ->
  kind <> "" -> path <> "" -> all_dot kind = true -> all_dot path = true ->
  Py.contains CONFLICT_SEP path = false ->
  match_items CONFLICT_RE [] (before ++ conflict_line kind path) = Some m ->
  m = ([path], "").
Proof.
  intros Db Hk Hp Dk Dp Hsep H.
  assert (Hstart : exists r,
             before ++ conflict_line kind path = "CONFLICT (" ++ r).
  { unfold CONFLICT_RE in H. cbn [match_items] in H.
    destruct (strip_prefix "CONFLICT (" (before ++ conflict_line kind path))
      as [r |] eqn:E; [| discriminate H].
    exists r. apply strip_prefix_some. exact E. }
  destruct Hstart as (r & Er).
  assert (Eline : before ++ conflict_line kind path
                  = (before ++ "CONFLICT (" ++ kind) ++ CONFLICT_SEP ++ path).
  { unfold conflict_line, CONFLICT_SEP. rewrite !append_assoc. reflexivity. }
  rewrite Eline in Er. symmetry in Er.
  destruct (append_split _ _ _ _ Er) as (K & EK & _).
  { rewrite !length_append. cbn [String.length]. lia. }
  assert (HK : K <> "").
  { intros ->. apply (f_equal String.length) in EK.
    rewrite !length_append in EK. cbn [String.length] in EK.
    destruct kind; [contradiction | cbn [String.length] in EK; lia]. }
  assert (DK : all_dot K = true).
  { assert (D : all_dot (before ++ "CONFLICT (" ++ kind) = true)
      by (rewrite !all_dot_append, Db, Dk; reflexivity).
    rewrite EK, all_dot_append in D. apply andb_true_iff in D. tauto. }
  rewrite Eline, EK, append_assoc in H.
  rewrite (match_conflict_line K path HK Hp DK Dp Hsep) in H.
  injection H as <-. reflexivity.
Qed.

(** A line that reads as a conflict line from some position on gives a
    capture. *)
Lemma findall_line_complete (kind path : string) :
  kind <> "" -> path <> "" -> all_dot kind = true -> all_dot path = true ->
  forall before, findall CONFLICT_RE (before ++ conflict_line kind path) <> [].
Proof.
  intros Hk Hp Dk Dp. induction before as [| c before IH].
  - cbn [append].
    destruct (match_items CONFLICT_RE [] (conflict_line kind path))
      as [m |] eqn:E;
      [| exfalso; exact (match_conflict_exists kind path Hk Hp Dk Dp E)].
    rewrite (findall_match _ CONFLICT_RE_progress _ _ E). discriminate.
  - cbn [append].
    destruct (match_items CONFLICT_RE []
                (String c (before ++ conflict_line kind path)))
      as [m |] eqn:E.
    + rewrite (findall_match _ CONFLICT_RE_progress _ _ E). discriminate.
    + rewrite (findall_no_match _ _ _ E). exact IH.
Qed.

(** The capture of such a line is its path, when the path holds no
    further separator. *)
Lemma findall_line_exact (kind path : string) :
  kind <> "" -> path <> "" -> all_dot kind = true -> all_dot path = true ->
  Py.contains CONFLICT_SEP path = false ->
  forall before, all_dot before = true ->
  findall CONFLICT_RE (before ++ conflict_line kind path) = [path].
Proof.
  intros Hk Hp Dk Dp Hsep. induction before as [| c before IH]; intros Db.
  - cbn [append].
    pose proof (match_conflict_line kind path Hk Hp Dk Dp Hsep) as E.
    change ("CONFLICT (" ++ kind ++ CONFLICT_SEP ++ path)
      with (conflict_line kind path) in E.
    rewrite (findall_match _ CONFLICT_RE_progress _ _ E).
    cbn [group1 fst snd]. rewrite (findall_nil _ CONFLICT_RE_progress).
    reflexivity.
  - destruct (match_items CONFLICT_RE []
                (String c before ++ conflict_line kind path))
      as [m |] eqn:E.
    + rewrite (findall_match _ CONFLICT_RE_progress _ _ E).
      rewrite (match_conflict_anywhere _ _ _ _ Db Hk Hp Dk Dp Hsep E).
      cbn [group1 fst snd]. rewrite (findall_nil _ CONFLICT_RE_progress).
      reflexivity.
    + cbn [append] in E |- *. rewrite (findall_no_match _ _ _ E).
      apply IH. simpl in Db. apply andb_true_iff in Db. tauto.
Qed.

(** C5: every console output is a list of lines joined by newlines, and
    on such a text [findall] with the conflict pattern gives the captures
    of the lines one after the other, in the order of the lines and with
    repetitions kept.  A line gives at most one capture; what it gives is
    the path of a text [CONFLICT (kind): Merge conflict in path] that ends
    the line, so a line that does not read so gives nothing; a line that
    reads so gives a capture, and it is the path when the path holds no
    further separator.  On the output with the conflict lines of
    [src/A.txt] and [src/B.txt] the result is those two paths in that
    order. *)
Theorem conflict_extraction (console : string) (lines : list string)
  (before kind path : string) :
  Forall (fun line => all_dot line = true) lines ->
  all_dot before = true ->
  kind <> "" -> path <> "" -> all_dot kind = true -> all_dot path = true ->
  Py.contains "): Merge conflict in " path = false ->
  (exists ls, Forall (fun line => all_dot line = true) ls
              /\ console = String.concat LF ls)
  /\ findall CONFLICT_RE (String.concat LF lines)
     = flat_map (findall CONFLICT_RE) lines
  /\ Forall (fun line => (List.length (findall CONFLICT_RE line) <= 1)%nat) lines
  /\ Forall (fun line => forall p, In p (findall CONFLICT_RE line) ->
                                   reads_conflict line p) lines
  /\ Forall (fun line => (forall p, ~ reads_conflict line p) ->
                         findall CONFLICT_RE line = []) lines
  /\ Forall (fun line => forall p, reads_conflict line p ->
                                   findall CONFLICT_RE line <> []) lines
  /\ findall CONFLICT_RE (before ++ conflict_line kind path) = [path]
  /\ findall CONFLICT_RE two_conflicts_output = ["src/A.txt"; "src/B.txt"].
Proof.
  intros Hlines Db Hk Hp Dk Dp Hsep.
  assert (Hsound : Forall (fun line => forall p,
                             In p (findall CONFLICT_RE line) ->
                             reads_conflict line p) lines).
  { apply Forall_forall. intros line Hin p Hp'.
    pose proof (proj1 (Forall_forall _ _) Hlines line Hin) as Dline.
    destruct (findall_line_sound p line Dline Hp')
      as (b & k & E & Hk' & _ & Hp'' & _).
    exists b, k. split; [exact E | split; assumption]. }
  split; [| split; [| split; [| split; [| split; [| split; [| split]]]]]].
  - destruct (lines_of_text console) as (l & ls & Hall & E).
    exists (l :: ls). split; assumption.
  - apply findall_lines; [exact CONFLICT_RE_progress | reflexivity | exact Hlines].
  - clear Hsound.
    induction Hlines as [| line lines' Hline _ IH]; constructor;
      [apply findall_line_at_most_one; exact Hline | exact IH].
  - exact Hsound.
  - apply Forall_forall. intros line Hin Hnone.
    pose proof (proj1 (Forall_forall _ _) Hsound line Hin) as Hs.
    destruct (findall CONFLICT_RE line) as [| p ps] eqn:E; [reflexivity |].
    exfalso. apply (Hnone p), Hs. rewrite E. left. reflexivity.
  - apply Forall_forall. intros line Hin p (b & k & -> & Hk' & Hp').
    pose proof (proj1 (Forall_forall _ _) Hlines _ Hin) as Dline.
    unfold conflict_line in Dline. rewrite !all_dot_append in Dline.
    repeat (apply andb_true_iff in Dline; destruct Dline as [? Dline]).
    apply findall_line_complete; assumption.
  - apply findall_line_exact; assumption.
  - vm_compute. reflexivity.
Qed.

(** Three conflict lines, two of them for the same path and one after
    other text, between other lines. *)
Lemma conflict_extraction_witness :
  findall CONFLICT_RE
    (String.concat LF
       ["Auto-merging lib/x.py";
        conflict_line "content" "lib/x.py";
        "warning: " ++ conflict_line "add/add" "docs/read me.md";
        "CONFLICT (modify/delete): lib/y.py deleted in HEAD";
        conflict_line "rename/rename" "lib/x.py"])
  = ["lib/x.py"; "docs/read me.md"; "lib/x.py"]
  /\ findall CONFLICT_RE ("warning: " ++ conflict_line "add/add" "docs/read me.md")
     = ["docs/read me.md"]
  /\ findall CONFLICT_RE "CONFLICT (modify/delete): lib/y.py deleted in HEAD"
     = [].
Proof.
  destruct (conflict_extraction ""
              ["Auto-merging lib/x.py";
               conflict_line "content" "lib/x.py";
               "warning: " ++ conflict_line "add/add" "docs/read me.md";
               "CONFLICT (modify/delete): lib/y.py deleted in HEAD";
               conflict_line "rename/rename" "lib/x.py"]
              "warning: " "add/add" "docs/read me.md")
    as (_ & Hall & _ & _ & _ & _ & Hone & _).
  - repeat constructor.
  - reflexivity.
  - discriminate.
  - discriminate.
  - reflexivity.
  - reflexivity.
  - reflexivity.
  - split; [| split; [exact Hone |]].
    + rewrite Hall. vm_compute. reflexivity.
    + vm_compute. reflexivity.
Defined.

End Extraction.

(* ===================================================================== *)
(** * The diff3 analyses: properties *)
(* ===================================================================== *)

Section Analyses.

Lemma bind_cong {A B : Type} (m1 m2 : IO A) (k1 k2 : A -> IO B) :
  m1 = m2 -> (forall a, k1 a = k2 a) -> bind m1 k1 = bind m2 k2.
Proof.
  intros -> H. unfold bind. destruct m2 as [t [a | msg]]; [| reflexivity].
  rewrite H. reflexivity.
Qed.

Lemma for_each_cong {A : Type} (xs : list A) (f g : A -> IO unit) :
  (forall x, f x = g x) -> for_each xs f = for_each xs g.
Proof.
  intros H. induction xs as [| x xs IH]; simpl; [reflexivity |].
  apply bind_cong; [apply H | intros _; exact IH].
Qed.

(** The two ways the comparator ends. *)
Lemma compare_cases (w : World) (base attempt merge : string) :
  compare w base attempt merge
  = if Py.contains error_message
         (stderr (subprocess_run w None ["diff3"; base; attempt; merge]))
    then ([Exec None ["diff3"; base; attempt; merge];
           Exec None ["diff"; attempt; merge];
           ChildStderr (stderr (subprocess_run w None ["diff"; attempt; merge]))],
          Ok {| returncode :=
                  returncode (subprocess_run w None ["diff"; attempt; merge]);
                stdout := stdout (subprocess_run w None ["diff"; attempt; merge]);
                stderr := "" |})
    else ([Exec None ["diff3"; base; attempt; merge]],
          Ok (subprocess_run w None ["diff3"; base; attempt; merge])).
Proof.
  unfold compare. io_norm.
  destruct (Py.contains error_message
              (stderr (subprocess_run w None ["diff3"; base; attempt; merge])));
    reflexivity.
Qed.

(** The text the comparator keeps. *)
Lemma compare_kept (w : World) (base attempt merge : string) :
  exists t d, compare w base attempt merge = (t, Ok d)
              /\ stdout d
                 = match compare_mode w base attempt merge with
                   | TwoWay =>
                       stdout (subprocess_run w None ["diff"; attempt; merge])
                   | ThreeWay =>
                       stdout (subprocess_run w None
                                 ["diff3"; base; attempt; merge])
                   end.
Proof.
  rewrite compare_cases. unfold compare_mode.
  destruct (Py.contains error_message
              (stderr (subprocess_run w None ["diff3"; base; attempt; merge])));
    eexists; eexists; split; reflexivity.
Qed.

(** C3 (amended): when the base version is missing, so that [diff3] on
    the base path reports [error_message] whatever the merge attempt, the
    comparator runs [diff3] and then a plain [diff] of merge attempt and
    programmer merge, and each analysis writes the output of that [diff]
    as the artifact of the file. *)
Theorem missing_base_falls_back (w : World) (merge_tool1 merge_tool2 : string)
  (results_index : Z) (repo_output_dir repo_name conflicting_file : string)
  (n : nat) :
  let conflict_path := os_path.join repo_name [conflicting_file] in
  let base := os_path.join "./repos/base" [conflict_path] in
  let merge := os_path.join "./repos/programmer_merge" [conflict_path] in
  let attempt1 := os_path.join "./repos/merge_attempt1" [conflict_path] in
  let attempt2 := os_path.join "./repos/merge_attempt2" [conflict_path] in
  let attempt := os_path.join "./repos/merge_attempt" [conflict_path] in
  let file_base := fst (os_path.splitext (os_path.basename conflicting_file)) in
  (forall a, Py.contains error_message
               (stderr (subprocess_run w None ["diff3"; base; a; merge])) = true) ->
  (forall a,
     trace (compare w base a merge)
     = [Exec None ["diff3"; base; a; merge]; Exec None ["diff"; a; merge];
        ChildStderr (stderr (subprocess_run w None ["diff"; a; merge]))]
     /\ exists d, outcome (compare w base a merge) = Ok d
                  /\ stdout d = stdout (subprocess_run w None ["diff"; a; merge]))
  /\ artifacts (trace (pair_loop_body w merge_tool1 merge_tool2 results_index
                         repo_output_dir repo_name conflicting_file))
     = [(os_path.join repo_output_dir
           [Py.str results_index; merge_tool1; "diff_" ++ file_base ++ ".txt"],
         stdout (subprocess_run w None ["diff"; attempt1; merge]));
        (os_path.join repo_output_dir
           [Py.str results_index; merge_tool2; "diff_" ++ file_base ++ ".txt"],
         stdout (subprocess_run w None ["diff"; attempt2; merge]))]
  /\ artifacts (trace (loop_body w repo_name n conflicting_file))
     = [(temp_file_name w n,
         stdout (subprocess_run w None ["diff"; attempt; merge]))].
Proof.
  intros conflict_path base merge attempt1 attempt2 attempt file_base Hmissing.
  split; [| split].
  - intros a. rewrite compare_cases, (Hmissing a). split; [reflexivity |].
    eexists. split; reflexivity.
  - unfold pair_loop_body.
    fold conflict_path. fold base. fold merge. fold attempt1. fold attempt2.
    fold file_base.
    rewrite !compare_cases, !Hmissing. reflexivity.
  - unfold loop_body.
    fold conflict_path. fold base. fold merge. fold attempt.
    rewrite compare_cases, Hmissing. unfold run_checked. io_norm.
    destruct (returncode (subprocess_run w None
                            ["xdg-open"; temp_file_name w n]) =? 0)%Z;
      reflexivity.
Qed.

(** In [missing_base_world] the reports of [src/A.txt] hold the output of
    the plain [diff]. *)
Lemma missing_base_falls_back_witness :
  artifacts (trace (pair_loop_body missing_base_world "gitmerge_ort" "spork" 42
                      "out" "org/repo" "src/A.txt"))
  = [("out/42/gitmerge_ort/diff_A.txt", ""); ("out/42/spork/diff_A.txt", "")]
  /\ trace (compare missing_base_world "./repos/base/org/repo/src/A.txt"
              "./repos/merge_attempt1/org/repo/src/A.txt"
              "./repos/programmer_merge/org/repo/src/A.txt")
     = [Exec None ["diff3"; "./repos/base/org/repo/src/A.txt";
                   "./repos/merge_attempt1/org/repo/src/A.txt";
                   "./repos/programmer_merge/org/repo/src/A.txt"];
        Exec None ["diff"; "./repos/merge_attempt1/org/repo/src/A.txt";
                   "./repos/programmer_merge/org/repo/src/A.txt"];
        ChildStderr ""].
Proof.
  destruct (missing_base_falls_back missing_base_world "gitmerge_ort" "spork"
              42 "out" "org/repo" "src/A.txt" 0) as (Hcmp & Hpair & _).
  - intros a. reflexivity.
  - split; [exact Hpair |].
    exact (proj1 (Hcmp "./repos/merge_attempt1/org/repo/src/A.txt")).
Defined.

(** C3, as stated, fails: the artifact does not record the mode.  With a
    missing base and a merge attempt equal to the programmer merge the
    fallback is taken; with three identical files it is not; both runs
    write the same artifacts. *)
Lemma artifact_does_not_record_mode :
  compare_mode missing_base_world "./repos/base/org/repo/src/A.txt"
    "./repos/merge_attempt1/org/repo/src/A.txt"
    "./repos/programmer_merge/org/repo/src/A.txt" = TwoWay
  /\ compare_mode identical_files_world "./repos/base/org/repo/src/A.txt"
       "./repos/merge_attempt1/org/repo/src/A.txt"
       "./repos/programmer_merge/org/repo/src/A.txt" = ThreeWay
  /\ artifacts (trace (diff3_pair_analysis missing_base_world
                         "gitmerge_ort" "spork" 42 "out"))
     = artifacts (trace (diff3_pair_analysis identical_files_world
                           "gitmerge_ort" "spork" 42 "out"))
  /\ artifacts (trace (diff3_pair_analysis missing_base_world
                         "gitmerge_ort" "spork" 42 "out"))
     = [("out/42/gitmerge_ort/diff_A.txt", ""); ("out/42/spork/diff_A.txt", "");
        ("out/42/gitmerge_ort/diff_B.txt", ""); ("out/42/spork/diff_B.txt", "")]
  /\ artifacts (trace (diff3_analysis missing_base_world "gitmerge_ort" 42))
     = artifacts (trace (diff3_analysis identical_files_world "gitmerge_ort" 42)).
Proof.
  repeat split; vm_compute; reflexivity.
Qed.

(** C6: a text none of whose lines reads as a conflict line, and so any
    text without the word CONFLICT, gives the empty list.  Whenever the
    extraction from the console output of the merge tool is empty,
    [diff3_pair_analysis] ends after printing the output and "No conflict
    files to search", without having started [diff3] or [diff] and without
    having written a file; [diff3_analysis] starts no diff and writes no
    file either. *)
Theorem no_conflict_no_diff (w : World) (merge_tool1 merge_tool2 : string)
  (results_index : Z) (repo_output_dir : string) :
  let console :=
    stdout (subprocess_run w None
              ["../scripts/merge_tools/" ++ merge_tool1 ++ ".sh";
               rev_parse_show_toplevel w "./repos/merge_attempt1";
               "TEMP_LEFT_BRANCH"; "TEMP_RIGHT_BRANCH"]) in
  let console' :=
    stdout (subprocess_run w None
              ["../scripts/merge_tools/" ++ merge_tool1 ++ ".sh";
               rev_parse_show_toplevel w "./repos/merge_attempt";
               "TEMP_LEFT_BRANCH"; "TEMP_RIGHT_BRANCH"]) in
  (forall lines,
     Forall (fun line => re.all_dot line = true) lines ->
     Forall (fun line => forall p, ~ reads_conflict line p) lines ->
     re.findall CONFLICT_RE (String.concat LF lines) = [])
  /\ (forall text, Py.contains "CONFLICT" text = false ->
                   re.findall CONFLICT_RE text = [])
  /\ (re.findall CONFLICT_RE console = [] ->
      Forall (fun e => is_diff_or_write e = false)
        (trace (diff3_pair_analysis w merge_tool1 merge_tool2 results_index
                  repo_output_dir))
      /\ outcome (diff3_pair_analysis w merge_tool1 merge_tool2 results_index
                    repo_output_dir) = Ok tt
      /\ exists before,
           trace (diff3_pair_analysis w merge_tool1 merge_tool2 results_index
                    repo_output_dir)
           = (before ++ [Print console; Print "No conflict files to search"])%list)
  /\ (re.findall CONFLICT_RE console' = [] ->
      Forall (fun e => is_diff_or_write e = false)
        (trace (diff3_analysis w merge_tool1 results_index))).
Proof.
  intros console console'. split; [| split; [| split]].
  - intros lines Hlines Hnone. unfold LF.
    rewrite (findall_lines _ CONFLICT_RE_progress eq_refl _ Hlines).
    induction Hlines as [| line lines Dline _ IH]; [reflexivity |].
    inversion Hnone as [| ? ? Hline Hrest]; subst.
    cbn [flat_map]. rewrite (IH Hrest), app_nil_r.
    destruct (re.findall CONFLICT_RE line) as [| p ps] eqn:E; [reflexivity |].
    exfalso. apply (Hline p).
    destruct (findall_line_sound p line Dline) as (b & k & El & Hk & _ & Hp & _).
    { rewrite E. left. reflexivity. }
    exists b, k. split; [exact El | split; assumption].
  - exact findall_no_conflict.
  - intros E.
    unfold diff3_pair_analysis. cbv zeta. io_norm.
    fold console. rewrite E. io_norm.
    split; [| split].
    + repeat (constructor; [reflexivity |]). constructor.
    + reflexivity.
    + eexists.
      repeat match goal with
             | |- (?e :: ?t)%list = (_ ++ _)%list =>
                 first [ instantiate (1 := []); reflexivity
                       | instantiate (1 := (e :: _)%list);
                         rewrite <- app_comm_cons; f_equal ]
             end.
  - intros E.
    unfold diff3_analysis. cbv zeta. io_norm.
    fold console'. rewrite E. cbn [loop_from]. io_norm.
    repeat (constructor; [reflexivity |]). constructor.
Qed.

(** A merge that fails on a deleted file: the output has the word
    CONFLICT but no conflict line the pattern recognises, and the run is
    the preparation followed by the two prints. *)
Lemma no_conflict_no_diff_witness :
  Py.contains "CONFLICT" modify_delete_output = true
  /\ re.findall CONFLICT_RE modify_delete_output = []
  /\ Forall (fun e => is_diff_or_write e = false)
       (trace (diff3_pair_analysis modify_delete_world "gitmerge_ort" "spork"
                 42 "out"))
  /\ artifacts (trace (diff3_pair_analysis modify_delete_world "gitmerge_ort"
                         "spork" 42 "out")) = []
  /\ Forall (fun e => is_diff_or_write e = false)
       (trace (diff3_analysis modify_delete_world "gitmerge_ort" 42)).
Proof.
  destruct (no_conflict_no_diff modify_delete_world "gitmerge_ort" "spork" 42
              "out") as (_ & _ & Hpair & Hone).
  destruct Hpair as (Hnone & _ & _); [reflexivity |].
  pose proof (Hone eq_refl) as Hnone'.
  split; [reflexivity | split; [reflexivity | split; [exact Hnone |]]].
  split; [reflexivity | exact Hnone'].
Defined.

(** ** Runs in worlds that differ in diff3's error stream only *)

Section SameWorlds.

Variables w1 w2 : World.
Hypothesis same : same_up_to_diff3_stderr w1 w2.

Lemma run_same (p : pipes) (cwd : option string) (argv : list string) :
  is_diff3 argv = false -> run w1 p cwd argv = run w2 p cwd argv.
Proof.
  intros Hd. destruct same as (_ & _ & _ & Hrun).
  destruct (Hrun cwd argv) as (Hrc & Hout & Herr). rewrite Hd in Herr.
  unfold run.
  destruct (subprocess_run w1 cwd argv) as [rc1 out1 err1],
           (subprocess_run w2 cwd argv) as [rc2 out2 err2].
  simpl in Hrc, Hout, Herr. subst. reflexivity.
Qed.

Lemma compare_same (base attempt merge : string) :
  exists t d1 d2,
    compare w1 base attempt merge = (t, Ok d1)
    /\ compare w2 base attempt merge = (t, Ok d2)
    /\ stdout d1 = stdout d2.
Proof.
  rewrite !compare_cases.
  destruct same as (_ & _ & _ & Hrun).
  destruct (Hrun None ["diff3"; base; attempt; merge]) as (_ & Hout3 & Hc).
  destruct (Hrun None ["diff"; attempt; merge]) as (Hrc & Hout & Herr).
  simpl in Hc, Herr. rewrite Hc.
  destruct (Py.contains error_message
              (stderr (subprocess_run w2 None ["diff3"; base; attempt; merge]))).
  - rewrite Hrc, Hout, Herr. eexists; eexists; eexists.
    split; [reflexivity | split; reflexivity].
  - eexists; eexists; eexists.
    split; [reflexivity | split; [reflexivity | exact Hout3]].
Qed.

Lemma write_report_stdout (repo_output_dir : string) (results_index : Z)
  (merge_tool file_base : string) (d1 d2 : CompletedProcess) :
  stdout d1 = stdout d2 ->
  write_report repo_output_dir results_index merge_tool file_base d1
  = write_report repo_output_dir results_index merge_tool file_base d2.
Proof. intros H. unfold write_report. rewrite H. reflexivity. Qed.

Lemma pair_loop_body_same (merge_tool1 merge_tool2 : string) (results_index : Z)
  (repo_output_dir repo_name conflicting_file : string) :
  pair_loop_body w1 merge_tool1 merge_tool2 results_index repo_output_dir
    repo_name conflicting_file
  = pair_loop_body w2 merge_tool1 merge_tool2 results_index repo_output_dir
      repo_name conflicting_file.
Proof.
  unfold pair_loop_body. cbv zeta.
  set (base := os_path.join "./repos/base" _).
  set (merge := os_path.join "./repos/programmer_merge" _).
  set (a1 := os_path.join "./repos/merge_attempt1" _).
  set (a2 := os_path.join "./repos/merge_attempt2" _).
  destruct (compare_same base a1 merge) as (t & d1 & d2 & E1 & E2 & Ed).
  destruct (compare_same base a2 merge) as (t' & d1' & d2' & E1' & E2' & Ed').
  rewrite E1, E2, E1', E2'. cbn [bind].
  rewrite (write_report_stdout _ _ _ _ d1 d2 Ed).
  rewrite (write_report_stdout _ _ _ _ d1' d2' Ed'). reflexivity.
Qed.

Lemma loop_body_same (repo_name : string) (n : nat) (conflicting_file : string) :
  loop_body w1 repo_name n conflicting_file
  = loop_body w2 repo_name n conflicting_file.
Proof.
  unfold loop_body. cbv zeta.
  set (base := os_path.join "./repos/base" _).
  set (merge := os_path.join "./repos/programmer_merge" _).
  set (a := os_path.join "./repos/merge_attempt" _).
  destruct (compare_same base a merge) as (t & d1 & d2 & E1 & E2 & Ed).
  rewrite E1, E2. cbn [bind].
  pose proof same as (_ & _ & Htmp & _). rewrite (Htmp n), Ed.
  unfold run_checked.
  rewrite (run_same PipeNone None ["xdg-open"; temp_file_name w2 n] eq_refl).
  reflexivity.
Qed.

Lemma loop_from_same (repo_name : string) (files : list string) :
  forall n, loop_from w1 repo_name n files = loop_from w2 repo_name n files.
Proof.
  induction files as [| f files IH]; intros n; simpl; [reflexivity |].
  apply bind_cong; [apply loop_body_same | intros _; apply IH].
Qed.

Lemma diff3_pair_analysis_same (merge_tool1 merge_tool2 : string)
  (results_index : Z) (repo_output_dir : string) :
  diff3_pair_analysis w1 merge_tool1 merge_tool2 results_index repo_output_dir
  = diff3_pair_analysis w2 merge_tool1 merge_tool2 results_index repo_output_dir.
Proof.
  pose proof same as (Hcsv & Htop & _ & _).
  unfold diff3_pair_analysis. cbv zeta.
  rewrite !Hcsv, !Htop.
  repeat match goal with
         | |- context [run w1 ?p ?cwd ?argv] =>
             rewrite (run_same p cwd argv eq_refl)
         end.
  repeat (apply bind_cong; [reflexivity | intros ?]).
  match goal with |- context [re.findall ?p ?s] => destruct (re.findall p s) end;
    [reflexivity |].
  repeat (apply bind_cong; [reflexivity | intros ?]).
  apply for_each_cong. intros f. apply pair_loop_body_same.
Qed.

Lemma diff3_analysis_same (merge_tool : string) (repo_num : Z) :
  diff3_analysis w1 merge_tool repo_num = diff3_analysis w2 merge_tool repo_num.
Proof.
  pose proof same as (Hcsv & Htop & _ & _).
  unfold diff3_analysis. cbv zeta.
  rewrite !Hcsv, !Htop.
  repeat match goal with
         | |- context [run w1 ?p ?cwd ?argv] =>
             rewrite (run_same p cwd argv eq_refl)
         end.
  repeat (apply bind_cong; [reflexivity | intros ?]).
  apply bind_cong; [apply loop_from_same | intros ?]. reflexivity.
Qed.

End SameWorlds.

(** C4 (amended): the analyses pipe diff3's error stream and look at it
    for [error_message] only; whatever else it holds is dropped.  Two
    worlds that differ only in that text, and agree on whether it contains
    [error_message], give the same events and the same result. *)
Theorem diff3_diagnostics_dropped (w1 w2 : World)
  (merge_tool1 merge_tool2 : string) (results_index : Z)
  (repo_output_dir : string) :
  same_up_to_diff3_stderr w1 w2 ->
  diff3_pair_analysis w1 merge_tool1 merge_tool2 results_index repo_output_dir
  = diff3_pair_analysis w2 merge_tool1 merge_tool2 results_index repo_output_dir
  /\ diff3_analysis w1 merge_tool1 results_index
     = diff3_analysis w2 merge_tool1 results_index.
Proof.
  intros same. split.
  - apply diff3_pair_analysis_same. exact same.
  - apply diff3_analysis_same. exact same.
Qed.

(** A run in which [diff3] complains that it may not read a file is, event
    for event, the run in which it fails without a word. *)
Lemma diff3_diagnostics_dropped_witness :
  diff3_pair_analysis permission_denied_world "gitmerge_ort" "spork" 42 "out"
  = diff3_pair_analysis silent_failure_world "gitmerge_ort" "spork" 42 "out"
  /\ diff3_analysis permission_denied_world "gitmerge_ort" 42
     = diff3_analysis silent_failure_world "gitmerge_ort" 42.
Proof.
  apply (diff3_diagnostics_dropped permission_denied_world silent_failure_world
           "gitmerge_ort" "spork" 42 "out").
  split; [reflexivity | split; [reflexivity | split; [reflexivity |]]].
  intros cwd argv. destruct argv as [| prog rest].
  - repeat split; reflexivity.
  - unfold permission_denied_world, silent_failure_world, example_world,
      example_world_with, is_diff3.
    cbn [subprocess_run].
    destruct (String.eqb prog "diff3"); repeat split; reflexivity.
Defined.

(** C4, as stated, fails: [diff3] writes "Permission denied" for the merge
    attempt of [src/A.txt] to its error stream; the text is not the
    missing-file signal, and the analyses go on as if [diff3] had printed
    an empty diff: nothing of the text is printed, written or raised. *)
Lemma diff3_diagnostic_not_surfaced :
  stderr (subprocess_run permission_denied_world None
            ["diff3"; "./repos/base/org/repo/src/A.txt";
             "./repos/merge_attempt1/org/repo/src/A.txt";
             "./repos/programmer_merge/org/repo/src/A.txt"])
  = "diff3: ./repos/merge_attempt1/org/repo/src/A.txt: Permission denied" ++ LF
  /\ Py.contains error_message
       ("diff3: ./repos/merge_attempt1/org/repo/src/A.txt: Permission denied"
        ++ LF) = false
  /\ pair_loop_body permission_denied_world "gitmerge_ort" "spork" 42 "out"
       "org/repo" "src/A.txt"
     = ([Exec None ["diff3"; "./repos/base/org/repo/src/A.txt";
                    "./repos/merge_attempt1/org/repo/src/A.txt";
                    "./repos/programmer_merge/org/repo/src/A.txt"];
         Makedirs "out/42/gitmerge_ort";
         WriteFile "out/42/gitmerge_ort/diff_A.txt" "";
         Print "Diff results saved to out/42/gitmerge_ort/diff_A.txt";
         Exec None ["diff3"; "./repos/base/org/repo/src/A.txt";
                    "./repos/merge_attempt2/org/repo/src/A.txt";
                    "./repos/programmer_merge/org/repo/src/A.txt"];
         Makedirs "out/42/spork";
         WriteFile "out/42/spork/diff_A.txt" "";
         Print "Diff results saved to out/42/spork/diff_A.txt"],
        Ok tt)
  /\ loop_body permission_denied_world "org/repo" 0 "src/A.txt"
     = ([Exec None ["diff3"; "./repos/base/org/repo/src/A.txt";
                    "./repos/merge_attempt/org/repo/src/A.txt";
                    "./repos/programmer_merge/org/repo/src/A.txt"];
         WriteFile "/tmp/tmp0" "";
         Exec None ["xdg-open"; "/tmp/tmp0"];
         ChildStdout ""; ChildStderr "";
         RemoveFile "/tmp/tmp0"],
        Ok tt).
Proof.
  repeat split; vm_compute; reflexivity.
Qed.

End Analyses.

(* ===================================================================== *)
(** * Paths: properties *)
(* ===================================================================== *)

Section Paths.

Import os_path.

Lemma endswith_char_append (a b : string) (c : ascii) :
  b <> "" -> Py.endswith_char (a ++ b) c = Py.endswith_char b c.
Proof.
  intros Hb. induction a as [| x a IH]; [reflexivity |].
  cbn [append]. destruct (a ++ b) as [| y r] eqn:E.
  - destruct a; [simpl in E; contradiction | discriminate E].
  - exact IH.
Qed.

Lemma lacks_endswith (c : ascii) (s : string) :
  lacks c s = true -> Py.endswith_char s c = false.
Proof.
  induction s as [| x s IH]; intros H; [reflexivity |].
  simpl in H. apply andb_true_iff in H. destruct H as [Hx Hs].
  apply negb_true_iff in Hx.
  destruct s as [| y s]; [exact Hx | exact (IH Hs)].
Qed.

Lemma lacks_startswith (s : string) :
  lacks sep s = true -> Py.startswith s "/" = false.
Proof.
  destruct s as [| x s]; [reflexivity |]. intros H.
  cbn [lacks] in H.
  apply andb_true_iff in H. destruct H as [Hx _]. apply negb_true_iff in Hx.
  unfold Py.startswith. cbn [String.prefix].
  destruct (Ascii.ascii_dec "/" x) as [<- | _]; [| reflexivity].
  discriminate Hx.
Qed.

Lemma lacks_append (c : ascii) (a b : string) :
  lacks c (a ++ b) = lacks c a && lacks c b.
Proof.
  induction a as [| x a IH]; simpl; [reflexivity |].
  rewrite IH, andb_assoc. reflexivity.
Qed.

Lemma lacks_take (c : ascii) (n : nat) :
  forall s, lacks c s = true -> lacks c (Py.take n s) = true.
Proof.
  induction n as [| n IH]; intros s H; [destruct s; reflexivity |].
  destruct s as [| x s]; [reflexivity |].
  simpl in *. apply andb_true_iff in H. destruct H as [Hx Hs].
  rewrite Hx, (IH s Hs). reflexivity.
Qed.

Lemma join2_plain (path b : string) :
  path <> "" -> Py.endswith_char path sep = false ->
  Py.startswith b "/" = false ->
  join2 path b = path ++ "/" ++ b.
Proof.
  intros Hp He Hb. unfold join2. rewrite Hb, He, orb_false_r.
  destruct (String.eqb_spec path "") as [E | _]; [contradiction | reflexivity].
Qed.

Lemma rfind_lacks (c : ascii) (s : string) :
  lacks c s = true -> Py.rfind s c = (-1)%Z.
Proof.
  induction s as [| x s IH]; intros H; [reflexivity |].
  simpl in H. apply andb_true_iff in H. destruct H as [Hx Hs].
  apply negb_true_iff in Hx. simpl. rewrite (IH Hs), Hx. reflexivity.
Qed.

Lemma rfind_append (c : ascii) (a b : string) :
  lacks c b = true ->
  Py.rfind (a ++ String c b) c = Z.of_nat (String.length a).
Proof.
  intros Hb. induction a as [| x a IH].
  - simpl. rewrite (rfind_lacks c b Hb), Ascii.eqb_refl. reflexivity.
  - cbn [append]. cbn [Py.rfind]. rewrite IH.
    destruct (0 <=? Z.of_nat (String.length a))%Z eqn:E.
    + cbn [String.length]. lia.
    + apply Z.leb_gt in E. lia.
Qed.

(** [rfind] either finds nothing, or splits the text at the last [c]. *)
Lemma rfind_cases (c : ascii) (s : string) :
  (lacks c s = true /\ Py.rfind s c = (-1)%Z)
  \/ (exists a b, s = a ++ String c b /\ lacks c b = true
                  /\ Py.rfind s c = Z.of_nat (String.length a)).
Proof.
  induction s as [| x s IH].
  - left. split; reflexivity.
  - destruct IH as [[Hl Hr] | (a & b & -> & Hb & Hr)].
    + destruct (Ascii.eqb_spec x c) as [-> | N].
      * right. exists "", s. split; [reflexivity | split; [exact Hl |]].
        exact (rfind_append c "" s Hl).
      * left. apply Ascii.eqb_neq in N. simpl. rewrite Hl, Hr, N.
        split; reflexivity.
    + right. exists (String x a), b.
      split; [reflexivity | split; [exact Hb |]].
      exact (rfind_append c (String x a) b Hb).
Qed.

Lemma take_append (a b : string) : Py.take (String.length a) (a ++ b) = a.
Proof.
  induction a as [| x a IH]; simpl; [destruct b; reflexivity |].
  rewrite IH. reflexivity.
Qed.

Lemma drop_append (a b : string) : Py.drop (String.length a) (a ++ b) = b.
Proof. induction a as [| x a IH]; simpl; [reflexivity | exact IH]. Qed.

Lemma rstrip_char_append_one (a : string) (c : ascii) :
  Py.rstrip_char (a ++ String c "") c = Py.rstrip_char a c.
Proof.
  induction a as [| x a IH]; simpl.
  - rewrite Ascii.eqb_refl. reflexivity.
  - rewrite IH. reflexivity.
Qed.

Lemma rstrip_char_id (s : string) (c : ascii) :
  Py.endswith_char s c = false -> Py.rstrip_char s c = s.
Proof.
  induction s as [| x s IH]; intros H; [reflexivity |].
  destruct s as [| y s].
  - simpl in *. rewrite H. reflexivity.
  - change (Py.endswith_char (String x (String y s)) c)
      with (Py.endswith_char (String y s) c) in H.
    change (Py.rstrip_char (String x (String y s)) c)
      with (match Py.rstrip_char (String y s) c with
            | EmptyString => if Ascii.eqb x c then EmptyString
                             else String x EmptyString
            | t => String x t
            end).
    rewrite (IH H). reflexivity.
Qed.

Lemma all_char_append (a b : string) (c : ascii) :
  Py.all_char (a ++ b) c = Py.all_char a c && Py.all_char b c.
Proof.
  induction a as [| x a IH]; simpl; [reflexivity |].
  rewrite IH, andb_assoc. reflexivity.
Qed.

Lemma all_char_endswith (s : string) (c : ascii) :
  s <> "" -> Py.endswith_char s c = false -> Py.all_char s c = false.
Proof.
  induction s as [| x s IH]; intros Hs H; [contradiction |].
  destruct s as [| y s].
  - simpl in *. rewrite H. reflexivity.
  - change (Py.endswith_char (String x (String y s)) c)
      with (Py.endswith_char (String y s) c) in H.
    cbn [Py.all_char]. cbn [Py.all_char] in IH.
    rewrite IH; [apply andb_false_r | discriminate | exact H].
Qed.

(** The directory of [X/last] is [X]. *)
Lemma dirname_join (X last : string) :
  X <> "" -> Py.endswith_char X sep = false -> lacks sep last = true ->
  dirname (X ++ "/" ++ last) = X.
Proof.
  intros HX He Hl. unfold dirname.
  change (X ++ "/" ++ last) with (X ++ String sep last).
  rewrite (rfind_append sep X last Hl).
  unfold Py.slice_to.
  replace (Z.to_nat (Z.of_nat (String.length X) + 1))
    with (String.length (X ++ String sep "")) by (rewrite length_append; simpl; lia).
  replace (X ++ String sep last) with ((X ++ String sep "") ++ last)
    by (rewrite append_assoc; reflexivity).
  rewrite take_append, all_char_append, (all_char_endswith X sep HX He).
  cbn [andb negb].
  destruct (String.eqb_spec (X ++ String sep "") "") as [E | _].
  - destruct X; discriminate E.
  - cbn [negb andb]. rewrite rstrip_char_append_one. apply rstrip_char_id, He.
Qed.

Lemma basename_lacks (p : string) : lacks sep (basename p) = true.
Proof.
  unfold basename, Py.slice_from.
  destruct (rfind_cases sep p) as [[Hl ->] | (a & b & -> & Hb & ->)].
  - exact Hl.
  - replace (Z.to_nat (Z.of_nat (String.length a) + 1))
      with (String.length (a ++ String sep "")) by (rewrite length_append; simpl; lia).
    replace (a ++ String sep b) with ((a ++ String sep "") ++ b)
      by (rewrite append_assoc; reflexivity).
    rewrite drop_append. exact Hb.
Qed.

Lemma splitext_fst_lacks (c : ascii) (p : string) :
  lacks c p = true -> lacks c (fst (splitext p)) = true.
Proof.
  intros H. unfold splitext.
  destruct (Py.rfind p sep <? Py.rfind p extsep)%Z; [| exact H].
  destruct (negb _); [| exact H].
  apply lacks_take. exact H.
Qed.

(** Decimal numerals have no slash and are not empty. *)
Lemma str_lacks_sep (i : Z) : lacks sep (Py.str i) = true /\ Py.str i <> "".
Proof.
  assert (U : forall d, lacks sep (NilEmpty.string_of_uint d) = true).
  { induction d; simpl; try exact IHd; reflexivity. }
  assert (V : forall d, lacks sep (NilZero.string_of_uint d) = true
                        /\ NilZero.string_of_uint d <> "").
  { intros d. destruct d; simpl; (split; [try apply U; reflexivity | discriminate]). }
  unfold Py.str. destruct (Z.to_int i) as [d | d]; simpl.
  - apply V.
  - split; [apply V | discriminate].
Qed.

(** Joining one more plain component. *)
Lemma join2_segment (path seg : string) :
  path <> "" -> Py.endswith_char path sep = false ->
  seg <> "" -> lacks sep seg = true ->
  join2 path seg = path ++ "/" ++ seg
  /\ path ++ "/" ++ seg <> ""
  /\ Py.endswith_char (path ++ "/" ++ seg) sep = false.
Proof.
  intros Hp He Hs Hl. split; [| split].
  - apply join2_plain; [exact Hp | exact He | apply lacks_startswith; exact Hl].
  - destruct path; [contradiction | discriminate].
  - rewrite endswith_char_append by discriminate.
    change ("/" ++ seg) with (String sep "" ++ seg).
    rewrite endswith_char_append by exact Hs.
    apply lacks_endswith. exact Hl.
Qed.

(** The path of a report and its directory, for plain components. *)
Lemma report_path_plain (repo_output_dir merge_tool file_base : string)
  (results_index : Z) :
  repo_output_dir <> "" -> Py.endswith_char repo_output_dir sep = false ->
  merge_tool <> "" -> lacks sep merge_tool = true ->
  lacks sep file_base = true ->
  let dir :=
    repo_output_dir ++ "/" ++ Py.str results_index ++ "/" ++ merge_tool in
  join repo_output_dir
    [Py.str results_index; merge_tool; "diff_" ++ file_base ++ ".txt"]
  = dir ++ "/diff_" ++ file_base ++ ".txt"
  /\ dirname (dir ++ "/diff_" ++ file_base ++ ".txt") = dir.
Proof.
  intros Ho Hoe Ht Htl Hb dir.
  destruct (str_lacks_sep results_index) as [Hil Hi].
  destruct (join2_segment repo_output_dir (Py.str results_index) Ho Hoe Hi Hil)
    as (J1 & N1 & E1).
  destruct (join2_segment _ merge_tool N1 E1 Ht Htl) as (J2 & N2 & E2).
  assert (Hdir : (repo_output_dir ++ "/" ++ Py.str results_index)
                 ++ "/" ++ merge_tool = dir).
  { subst dir. rewrite append_assoc. reflexivity. }
  rewrite Hdir in J2, N2, E2.
  split.
  - unfold join. cbn [fold_left]. rewrite J1, J2.
    apply join2_plain; [exact N2 | exact E2 | reflexivity].
  - change (dir ++ "/diff_" ++ file_base ++ ".txt")
      with (dir ++ "/" ++ ("diff_" ++ file_base ++ ".txt")).
    apply dirname_join; [exact N2 | exact E2 |].
    rewrite !lacks_append, Hb. reflexivity.
Qed.

(** C9: for an output root that is not empty and does not end in a
    slash, and tool names that are plain path components, the report of a
    conflicting file is written to
    [<output_root>/<scenario_id>/<tool_name>/diff_<file_basename>.txt],
    the file's base name being taken without directory and extension,
    right after its directory is made; so for scenario 42, tool
    gitmerge_ort and file src/A.java the path is
    [<output_root>/42/gitmerge_ort/diff_A.txt]. *)
Theorem report_writer_path (w : World) (merge_tool1 merge_tool2 : string)
  (results_index : Z) (repo_output_dir repo_name conflicting_file : string) :
  repo_output_dir <> "" -> Py.endswith_char repo_output_dir sep = false ->
  merge_tool1 <> "" -> lacks sep merge_tool1 = true ->
  merge_tool2 <> "" -> lacks sep merge_tool2 = true ->
  let file_base := fst (splitext (basename conflicting_file)) in
  let dir tool :=
    repo_output_dir ++ "/" ++ Py.str results_index ++ "/" ++ tool in
  let path tool := dir tool ++ "/diff_" ++ file_base ++ ".txt" in
  (exists t1 d1 t2 d2,
     pair_loop_body w merge_tool1 merge_tool2 results_index repo_output_dir
       repo_name conflicting_file
     = ((t1 ++ [Makedirs (dir merge_tool1);
                WriteFile (path merge_tool1) (stdout d1);
                Print ("Diff results saved to " ++ path merge_tool1)])
        ++ t2 ++ [Makedirs (dir merge_tool2);
                  WriteFile (path merge_tool2) (stdout d2);
                  Print ("Diff results saved to " ++ path merge_tool2)],
        Ok tt)%list
     /\ compare w (join "./repos/base" [join repo_name [conflicting_file]])
          (join "./repos/merge_attempt1" [join repo_name [conflicting_file]])
          (join "./repos/programmer_merge" [join repo_name [conflicting_file]])
        = (t1, Ok d1)
     /\ compare w (join "./repos/base" [join repo_name [conflicting_file]])
          (join "./repos/merge_attempt2" [join repo_name [conflicting_file]])
          (join "./repos/programmer_merge" [join repo_name [conflicting_file]])
        = (t2, Ok d2))
  /\ join repo_output_dir
       [Py.str 42; "gitmerge_ort";
        "diff_" ++ fst (splitext (basename "src/A.java")) ++ ".txt"]
     = repo_output_dir ++ "/42/gitmerge_ort/diff_A.txt".
Proof.
  intros Ho Hoe Ht1 Hl1 Ht2 Hl2 file_base dir path.
  assert (Hb : lacks sep file_base = true)
    by (apply splitext_fst_lacks, basename_lacks).
  split.
  - destruct (report_path_plain repo_output_dir merge_tool1 file_base
                results_index Ho Hoe Ht1 Hl1 Hb) as [P1 D1].
    destruct (report_path_plain repo_output_dir merge_tool2 file_base
                results_index Ho Hoe Ht2 Hl2 Hb) as [P2 D2].
    unfold pair_loop_body. cbv zeta.
    set (base := join "./repos/base" _).
    set (merge := join "./repos/programmer_merge" _).
    set (a1 := join "./repos/merge_attempt1" _).
    set (a2 := join "./repos/merge_attempt2" _).
    destruct (compare_kept w base a1 merge) as (t1 & d1 & E1 & _).
    destruct (compare_kept w base a2 merge) as (t2 & d2 & E2 & _).
    exists t1, d1, t2, d2. rewrite E1, E2.
    split; [| split; reflexivity].
    unfold write_report. fold file_base. rewrite P1, P2, D1, D2.
    cbn [bind emit ret app fst snd]. rewrite <- app_assoc. reflexivity.
  - destruct (report_path_plain repo_output_dir "gitmerge_ort" "A" 42
                Ho Hoe) as [P _]; [discriminate | reflexivity | reflexivity |].
    rewrite append_assoc in P. exact P.
Qed.

(** The report paths of the two tools for [src/A.java] of scenario 42
    under the output root [out]. *)
Lemma report_writer_path_witness :
  map fst (artifacts (trace (pair_loop_body identical_files_world
                               "gitmerge_ort" "spork" 42 "out" "org/repo"
                               "src/A.java")))
  = ["out/42/gitmerge_ort/diff_A.txt"; "out/42/spork/diff_A.txt"]
  /\ join "out" [Py.str 42; "gitmerge_ort";
                 "diff_" ++ fst (splitext (basename "src/A.java")) ++ ".txt"]
     = "out/42/gitmerge_ort/diff_A.txt".
Proof.
  destruct (report_writer_path identical_files_world "gitmerge_ort" "spork" 42
              "out" "org/repo" "src/A.java") as [_ P];
    [discriminate | reflexivity | discriminate | reflexivity
     | discriminate | reflexivity |].
  split; [vm_compute; reflexivity | exact P].
Defined.

End Paths.

(* ===================================================================== *)
(** * Reconciliation: further properties *)
(* ===================================================================== *)

Section ReconciliationAlgebra.

Import TEST_STATE MERGE_STATE.

Lemma py_in_pair_swap (x a b : string) : py_in x [a; b] = py_in x [b; a].
Proof. simpl. rewrite !orb_false_r. apply orb_comm. Qed.

(** X1: [merge_two_states] is commutative, for any two texts: the same
    state, or the same error, whichever argument comes first. *)
Theorem merge_two_states_commutative (a b : string) :
  merge_two_states a b = merge_two_states b a.
Proof.
  unfold merge_two_states.
  rewrite (py_in_pair_swap Tests_passed a b), (py_in_pair_swap Merge_failed a b),
    (py_in_pair_swap Tests_failed a b), (andb_comm (String.eqb a Tests_timedout)).
  reflexivity.
Qed.

(** X2: when [merge_two_states] returns, the state is one of its two
    arguments and is a valid state. *)
Theorem merge_two_states_selects (a b r : string) :
  merge_two_states a b = Ok r -> (r = a \/ r = b) /\ valid_state r.
Proof.
  unfold merge_two_states, valid_state. intros H.
  destruct (py_in Tests_passed [a; b]) eqn:E1.
  { injection H as <-. apply py_in_pair in E1. tauto. }
  destruct (py_in Merge_failed [a; b]) eqn:E2.
  { injection H as <-. apply py_in_pair in E2. tauto. }
  destruct (py_in Tests_failed [a; b]) eqn:E3.
  { injection H as <-. apply py_in_pair in E3. tauto. }
  destruct (String.eqb_spec a Tests_timedout) as [Ea | Ea]; [| discriminate H].
  destruct (String.eqb_spec b Tests_timedout) as [Eb | Eb]; [| discriminate H].
  injection H as <-. subst. tauto.
Qed.

Lemma merge_two_states_selects_witness :
  merge_two_states Tests_timedout Merge_failed = Ok Merge_failed
  /\ (Merge_failed = Tests_timedout \/ Merge_failed = Merge_failed)
  /\ valid_state Merge_failed.
Proof.
  split; [reflexivity |].
  exact (merge_two_states_selects Tests_timedout Merge_failed Merge_failed
           eq_refl).
Defined.

Lemma merge_invalid_raises (a x : string) :
  a = x \/ a = Tests_timedout -> ~ valid_state x ->
  merge_two_states a x = Raise "Invalid case".
Proof.
  intros Ha Hx.
  assert (N : x <> Tests_passed /\ x <> Merge_failed /\ x <> Tests_failed
              /\ x <> Tests_timedout) by (unfold valid_state in Hx; tauto).
  destruct N as (N1 & N2 & N3 & N4).
  assert (A : a <> Tests_passed /\ a <> Merge_failed /\ a <> Tests_failed).
  { destruct Ha as [-> | ->]; [tauto |]. repeat split; discriminate. }
  destruct A as (A1 & A2 & A3).
  unfold merge_two_states.
  replace (py_in Tests_passed [a; x]) with false
    by (symmetry; apply py_in_pair_false; split; congruence).
  replace (py_in Merge_failed [a; x]) with false
    by (symmetry; apply py_in_pair_false; split; congruence).
  replace (py_in Tests_failed [a; x]) with false
    by (symmetry; apply py_in_pair_false; split; congruence).
  apply String.eqb_neq in N4. rewrite N4, andb_false_r. reflexivity.
Qed.

(** X3: tests timed out is neutral and every valid state is idempotent:
    for a valid state [x], reconciling it with tests timed out or with
    itself gives [x]; for any other text both raise "Invalid case". *)
Theorem merge_two_states_neutral_idempotent (x : string) :
  (valid_state x ->
   merge_two_states Tests_timedout x = Ok x /\ merge_two_states x x = Ok x)
  /\ (~ valid_state x ->
      merge_two_states Tests_timedout x = Raise "Invalid case"
      /\ merge_two_states x x = Raise "Invalid case").
Proof.
  split.
  - unfold valid_state. intros [-> | [-> | [-> | ->]]]; split; reflexivity.
  - intros Hx. split; apply merge_invalid_raises; tauto.
Qed.

Lemma merge_two_states_neutral_idempotent_witness :
  merge_two_states Tests_timedout Tests_failed = Ok Tests_failed
  /\ merge_two_states Merge_timedout Merge_timedout = Raise "Invalid case".
Proof.
  destruct (merge_two_states_neutral_idempotent Tests_failed) as [Hv _].
  destruct (merge_two_states_neutral_idempotent Merge_timedout) as [_ Hn].
  split.
  - apply Hv. right. right. left. reflexivity.
  - apply Hn. unfold valid_state.
    intros [H | [H | [H | H]]]; discriminate H.
Defined.

End ReconciliationAlgebra.

(* ===================================================================== *)
(** * The oracle column in closed form *)
(* ===================================================================== *)

Section OracleClosedForm.

Import TEST_STATE MERGE_STATE.

Lemma py_in_app (x : string) (xs ys : list string) :
  py_in x (xs ++ ys) = py_in x xs || py_in x ys.
Proof.
  induction xs as [| y xs IH]; simpl; [reflexivity |].
  rewrite IH, orb_assoc. reflexivity.
Qed.

Lemma py_in_In (x : string) (xs : list string) : py_in x xs = true <-> In x xs.
Proof.
  induction xs as [| y xs IH]; simpl; [split; [discriminate | tauto] |].
  rewrite orb_true_iff, String.eqb_eq, IH. split; intros [H | H]; auto.
Qed.

Lemma py_in_same_members (x : string) (xs ys : list string) :
  (forall s, In s xs <-> In s ys) -> py_in x xs = py_in x ys.
Proof.
  intros H. destruct (py_in x xs) eqn:E1, (py_in x ys) eqn:E2; try reflexivity.
  - apply py_in_In, H, py_in_In in E1. congruence.
  - apply py_in_In, H, py_in_In in E2. congruence.
Qed.

(** One more outcome folded into the best of the outcomes so far. *)
Lemma merge_two_states_oracle_of (done : list string) (x : string) :
  merge_two_states (oracle_of done) x = Ok (oracle_of (done ++ [x])).
Proof.
  unfold oracle_of. rewrite !py_in_app.
  destruct (py_in Tests_passed done) eqn:P; [reflexivity |].
  destruct (py_in Merge_failed done) eqn:M.
  - unfold merge_two_states.
    change (py_in Tests_passed [Merge_failed; x]) with (py_in Tests_passed [x]).
    cbn [orb]. destruct (py_in Tests_passed [x]); reflexivity.
  - unfold merge_two_states.
    change (py_in Tests_passed [Tests_failed; x]) with (py_in Tests_passed [x]).
    change (py_in Merge_failed [Tests_failed; x]) with (py_in Merge_failed [x]).
    cbn [orb]. destruct (py_in Tests_passed [x]); [reflexivity |].
    destruct (py_in Merge_failed [x]); reflexivity.
Qed.

Lemma apply_rows_folded (done : list string) (merge_tool : string)
  (df0 df : DataFrame) :
  merge_tool <> ORACLE ->
  Forall2 (folded done) df0 df ->
  exists col,
    apply_rows (fun r => merge_two_states (r ORACLE) (r merge_tool)) df = Ok col
    /\ Forall2 (folded (done ++ [merge_tool])) df0 (assign ORACLE col df).
Proof.
  intros Ht. induction 1 as [| r0 r rs0 rs [Ho Hc] _ (col & Hcol & Hall)].
  - exists []. split; [reflexivity | constructor].
  - exists (oracle_of (map r0 done ++ [r0 merge_tool]) :: col).
    simpl. rewrite Ho, (Hc merge_tool Ht), merge_two_states_oracle_of.
    simpl. rewrite Hcol. simpl. split; [reflexivity |].
    constructor; [| exact Hall].
    unfold folded, set_col. rewrite String.eqb_refl, map_app.
    split; [reflexivity |].
    intros c Hne. apply String.eqb_neq in Hne. rewrite Hne. apply Hc.
    apply String.eqb_neq. exact Hne.
Qed.

Lemma oracle_loop_folded (tools : list string) :
  forall done df0 df,
  ~ In ORACLE tools ->
  Forall2 (folded done) df0 df ->
  exists df', oracle_loop tools df = Ok df'
              /\ Forall2 (folded (done ++ tools)) df0 df'.
Proof.
  induction tools as [| t ts IH]; intros done df0 df Hno H.
  - exists df. rewrite app_nil_r. split; [reflexivity | exact H].
  - assert (Ht : t <> ORACLE) by (intros ->; apply Hno; left; reflexivity).
    destruct (apply_rows_folded done t df0 df Ht H) as (col & Hcol & Hstep).
    destruct (IH (done ++ [t])%list df0 _ (fun X => Hno (or_intror X)) Hstep)
      as (df' & Hloop & Hall).
    exists df'. simpl. rewrite Hcol. simpl. split; [exact Hloop |].
    rewrite <- app_assoc in Hall. exact Hall.
Qed.

Lemma add_oracle_folded (tools : list string) (df : DataFrame) :
  ~ In ORACLE tools ->
  exists df', add_oracle tools df = Ok df' /\ Forall2 (folded tools) df df'.
Proof.
  intros Hno. unfold add_oracle.
  apply (oracle_loop_folded tools [] df _ Hno).
  induction df as [| r rs IH]; simpl; constructor; [| exact IH].
  unfold folded, set_col. rewrite String.eqb_refl. split; [reflexivity |].
  intros c Hc. apply String.eqb_neq in Hc. rewrite Hc. reflexivity.
Qed.

Lemma folded_column (tools : list string) (df df' : DataFrame) :
  Forall2 (folded tools) df df' ->
  column ORACLE df' = map (fun r => oracle_of (map r tools)) df.
Proof.
  induction 1 as [| r r' rs rs' [Ho _] _ IH]; simpl; [reflexivity |].
  rewrite Ho. f_equal. exact IH.
Qed.

(** Folding the outcomes from the left, from an oracle that stands for the
    outcomes [done]. *)
Lemma reduce_left_oracle_of (states : list string) :
  forall done,
  reduce_left (oracle_of done) states = Ok (oracle_of (done ++ states)).
Proof.
  induction states as [| x states IH]; intros done.
  - rewrite app_nil_r. reflexivity.
  - cbn [reduce_left]. rewrite merge_two_states_oracle_of. cbn [rbind].
    rewrite IH, <- app_assoc. reflexivity.
Qed.

(** C10: the oracle column is seeded with tests failed and then folded
    over every tool, for any table whatever: the computation never
    raises, every oracle cell is tests passed, merge failed or tests
    failed, never tests timed out, and a row in which every tool timed
    out gets tests failed.  When no tool is called "Oracle tool", the
    oracle cell of a row is what [merge_two_states] gives when it is
    folded from the left over the outcomes of all the tools on that row,
    in the order of the tools, starting from tests failed. *)
Theorem oracle_never_timedout (tools : list string) (df : DataFrame) :
  exists df',
    add_oracle tools df = Ok df'
    /\ Forall2 (fun r r' =>
                  (r' ORACLE = Tests_passed \/ r' ORACLE = Merge_failed
                   \/ r' ORACLE = Tests_failed)
                  /\ r' ORACLE <> Tests_timedout
                  /\ (forall c, c <> ORACLE -> r' c = r c)
                  /\ ((forall t, In t tools -> r t = Tests_timedout) ->
                      r' ORACLE = Tests_failed))
               df df'
    /\ (~ In ORACLE tools ->
        Forall2 (fun r r' =>
                   reduce_left Tests_failed (map r tools) = Ok (r' ORACLE))
                df df').
Proof.
  destruct (oracle_loop_states tools df) as (df' & Hrun & Hrows).
  exists df'. split; [exact Hrun | split; [exact Hrows |]].
  intros Hno.
  destruct (add_oracle_folded tools df Hno) as (df'' & Hrun' & Hall).
  rewrite Hrun in Hrun'. injection Hrun' as <-.
  clear - Hall. induction Hall as [| r r' rs rs' [Ho _] _ IH]; constructor;
    [| exact IH].
  rewrite Ho. exact (reduce_left_oracle_of (map r tools) []).
Qed.

(** A merge that one tool passed, and a merge on which every tool timed
    out: the fold gives tests passed and tests failed. *)
Lemma oracle_never_timedout_witness :
  exists df',
    add_oracle ["gitmerge_ort"; "spork"; "intellimerge"]
      [ort_myers_row; all_timedout_row] = Ok df'
    /\ column ORACLE df' = [Tests_passed; Tests_failed].
Proof.
  destruct (oracle_never_timedout ["gitmerge_ort"; "spork"; "intellimerge"]
              [ort_myers_row; all_timedout_row]) as (df' & Hrun & Hrows & Hfold).
  exists df'. split; [exact Hrun |].
  assert (Hno : ~ In ORACLE ["gitmerge_ort"; "spork"; "intellimerge"])
    by (intros [H | [H | [H | []]]]; discriminate H).
  specialize (Hfold Hno).
  inversion Hfold as [| r1 r1' rs1 rs1' H1 Hrest1]; subst.
  inversion Hrest1 as [| r2 r2' rs2 rs2' _ Hrest2]; subst.
  inversion Hrest2; subst.
  inversion Hrows as [| ? ? ? ? _ Hrows1]; subst.
  inversion Hrows1 as [| ? ? ? ? (_ & _ & _ & Hall) _]; subst.
  cbn [column map]. f_equal; [| f_equal].
  - vm_compute in H1. injection H1 as H1. unfold ORACLE. rewrite <- H1.
    reflexivity.
  - apply Hall. intros t [<- | [<- | [<- | []]]]; reflexivity.
Defined.

(** X4: when no tool is called "Oracle tool", the oracle cell of every
    merge is the best outcome any tool reached on it: tests passed when
    some tool passed, else merge failed when some tool's merge failed,
    else tests failed; the other columns are unchanged. *)
Theorem oracle_column_closed_form (tools : list string) (df : DataFrame) :
  ~ In ORACLE tools ->
  exists df',
    add_oracle tools df = Ok df'
    /\ column ORACLE df' = map (fun r => oracle_of (map r tools)) df
    /\ forall t, t <> ORACLE -> column t df' = column t df.
Proof.
  intros Hno. destruct (add_oracle_folded tools df Hno) as (df' & Hrun & Hall).
  exists df'. split; [exact Hrun | split; [apply folded_column; exact Hall |]].
  intros t Ht. clear Hrun.
  induction Hall as [| r r' rs rs' [_ Hc] _ IH]; simpl; [reflexivity |].
  rewrite (Hc t Ht). f_equal. exact IH.
Qed.

(** Passed by one tool, failed or timed out by the others. *)
Lemma oracle_column_closed_form_witness :
  exists df',
    add_oracle ["gitmerge_ort"; "spork"] [ort_myers_row; all_timedout_row]
    = Ok df'
    /\ column ORACLE df' = [Tests_passed; Tests_failed].
Proof.
  destruct (oracle_column_closed_form ["gitmerge_ort"; "spork"]
              [ort_myers_row; all_timedout_row]) as (df' & Hrun & Hcol & _).
  - intros [H | [H | []]]; discriminate H.
  - exists df'. split; [exact Hrun | exact Hcol].
Defined.

(** X5: the oracle column does not depend on the order in which the tools
    are folded, nor on a tool being listed twice: two lists with the same
    tools give the same column. *)
Theorem oracle_column_order_independent (tools tools' : list string)
  (df : DataFrame) :
  ~ In ORACLE tools -> (forall t, In t tools <-> In t tools') ->
  exists df1 df2,
    add_oracle tools df = Ok df1 /\ add_oracle tools' df = Ok df2
    /\ column ORACLE df1 = column ORACLE df2.
Proof.
  intros Hno Hsame.
  assert (Hno' : ~ In ORACLE tools') by (intros X; apply Hno, Hsame, X).
  destruct (add_oracle_folded tools df Hno) as (df1 & Hrun1 & Hall1).
  destruct (add_oracle_folded tools' df Hno') as (df2 & Hrun2 & Hall2).
  exists df1, df2. split; [exact Hrun1 | split; [exact Hrun2 |]].
  rewrite (folded_column _ _ _ Hall1), (folded_column _ _ _ Hall2).
  apply map_ext. intros r. unfold oracle_of.
  assert (M : forall s, In s (map r tools) <-> In s (map r tools')).
  { intros s. rewrite !in_map_iff.
    split; intros (t & E & Hin); exists t; (split; [exact E | apply Hsame, Hin]). }
  rewrite (py_in_same_members Tests_passed _ _ M),
    (py_in_same_members Merge_failed _ _ M). reflexivity.
Qed.

Lemma oracle_column_order_independent_witness :
  exists df1 df2,
    add_oracle ["gitmerge_ort"; "spork"] [ort_myers_row] = Ok df1
    /\ add_oracle ["spork"; "gitmerge_ort"; "spork"] [ort_myers_row] = Ok df2
    /\ column ORACLE df1 = column ORACLE df2.
Proof.
  apply (oracle_column_order_independent ["gitmerge_ort"; "spork"]
           ["spork"; "gitmerge_ort"; "spork"] [ort_myers_row]).
  - intros [H | [H | []]]; discriminate H.
  - intros t. simpl. tauto.
Defined.

End OracleClosedForm.

(* ===================================================================== *)
(** * Undesired states and the outcome counts *)
(* ===================================================================== *)

Section Counting.

Import TEST_STATE MERGE_STATE.

Lemma filter_filter {A : Type} (f g : A -> bool) (l : list A) :
  filter g (filter f l) = filter (fun x => f x && g x) l.
Proof.
  induction l as [| x l IH]; simpl; [reflexivity |].
  destruct (f x); simpl; [destruct (g x) |]; rewrite IH; reflexivity.
Qed.

Lemma remove_undesired_filter (tools : list string) :
  forall df, remove_undesired tools df = filter (desirable_row tools) df.
Proof.
  induction tools as [| t ts IH]; intros df; simpl.
  - induction df as [| r rs IHr]; simpl; [reflexivity |]. rewrite <- IHr.
    reflexivity.
  - rewrite IH. unfold drop_isin. rewrite filter_filter. reflexivity.
Qed.

(** X6: removing the undesired states tool by tool keeps exactly the
    merges on which no tool has a checkout failure, an untested merge or a
    merge timeout, in their order; what is left has no such state in any
    tool's column. *)
Theorem remove_undesired_keeps (tools : list string) (df : DataFrame) :
  remove_undesired tools df = filter (desirable_row tools) df
  /\ (forall r, In r (remove_undesired tools df) <->
                In r df /\ forall t, In t tools ->
                                     py_in (r t) UNDESIRABLE_STATES = false)
  /\ (forall t, In t tools ->
      Forall (fun val => ~ In val UNDESIRABLE_STATES)
             (column t (remove_undesired tools df))).
Proof.
  assert (D : forall r, desirable_row tools r = true <->
                        forall t, In t tools ->
                                  py_in (r t) UNDESIRABLE_STATES = false).
  { intros r. unfold desirable_row. rewrite forallb_forall.
    split; intros H t Ht; specialize (H t Ht).
    - apply negb_true_iff. exact H.
    - apply negb_true_iff. exact H. }
  split; [apply remove_undesired_filter | split].
  - intros r. rewrite remove_undesired_filter, filter_In, D. tauto.
  - intros t Ht. rewrite remove_undesired_filter. unfold column.
    apply Forall_forall. intros val Hval.
    apply in_map_iff in Hval. destruct Hval as (r & <- & Hr).
    apply filter_In in Hr. destruct Hr as [_ Hr].
    intros Hin. apply py_in_In in Hin.
    rewrite (proj1 (D r) Hr t Ht) in Hin. discriminate Hin.
Qed.

Lemma remove_undesired_keeps_witness :
  column "gitmerge_ort"
    (remove_undesired ["gitmerge_ort"; "spork"]
       [row_of [("gitmerge_ort", "Tests_passed"); ("spork", "Not_tested")];
        row_of [("gitmerge_ort", "Tests_failed"); ("spork", "Merge_failed")];
        row_of [("gitmerge_ort", "Merge_timedout"); ("spork", "Tests_passed")]])
  = ["Tests_failed"]
  /\ Forall (fun val => ~ In val UNDESIRABLE_STATES)
       (column "spork"
          (remove_undesired ["gitmerge_ort"; "spork"]
             [row_of [("gitmerge_ort", "Tests_passed"); ("spork", "Not_tested")];
              row_of [("gitmerge_ort", "Tests_failed"); ("spork", "Merge_failed")];
              row_of [("gitmerge_ort", "Merge_timedout");
                      ("spork", "Tests_passed")]])).
Proof.
  split; [reflexivity |].
  apply (remove_undesired_keeps ["gitmerge_ort"; "spork"]).
  right. left. reflexivity.
Defined.

(** A known outcome is counted in exactly one of the three lists, any
    other text in none. *)
Lemma count_one (val : string) :
  ((if py_in val MERGE_INCORRECT_NAMES then 1 else 0)
   + (if py_in val MERGE_CORRECT_NAMES then 1 else 0)
   + (if py_in val MERGE_UNHANDLED_NAMES then 1 else 0)
   = if known_outcome val then 1 else 0)%Z.
Proof.
  unfold known_outcome. rewrite !py_in_app.
  unfold MERGE_INCORRECT_NAMES, MERGE_CORRECT_NAMES, MERGE_UNHANDLED_NAMES.
  cbn [py_in]. rewrite !orb_false_r.
  destruct (String.eqb_spec val Tests_passed) as [-> | _]; [reflexivity |].
  destruct (String.eqb_spec val Tests_failed) as [-> | _]; [reflexivity |].
  destruct (String.eqb_spec val Tests_timedout) as [-> | _]; [reflexivity |].
  destruct (String.eqb_spec val Merge_failed) as [-> | _]; [reflexivity |].
  destruct (String.eqb_spec val Merge_timedout) as [-> | _]; reflexivity.
Qed.

Lemma count_in_cons (names : list string) (val : string) (l : list string) :
  count_in names (val :: l)
  = ((if py_in val names then 1 else 0) + count_in names l)%Z.
Proof.
  unfold count_in. simpl. destruct (py_in val names); simpl length; lia.
Qed.

Lemma count_sum (l : list string) :
  (count_in MERGE_INCORRECT_NAMES l + count_in MERGE_CORRECT_NAMES l
   + count_in MERGE_UNHANDLED_NAMES l
   = Z.of_nat (List.length (filter known_outcome l)))%Z.
Proof.
  induction l as [| val l IH]; [reflexivity |].
  rewrite !count_in_cons. pose proof (count_one val) as H.
  cbn [filter]. destruct (known_outcome val); cbn [List.length]; lia.
Qed.

Lemma filter_length_all {A : Type} (f : A -> bool) (l : list A) :
  List.length (filter f l) = List.length l <-> forallb f l = true.
Proof.
  induction l as [| x l IH]; simpl; [tauto |].
  pose proof (filter_length_le f l) as Hle.
  destruct (f x); simpl.
  - rewrite <- IH. lia.
  - split; [lia | discriminate].
Qed.

(** The first assertion of the counting loop, for one column. *)
Lemma count_sum_all (df : DataFrame) (t : string) :
  (count_in MERGE_INCORRECT_NAMES (column t df)
   + count_in MERGE_CORRECT_NAMES (column t df)
   + count_in MERGE_UNHANDLED_NAMES (column t df)
   =? Z.of_nat (List.length (column t df)))%Z
  = column_known df t.
Proof.
  rewrite count_sum. unfold column_known.
  destruct (forallb known_outcome (column t df)) eqn:E.
  - apply filter_length_all in E. rewrite E. apply Z.eqb_refl.
  - apply Z.eqb_neq. intros H. apply Nat2Z.inj, filter_length_all in H. congruence.
Qed.

Lemma last_of_snoc (l : list Z) (x : Z) : last_of (l ++ [x]) = x.
Proof. unfold last_of. apply last_last. Qed.

Lemma first_of_snoc (l : list Z) (x : Z) :
  first_of (l ++ [x]) = match l with [] => x | y :: _ => y end.
Proof. destruct l; reflexivity. Qed.

Lemma count_loop_counted (df : DataFrame) (tools : list string) :
  forall done,
  forallb (column_known df) done = true ->
  count_loop df tools (counted df done)
  = if forallb (column_known df) tools
    then Ok (counted df (done ++ tools))
    else Raise "AssertionError".
Proof.
  induction tools as [| t ts IH]; intros done Hdone.
  - simpl. rewrite app_nil_r. reflexivity.
  - unfold counted at 1. cbn [count_loop].
    rewrite !last_of_snoc, !first_of_snoc, count_sum_all.
    cbn [forallb]. destruct (column_known df t) eqn:K; [| reflexivity].
    cbn [negb andb].
    assert (Hlen : forall t', List.length (column t' df) = List.length df)
      by (intros t'; apply length_map).
    assert (F : (match map (fun t0 => count_in MERGE_INCORRECT_NAMES (column t0 df)) done
                 with [] => count_in MERGE_INCORRECT_NAMES (column t df)
                    | y :: _ => y end
                 + match map (fun t0 => count_in MERGE_CORRECT_NAMES (column t0 df)) done
                   with [] => count_in MERGE_CORRECT_NAMES (column t df)
                      | y :: _ => y end
                 + match map (fun t0 => count_in MERGE_UNHANDLED_NAMES (column t0 df)) done
                   with [] => count_in MERGE_UNHANDLED_NAMES (column t df)
                      | y :: _ => y end
                 =? count_in MERGE_INCORRECT_NAMES (column t df)
                    + count_in MERGE_CORRECT_NAMES (column t df)
                    + count_in MERGE_UNHANDLED_NAMES (column t df))%Z = true).
    { apply Z.eqb_eq.
      pose proof (count_sum_all df t) as Ht. rewrite K in Ht.
      apply Z.eqb_eq in Ht.
      destruct done as [| d done']; [reflexivity |].
      cbn [map]. cbn [forallb] in Hdone. apply andb_true_iff in Hdone.
      destruct Hdone as [Kd _].
      pose proof (count_sum_all df d) as Hd. rewrite Kd in Hd.
      apply Z.eqb_eq in Hd. rewrite Ht, Hd, !Hlen. reflexivity. }
    rewrite F. cbn [negb].
    change (map (fun t0 => count_in MERGE_CORRECT_NAMES (column t0 df)) done
              ++ [count_in MERGE_CORRECT_NAMES (column t df)],
            map (fun t0 => count_in MERGE_INCORRECT_NAMES (column t0 df)) done
              ++ [count_in MERGE_INCORRECT_NAMES (column t df)],
            map (fun t0 => count_in MERGE_UNHANDLED_NAMES (column t0 df)) done
              ++ [count_in MERGE_UNHANDLED_NAMES (column t df)])%list
      with (map (fun t0 => count_in MERGE_CORRECT_NAMES (column t0 df)) done
              ++ map (fun t0 => count_in MERGE_CORRECT_NAMES (column t0 df)) [t],
            map (fun t0 => count_in MERGE_INCORRECT_NAMES (column t0 df)) done
              ++ map (fun t0 => count_in MERGE_INCORRECT_NAMES (column t0 df)) [t],
            map (fun t0 => count_in MERGE_UNHANDLED_NAMES (column t0 df)) done
              ++ map (fun t0 => count_in MERGE_UNHANDLED_NAMES (column t0 df)) [t])%list.
    rewrite <- !map_app. fold (counted df (done ++ [t])).
    rewrite IH.
    + rewrite <- app_assoc. reflexivity.
    + rewrite forallb_app, Hdone. cbn [forallb]. rewrite K. reflexivity.
Qed.

(** X7: the counting loop ends well exactly when every cell of every
    tool's column and of the oracle column is one of the five counted
    outcomes, and then the three lists hold the counts of those columns
    in order, oracle last; otherwise the first assertion fails.  The second
    assertion never fails. *)
Theorem count_outcomes_result (result_df : DataFrame) (merge_tools : list string) :
  count_outcomes result_df merge_tools
  = if forallb (column_known result_df) (merge_tools ++ [ORACLE])
    then Ok (counted result_df (merge_tools ++ [ORACLE]))
    else Raise "AssertionError".
Proof.
  unfold count_outcomes.
  exact (count_loop_counted result_df (merge_tools ++ [ORACLE]) [] eq_refl).
Qed.

End Counting.

(* ===================================================================== *)
(** * The cost plots: further properties *)
(* ===================================================================== *)

Section CostPlots.

Local Open Scope Q_scope.

Lemma inject_Z_pos (z : Z) : (0 < z)%Z -> ~ inject_Z z == 0.
Proof.
  intros Hz H. unfold Qeq in H. simpl in H. lia.
Qed.

(** X8: at cost factor 1 the score is the share of correct merges. *)
Theorem score_at_cost_one (correct incorrect unhandled : Z) :
  (0 < unhandled + incorrect + correct)%Z ->
  score unhandled incorrect correct 1
  == inject_Z correct / inject_Z (unhandled + incorrect + correct).
Proof.
  intros Ht. unfold score. rewrite !inject_Z_plus, !inject_Z_mult.
  change (inject_Z 1) with 1. field.
  rewrite <- !inject_Z_plus. apply inject_Z_pos. exact Ht.
Qed.

Lemma score_at_cost_one_witness : score 5 2 3 1 == 3 # 10.
Proof.
  rewrite (score_at_cost_one 3 2 5); [reflexivity | lia].
Defined.

(** The cost factor at which the score of a tool is zero. *)
Lemma score_at_crossing (unhandled incorrect correct : Z) :
  (0 <= unhandled)%Z -> (0 < incorrect)%Z -> (0 <= correct)%Z ->
  score unhandled incorrect correct
    (inject_Z ((unhandled + incorrect + correct) - unhandled) * 1
     / inject_Z incorrect) == 0.
Proof.
  intros Hu Hi Hc. unfold score.
  replace (unhandled + incorrect + correct - unhandled)%Z
    with (incorrect + correct)%Z by lia.
  rewrite !inject_Z_plus, !inject_Z_mult. change (inject_Z 1) with 1.
  field. split.
  - apply inject_Z_pos. exact Hi.
  - rewrite <- !inject_Z_plus. apply inject_Z_pos. lia.
Qed.

Lemma py_max_cases (a b : Q) :
  a <= py_max a b /\ b <= py_max a b /\ (py_max a b = a \/ py_max a b = b).
Proof.
  unfold py_max. destruct (Qle_bool b a) eqn:E.
  - apply Qle_bool_iff in E. repeat split; [apply Qle_refl | exact E | left; reflexivity].
  - assert (L : a <= b).
    { destruct (Qlt_le_dec a b) as [H | H]; [apply Qlt_le_weak, H |].
      apply Qle_bool_iff in H. congruence. }
    repeat split; [exact L | apply Qle_refl | right; reflexivity].
Qed.

Lemma py_index_nth (l : list Z) (idx : nat) (x : Z) :
  nth_error l idx = Some x -> py_index l idx = Ok x.
Proof. unfold py_index. intros ->. reflexivity. Qed.

Lemma max_cost_loop_spec (c : counts) (tools : list string) :
  forall idx acc,
  (forall j, (idx <= j < idx + List.length tools)%nat ->
             exists k i u, counts_at c j k i u) ->
  exists m,
    max_cost_loop idx tools c acc = Ok m
    /\ acc <= m
    /\ (forall j k i u, (idx <= j < idx + List.length tools)%nat ->
                        counts_at c j k i u -> i <> 0%Z -> crossing k i u <= m)
    /\ (m = acc
        \/ exists j k i u, (idx <= j < idx + List.length tools)%nat
                           /\ counts_at c j k i u /\ i <> 0%Z
                           /\ m = crossing k i u).
Proof.
  destruct c as [[correct incorrect] unhandled].
  induction tools as [| t ts IH]; intros idx acc Hlen.
  - exists acc. simpl. split; [reflexivity | split; [apply Qle_refl | split]].
    + intros j k i u Hj. lia.
    + left. reflexivity.
  - destruct (Hlen idx) as (k0 & i0 & u0 & Hk0 & Hi0 & Hu0);
      [cbn [List.length]; lia |].
    assert (Hlen' : forall j, (S idx <= j < S idx + List.length ts)%nat ->
              exists k i u, counts_at (correct, incorrect, unhandled) j k i u).
    { intros j Hj. apply Hlen. cbn [List.length]. lia. }
    cbn [max_cost_loop]. rewrite (py_index_nth _ _ _ Hi0). cbn [rbind].
    destruct (Z.eqb_spec i0 0) as [E | E].
    + destruct (IH (S idx) acc Hlen') as (m & Hm & Hacc & Hall & Hsome).
      exists m. split; [exact Hm | split; [exact Hacc | split]].
      * intros j k i u Hj Hat Hi.
        destruct (Nat.eq_dec j idx) as [-> | Hne].
        -- destruct Hat as (_ & Hi' & _). congruence.
        -- apply (Hall j k i u); [cbn [List.length] in Hj; lia | exact Hat | exact Hi].
      * destruct Hsome as [-> | (j & k & i & u & Hj & Hat & Hi & ->)];
          [left; reflexivity |].
        right. exists j, k, i, u. cbn [List.length].
        split; [lia | split; [exact Hat | split; [exact Hi | reflexivity]]].
    + rewrite (py_index_nth _ _ _ Hu0), (py_index_nth _ _ _ Hk0). cbn [rbind].
      fold (crossing k0 i0 u0).
      destruct (py_max_cases acc (crossing k0 i0 u0)) as (Ma & Mb & Mc).
      destruct (IH (S idx) (py_max acc (crossing k0 i0 u0)) Hlen')
        as (m & Hm & Hacc & Hall & Hsome).
      exists m. split; [exact Hm | split; [| split]].
      * eapply Qle_trans; [exact Ma | exact Hacc].
      * intros j k i u Hj Hat Hi.
        destruct (Nat.eq_dec j idx) as [-> | Hne].
        -- destruct Hat as (Hk' & Hi' & Hu').
           assert (k = k0) by congruence. assert (i = i0) by congruence.
           assert (u = u0) by congruence. subst.
           eapply Qle_trans; [exact Mb | exact Hacc].
        -- apply (Hall j k i u); [cbn [List.length] in Hj; lia | exact Hat | exact Hi].
      * destruct Hsome as [-> | (j & k & i & u & Hj & Hat & Hi & ->)].
        -- destruct Mc as [-> | ->]; [left; reflexivity |].
           right. exists idx, k0, i0, u0. cbn [List.length].
           split; [lia | split; [split; [exact Hk0 | split; [exact Hi0 | exact Hu0]] |
                                 split; [exact E | reflexivity]]].
        -- right. exists j, k, i, u. cbn [List.length].
           split; [lia | split; [exact Hat | split; [exact Hi | reflexivity]]].
Qed.

(** X9: when the three lists hold counts (none negative) for every tool,
    [max_cost_intersection] is found without an index error; at that cost
    factor no tool with an incorrect merge has a positive score, and
    either it is 0 because no tool has an incorrect merge, or some tool
    scores exactly zero there. *)
Theorem max_cost_intersection_is_last_crossing
  (merge_tools : list string) (c : counts) :
  (forall j, (j < List.length merge_tools)%nat ->
             exists k i u, counts_at c j k i u
                           /\ (0 <= k)%Z /\ (0 <= i)%Z /\ (0 <= u)%Z) ->
  exists m,
    max_cost_intersection merge_tools c = Ok m
    /\ 0 <= m
    /\ (forall j k i u, (j < List.length merge_tools)%nat ->
                        counts_at c j k i u -> i <> 0%Z -> score u i k m <= 0)
    /\ ((m = 0 /\ forall j k i u, (j < List.length merge_tools)%nat ->
                                  counts_at c j k i u -> i = 0%Z)
        \/ exists j k i u, (j < List.length merge_tools)%nat
                           /\ counts_at c j k i u /\ i <> 0%Z
                           /\ score u i k m == 0).
Proof.
  intros Hc.
  assert (Hsame : forall j k i u k' i' u',
            counts_at c j k i u -> counts_at c j k' i' u' ->
            k = k' /\ i = i' /\ u = u').
  { destruct c as [[correct incorrect] unhandled].
    intros j k i u k' i' u' (A1 & A2 & A3) (B1 & B2 & B3).
    repeat split; congruence. }
  assert (Hnn : forall j k i u, (j < List.length merge_tools)%nat ->
            counts_at c j k i u -> (0 <= k)%Z /\ (0 <= i)%Z /\ (0 <= u)%Z).
  { intros j k i u Hj Hat. destruct (Hc j Hj) as (k' & i' & u' & Hat' & Hn).
    destruct (Hsame _ _ _ _ _ _ _ Hat Hat') as (-> & -> & ->). exact Hn. }
  destruct (max_cost_loop_spec c merge_tools 0 0) as (m & Hm & Hacc & Hall & Hsome).
  { intros j Hj. destruct (Hc j) as (k & i & u & Hat & _); [lia |]. eauto. }
  exists m. split; [exact Hm | split; [exact Hacc | split]].
  - intros j k i u Hj Hat Hi.
    destruct (Hnn j k i u Hj Hat) as (Hk & Hi' & Hu).
    assert (Hle : crossing k i u <= m) by (apply (Hall j); [lia | exact Hat | exact Hi]).
    eapply Qle_trans;
      [apply (score_le u i k (crossing k i u) m Hi'); [lia | exact Hle] |].
    unfold crossing. rewrite score_at_crossing; [apply Qle_refl | lia | lia | lia].
  - assert (Hge : forall k i u, (0 <= k)%Z -> (0 < i)%Z -> 1 <= crossing k i u).
    { intros k i u Hk Hi. unfold crossing.
      replace (u + i + k - u)%Z with (i + k)%Z by lia.
      apply Qle_shift_div_l.
      - change 0 with (inject_Z 0). rewrite <- Zlt_Qlt. exact Hi.
      - rewrite Qmult_1_l, Qmult_1_r, <- Zle_Qle. lia. }
    destruct Hsome as [-> | (j & k & i & u & Hj & Hat & Hi & ->)].
    + left. split; [reflexivity |].
      intros j k i u Hj Hat.
      destruct (Z.eq_dec i 0) as [E | E]; [exact E | exfalso].
      destruct (Hnn j k i u Hj Hat) as (Hk & Hi' & Hu).
      assert (Hle : crossing k i u <= 0)
        by (apply (Hall j); [lia | exact Hat | exact E]).
      pose proof (Hge k i u Hk ltac:(lia)) as H1.
      apply (Qle_trans _ _ _ H1) in Hle. unfold Qle in Hle. simpl in Hle. lia.
    + right. exists j, k, i, u.
      destruct (Hnn j k i u ltac:(lia) Hat) as (Hk & Hi' & Hu).
      split; [lia | split; [exact Hat | split; [exact Hi |]]].
      unfold crossing. apply score_at_crossing; lia.
Qed.

(** Two tools and the oracle: the first tool's score is zero at cost
    factor 5/2, the second has no incorrect merge. *)
Lemma max_cost_intersection_is_last_crossing_witness :
  exists m,
    max_cost_intersection ["gitmerge_ort"; "spork"]
      ([3; 1; 4]%Z, [2; 0; 0]%Z, [5; 9; 6]%Z) = Ok m
    /\ score 5 2 3 m <= 0.
Proof.
  destruct (max_cost_intersection_is_last_crossing ["gitmerge_ort"; "spork"]
              ([3; 1; 4]%Z, [2; 0; 0]%Z, [5; 9; 6]%Z))
    as (m & Hm & _ & Hall & _).
  - intros j Hj. simpl in Hj.
    destruct j as [| [| j]]; [| | lia].
    + exists 3%Z, 2%Z, 5%Z. repeat split; lia.
    + exists 1%Z, 0%Z, 9%Z. repeat split; lia.
  - exists m. split; [exact Hm |].
    apply (Hall 0%nat 3%Z 2%Z 5%Z); [simpl; lia | repeat split | discriminate].
Defined.

End CostPlots.

(* ===================================================================== *)
(** * Branches and the heat map *)
(* ===================================================================== *)

Section Branches.

Lemma filter_split_length {A : Type} (f : A -> bool) (l : list A) :
  (List.length (filter f l) + List.length (filter (fun x => negb (f x)) l)
   = List.length l)%nat.
Proof.
  induction l as [| x l IH]; simpl; [reflexivity |].
  destruct (f x); simpl; lia.
Qed.

(** Rounding the two complementary shares of a whole. *)
Lemma round_div_complement (a b n : Z) :
  (0 <= a)%Z -> (0 <= b)%Z -> (a + b = n)%Z -> (0 < n)%Z ->
  (round_div (a * 100) n + round_div (b * 100) n = 100)%Z.
Proof.
  intros Ha Hb Hn Hpos.
  pose proof (Z.div_mod (a * 100) n ltac:(lia)) as Da.
  pose proof (Z.mod_pos_bound (a * 100) n Hpos) as Ra.
  set (q := (a * 100 / n)%Z) in *. set (r := (a * 100 mod n)%Z) in *.
  destruct (Z.eq_dec r 0) as [Er | Er].
  - assert (Qb : (b * 100 / n = 100 - q)%Z)
      by (symmetry; apply (Z.div_unique _ _ _ 0); [lia | nia]).
    assert (Rb : (b * 100 mod n = 0)%Z)
      by (symmetry; apply (Z.mod_unique _ _ (100 - q)); [lia | nia]).
    unfold round_div. fold q. fold r. rewrite Qb, Rb, Er.
    replace (2 * 0 <? n)%Z with true by (symmetry; apply Z.ltb_lt; lia).
    lia.
  - assert (Qb : (b * 100 / n = 99 - q)%Z)
      by (symmetry; apply (Z.div_unique _ _ _ (n - r)); [lia | nia]).
    assert (Rb : (b * 100 mod n = n - r)%Z)
      by (symmetry; apply (Z.mod_unique _ _ (99 - q)); [lia | nia]).
    unfold round_div. fold q. fold r. rewrite Qb, Rb. clearbody q r.
    destruct (Z.ltb_spec (2 * r) n) as [L1 | L1].
    + replace (2 * (n - r) <? n)%Z with false by (symmetry; apply Z.ltb_ge; lia).
      replace (n <? 2 * (n - r))%Z with true by (symmetry; apply Z.ltb_lt; lia).
      lia.
    + destruct (Z.ltb_spec n (2 * r)) as [L2 | L2].
      * replace (2 * (n - r) <? n)%Z with true by (symmetry; apply Z.ltb_lt; lia).
        lia.
      * replace (2 * (n - r) <? n)%Z with false by (symmetry; apply Z.ltb_ge; lia).
        replace (n <? 2 * (n - r))%Z with false by (symmetry; apply Z.ltb_ge; lia).
        replace (99 - q)%Z with (q + (99 - 2 * q))%Z by lia.
        rewrite Z.even_add.
        replace (Z.even (99 - 2 * q)) with false.
        -- destruct (Z.even q); cbn [eqb]; lia.
        -- replace (99 - 2 * q)%Z with (1 + 2 * (49 - q))%Z by lia.
           rewrite Z.even_add_mul_2. reflexivity.
Qed.

(** X10: every merge is either on a main branch or on another branch, so
    the two groups add up to the table; for a table that is not empty the
    two rounded percentages add up to exactly 100, and for an empty table
    both percentages raise a division by zero. *)
Theorem branch_shares (result_df : DataFrame) :
  (List.length (main_rows result_df) + List.length (feature_rows result_df)
   = List.length result_df)%nat
  /\ (result_df <> [] ->
      exists pm pf,
        branch_percent (main_rows result_df) result_df = Ok pm
        /\ branch_percent (feature_rows result_df) result_df = Ok pf
        /\ (pm + pf = 100)%Z)
  /\ (result_df = [] ->
      branch_percent (main_rows result_df) result_df = Raise "ZeroDivisionError"
      /\ branch_percent (feature_rows result_df) result_df
         = Raise "ZeroDivisionError").
Proof.
  assert (Hsum : (List.length (main_rows result_df)
                  + List.length (feature_rows result_df)
                  = List.length result_df)%nat)
    by apply filter_split_length.
  split; [exact Hsum | split].
  - intros Hne. unfold branch_percent.
    destruct result_df as [| r rs]; [contradiction |].
    cbn [List.length Nat.eqb].
    eexists; eexists. split; [reflexivity | split; [reflexivity |]].
    cbn [List.length] in Hsum.
    apply round_div_complement; lia.
  - intros ->. split; reflexivity.
Qed.

(** Three merges, one of them on [master]: 33 and 67 per cent. *)
Lemma branch_shares_witness :
  branch_percent
    (main_rows [row_of [("branch_name", "master")];
                row_of [("branch_name", "feature/x")];
                row_of [("branch_name", "dev")]])
    [row_of [("branch_name", "master")];
     row_of [("branch_name", "feature/x")];
     row_of [("branch_name", "dev")]] = Ok 33%Z
  /\ exists pm pf,
       branch_percent
         (main_rows [row_of [("branch_name", "master")];
                     row_of [("branch_name", "feature/x")];
                     row_of [("branch_name", "dev")]])
         [row_of [("branch_name", "master")];
          row_of [("branch_name", "feature/x")];
          row_of [("branch_name", "dev")]] = Ok pm
       /\ branch_percent
            (feature_rows [row_of [("branch_name", "master")];
                           row_of [("branch_name", "feature/x")];
                           row_of [("branch_name", "dev")]])
            [row_of [("branch_name", "master")];
             row_of [("branch_name", "feature/x")];
             row_of [("branch_name", "dev")]] = Ok pf
       /\ (pm + pf = 100)%Z.
Proof.
  split; [reflexivity |].
  apply (branch_shares [row_of [("branch_name", "master")];
                        row_of [("branch_name", "feature/x")];
                        row_of [("branch_name", "dev")]]).
  discriminate.
Defined.

Lemma heatmap_cell_filter (df : DataFrame) (t1 t2 : string) :
  heatmap_cell df t1 t2 = List.length (filter (differing t1 t2) df).
Proof.
  unfold heatmap_cell, isin, mask_sum. cbv zeta.
  induction df as [| r rs IH]; [reflexivity |].
  cbn [map mask_or mask_and filter]. fold (differing t1 t2 r).
  destruct (differing t1 t2 r); cbn [List.length]; rewrite IH; reflexivity.
Qed.

(** X11: the heat map is symmetric and its diagonal is zero, so the lower
    triangle that is drawn holds every count; no count exceeds the number
    of merges. *)
Theorem heatmap_symmetric (result_df : DataFrame) (merge_tool1 merge_tool2 : string) :
  heatmap_cell result_df merge_tool1 merge_tool2
  = heatmap_cell result_df merge_tool2 merge_tool1
  /\ heatmap_cell result_df merge_tool1 merge_tool1 = 0%nat
  /\ (heatmap_cell result_df merge_tool1 merge_tool2 <= List.length result_df)%nat.
Proof.
  rewrite !heatmap_cell_filter. split; [| split].
  - f_equal. apply filter_ext. intros r. unfold differing.
    rewrite String.eqb_sym, orb_comm. reflexivity.
  - induction result_df as [| r rs IH]; [reflexivity |].
    cbn [filter]. unfold differing at 1. rewrite String.eqb_refl. exact IH.
  - apply filter_length_le.
Qed.

End Branches.

(* ===================================================================== *)
(** * Names in the LaTeX output *)
(* ===================================================================== *)

Section Names.

Import PyCase.

Lemma upper_not_underscore (a : ascii) :
  Ascii.eqb a underscore = false -> Ascii.eqb (upper a) underscore = false.
Proof.
  destruct a as [[] [] [] [] [] [] [] []]; intros H; try reflexivity;
    discriminate H.
Qed.

Lemma lower_not_underscore (a : ascii) :
  Ascii.eqb a underscore = false -> Ascii.eqb (lower a) underscore = false.
Proof.
  destruct a as [[] [] [] [] [] [] [] []]; intros H; try reflexivity;
    discriminate H.
Qed.

Lemma upper_fixed (a : ascii) : upper (upper a) = upper a.
Proof. destruct a as [[] [] [] [] [] [] [] []]; reflexivity. Qed.

Lemma lower_fixed (a : ascii) : lower (lower a) = lower a.
Proof. destruct a as [[] [] [] [] [] [] [] []]; reflexivity. Qed.

Lemma length_map_chars (f : ascii -> ascii) (s : string) :
  String.length (map_chars f s) = String.length s.
Proof. induction s as [| a s IH]; simpl; [| rewrite IH]; reflexivity. Qed.

Lemma lacks_replace (s : string) :
  lacks underscore (replace_char underscore "-" s) = true.
Proof.
  unfold replace_char. induction s as [| a s IH]; [reflexivity |].
  cbn [map_chars lacks]. rewrite IH, andb_true_r.
  destruct (Ascii.eqb a underscore) eqn:E; [reflexivity |].
  rewrite E. reflexivity.
Qed.

Lemma lacks_map_lower (s : string) :
  lacks underscore s = true -> lacks underscore (map_chars lower s) = true.
Proof.
  induction s as [| a s IH]; intros H; [reflexivity |].
  cbn [lacks] in H. apply andb_true_iff in H. destruct H as [Ha Hs].
  apply negb_true_iff in Ha.
  cbn [map_chars lacks]. rewrite (lower_not_underscore a Ha), (IH Hs). reflexivity.
Qed.

Lemma lacks_capitalize (s : string) :
  lacks underscore s = true -> lacks underscore (capitalize s) = true.
Proof.
  destruct s as [| a s]; intros H; [reflexivity |].
  cbn [lacks] in H. apply andb_true_iff in H. destruct H as [Ha Hs].
  apply negb_true_iff in Ha.
  cbn [capitalize lacks].
  rewrite (upper_not_underscore a Ha), (lacks_map_lower s Hs). reflexivity.
Qed.

Lemma map_lower_replace_fixed (s : string) :
  map_chars lower (replace_char underscore "-" (map_chars lower s))
  = replace_char underscore "-" (map_chars lower s).
Proof.
  unfold replace_char. induction s as [| a s IH]; [reflexivity |].
  cbn [map_chars]. rewrite IH. f_equal.
  destruct (Ascii.eqb (lower a) underscore); [reflexivity | apply lower_fixed].
Qed.

(** X12: the LaTeX name of a merge tool with an ASCII name never contains
    an underscore; for a tool that is not in the rename table it has the
    length of the tool's name, and the second [capitalize] changes
    nothing. *)
Theorem merge_tool_latex_name_plain (name : string)
  (Hascii : ascii_only name = true) :
  lacks underscore (merge_tool_latex_name name) = true
  /\ (dict_get MERGE_TOOL_RENAME name = None ->
      String.length (merge_tool_latex_name name) = String.length name
      /\ merge_tool_latex_name name
         = replace_char underscore "-" (capitalize name)).
Proof.
  unfold merge_tool_latex_name, MERGE_TOOL_RENAME. cbn [dict_get].
  assert (Hplain : lacks underscore
                     (capitalize (replace_char underscore "-" (capitalize name)))
                   = true)
    by (apply lacks_capitalize, lacks_replace).
  assert (Hfix : capitalize (replace_char underscore "-" (capitalize name))
                 = replace_char underscore "-" (capitalize name)).
  { destruct name as [| a s]; [reflexivity |].
    unfold replace_char. cbn [capitalize map_chars]. f_equal.
    - destruct (Ascii.eqb (upper a) underscore); [reflexivity | apply upper_fixed].
    - exact (map_lower_replace_fixed s). }
  unfold underscore in *. split.
  - repeat match goal with
           | |- context [String.eqb name ?k] => destruct (String.eqb name k)
           end; try reflexivity; exact Hplain.
  - repeat match goal with
           | |- context [String.eqb name ?k] => destruct (String.eqb name k)
           end; try discriminate.
    intros _. change (PyCase.capitalize name) with (capitalize name).
    split; [| exact Hfix].
    rewrite Hfix. unfold replace_char. rewrite length_map_chars.
    destruct name; simpl; [reflexivity |]. rewrite length_map_chars. reflexivity.
Qed.

Lemma merge_tool_latex_name_plain_witness :
  merge_tool_latex_name "gitmerge_recursive_myers" = "Gitmerge-recursive-myers"
  /\ String.length (merge_tool_latex_name "gitmerge_recursive_myers")
     = String.length "gitmerge_recursive_myers".
Proof.
  destruct (merge_tool_latex_name_plain "gitmerge_recursive_myers" eq_refl)
    as [_ H].
  destruct (H eq_refl) as [Hlen Heq]. split; [exact Heq | exact Hlen].
Defined.

Lemma split_pieces_lack (c : ascii) (s : string) :
  Forall (fun piece => lacks c piece = true) (split c s) /\ split c s <> [].
Proof.
  induction s as [| a s [IH Hne]]; [split; [repeat constructor | discriminate] |].
  cbn [split]. destruct (Ascii.eqb a c) eqn:E.
  - split; [constructor; [reflexivity | exact IH] | discriminate].
  - destruct (split c s) as [| piece pieces]; [contradiction |].
    inversion IH as [| ? ? Hp Hps]; subst.
    split; [| discriminate]. constructor; [| exact Hps].
    cbn [lacks]. rewrite E, Hp. reflexivity.
Qed.

Lemma split_no_separator (c : ascii) (s : string) :
  lacks c s = true -> split c s = [s].
Proof.
  induction s as [| a s IH]; intros H; [reflexivity |].
  cbn [lacks] in H. apply andb_true_iff in H. destruct H as [Ha Hs].
  apply negb_true_iff in Ha. cbn [split]. rewrite Ha, (IH Hs). reflexivity.
Qed.

Lemma lacks_title_from (s : string) :
  forall b, lacks underscore s = true -> lacks underscore (title_from b s) = true.
Proof.
  induction s as [| a s IH]; intros b H; [reflexivity |].
  cbn [lacks] in H. apply andb_true_iff in H. destruct H as [Ha Hs].
  apply negb_true_iff in Ha. cbn [title_from].
  destruct (is_lower a); [| destruct (is_upper a)]; cbn [lacks];
    rewrite (IH _ Hs), andb_true_r; destruct b;
    rewrite ?(upper_not_underscore a Ha), ?(lower_not_underscore a Ha), ?Ha;
    reflexivity.
Qed.

Lemma lacks_join_all (c : ascii) (pieces : list string) :
  Forall (fun piece => lacks c piece = true) pieces ->
  lacks c (join_all pieces) = true.
Proof.
  induction 1 as [| piece rest Hp _ IH]; [reflexivity |].
  cbn [join_all]. rewrite lacks_append, Hp, IH. reflexivity.
Qed.

(** X13: the camel-case run name that prefixes every macro of [defs.tex]
    never contains an underscore, and a run name without underscores is
    used as it is. *)
Theorem run_name_camel_case_plain (run_name : string) :
  lacks underscore (run_name_camel_case run_name) = true
  /\ (lacks underscore run_name = true ->
      run_name_camel_case run_name = run_name).
Proof.
  unfold run_name_camel_case. split.
  - destruct (split_pieces_lack underscore run_name) as [Hall Hne].
    destruct (split underscore run_name) as [| piece pieces] eqn:E;
      [contradiction |].
    change (PyCase.split "_" run_name) with (split underscore run_name).
    rewrite E. cbn [hd tl].
    inversion Hall as [| ? ? Hp Hps]; subst.
    rewrite lacks_append, Hp. cbn [andb].
    apply lacks_join_all.
    clear - Hps. induction Hps as [| p ps Hp _ IH]; constructor;
      [apply lacks_title_from; exact Hp | exact IH].
  - intros H.
    change (PyCase.split "_" run_name) with (split underscore run_name).
    rewrite (split_no_separator _ _ H). cbn [hd tl map join_all].
    apply append_nil_r.
Qed.

Lemma run_name_camel_case_plain_witness :
  run_name_camel_case "combined" = "combined"
  /\ run_name_camel_case "small_test_run" = "smallTestRun".
Proof.
  destruct (run_name_camel_case_plain "combined") as [_ H].
  split; [apply H; reflexivity | reflexivity].
Defined.

End Names.

(* ===================================================================== *)
(** * Conflict extraction: where the paths come from *)
(* ===================================================================== *)

Section ExtractionSound.

Import re.

(** A line of a text, with what stands before and after it. *)
Lemma concat_line_in (line : string) (lines : list string) :
  In line lines ->
  exists before after,
    String.concat LF lines = before ++ line ++ after
    /\ (after = "" \/ exists rest, after = String newline rest).
Proof.
  induction lines as [| l ls IH]; intros Hin; [destruct Hin |].
  destruct ls as [| l' ls'].
  - destruct Hin as [-> | []]. exists "", "". rewrite append_nil_r.
    split; [reflexivity | left; reflexivity].
  - change (String.concat LF (l :: l' :: ls'))
      with (l ++ LF ++ String.concat LF (l' :: ls')).
    destruct Hin as [-> | Hin].
    + exists "", (LF ++ String.concat LF (l' :: ls')).
      split; [reflexivity | right; eexists; reflexivity].
    + destruct (IH Hin) as (before & after & -> & Hafter).
      exists (l ++ LF ++ before), after.
      split; [rewrite !append_assoc; reflexivity | exact Hafter].
Qed.

(** X14: whatever the console output, every path the extraction reports
    is not empty, holds no newline, and is the end of a line of the
    output that reads [CONFLICT (kind): Merge conflict in path] from some
    position on, with a kind that is not empty. *)
Theorem extracted_paths_end_lines (console path : string) :
  In path (findall CONFLICT_RE console) ->
  path <> "" /\ all_dot path = true
  /\ exists before kind after,
       console = before ++ conflict_line kind path ++ after
       /\ kind <> "" /\ all_dot kind = true
       /\ (after = "" \/ exists rest, after = String newline rest).
Proof.
  intros Hin.
  destruct (lines_of_text console) as (l & ls & Hall & ->).
  unfold LF in Hin.
  rewrite (findall_lines _ CONFLICT_RE_progress eq_refl _ Hall) in Hin.
  apply in_flat_map in Hin. destruct Hin as (line & Hline & Hin).
  pose proof (proj1 (Forall_forall _ _) Hall line Hline) as Dline.
  destruct (findall_line_sound path line Dline Hin)
    as (pre & kind & -> & Hk & Dk & Hp & Dp).
  destruct (concat_line_in _ _ Hline) as (before & after & -> & Hafter).
  split; [exact Hp | split; [exact Dp |]].
  exists (before ++ pre), kind, after.
  split; [rewrite !append_assoc; reflexivity |].
  split; [exact Hk | split; [exact Dk | exact Hafter]].
Qed.

Lemma extracted_paths_end_lines_witness :
  "src/B.txt" <> ""
  /\ all_dot "src/B.txt" = true
  /\ exists before kind after,
       two_conflicts_output = before ++ conflict_line kind "src/B.txt" ++ after
       /\ kind <> "" /\ all_dot kind = true
       /\ (after = "" \/ exists rest, after = String newline rest).
Proof.
  apply (extracted_paths_end_lines two_conflicts_output "src/B.txt").
  vm_compute. right. left. reflexivity.
Defined.

End ExtractionSound.

(* ===================================================================== *)
(** * Whole runs of the pair analysis *)
(* ===================================================================== *)

Section PairRun.

Lemma artifacts_app (t1 t2 : list event) :
  artifacts (t1 ++ t2) = (artifacts t1 ++ artifacts t2)%list.
Proof.
  induction t1 as [| e t1 IH]; [reflexivity |].
  destruct e; cbn [app artifacts]; rewrite IH; reflexivity.
Qed.

Lemma started_app (t1 t2 : list event) :
  started (t1 ++ t2) = (started t1 ++ started t2)%list.
Proof.
  induction t1 as [| e t1 IH]; [reflexivity |].
  destruct e; cbn [app started]; rewrite IH; reflexivity.
Qed.

Variable w : World.
Variables merge_tool1 merge_tool2 : string.
Variable results_index : Z.
Variables repo_output_dir repo_name : string.

(** One pass of the loop: it ends normally, writes the two reports of the
    file and starts only [diff3] and [diff]. *)
Lemma pair_loop_body_run (conflicting_file : string) :
  exists t,
    pair_loop_body w merge_tool1 merge_tool2 results_index repo_output_dir
      repo_name conflicting_file = (t, Ok tt)
    /\ artifacts t
       = pair_reports w merge_tool1 merge_tool2 results_index repo_output_dir
           repo_name conflicting_file
    /\ forallb is_diff (started t) = true.
Proof.
  unfold pair_loop_body, pair_reports, report_path, kept, compare_mode.
  cbv zeta.
  set (base := os_path.join "./repos/base" _).
  set (merge := os_path.join "./repos/programmer_merge" _).
  set (a1 := os_path.join "./repos/merge_attempt1" _).
  set (a2 := os_path.join "./repos/merge_attempt2" _).
  rewrite !compare_cases.
  destruct (Py.contains error_message
              (stderr (subprocess_run w None ["diff3"; base; a1; merge])));
    destruct (Py.contains error_message
                (stderr (subprocess_run w None ["diff3"; base; a2; merge])));
    io_norm; eexists; (split; [reflexivity | split; reflexivity]).
Qed.

Lemma for_each_pair_run (files : list string) :
  exists t,
    for_each files
      (pair_loop_body w merge_tool1 merge_tool2 results_index repo_output_dir
         repo_name) = (t, Ok tt)
    /\ artifacts t
       = flat_map (pair_reports w merge_tool1 merge_tool2 results_index
                     repo_output_dir repo_name) files
    /\ forallb is_diff (started t) = true.
Proof.
  induction files as [| f files (t' & E' & A' & S')].
  - exists []. repeat split.
  - destruct (pair_loop_body_run f) as (t & E & A & S).
    exists (t ++ t')%list. cbn [for_each flat_map]. rewrite E. cbn [bind].
    rewrite E'. rewrite artifacts_app, started_app, forallb_app, A, A', S, S'.
    repeat split.
Qed.

End PairRun.

(** X15: the files a run of [diff3_pair_analysis] writes are the two
    reports of every conflicting file found in the console output of the
    first tool, first tool before second, in the order of that output and
    with nothing else written; each holds the text that [subprocess.run]
    captured as the standard output of the diff the comparator kept. *)
Theorem pair_analysis_reports (w : World) (merge_tool1 merge_tool2 : string)
  (results_index : Z) (repo_output_dir : string) :
  let repo_name :=
    read_csv w "../../results/combined/result.csv" results_index "repository" in
  let console :=
    stdout (subprocess_run w None
              [merge_script merge_tool1;
               rev_parse_show_toplevel w "./repos/merge_attempt1";
               "TEMP_LEFT_BRANCH"; "TEMP_RIGHT_BRANCH"]) in
  artifacts (trace (diff3_pair_analysis w merge_tool1 merge_tool2
                      results_index repo_output_dir))
  = flat_map (pair_reports w merge_tool1 merge_tool2 results_index
                repo_output_dir repo_name)
      (re.findall CONFLICT_RE console).
Proof.
  intros repo_name console.
  unfold diff3_pair_analysis. cbv zeta. io_norm.
  fold repo_name. unfold merge_script in console. fold console.
  destruct (re.findall CONFLICT_RE console) as [| f fs].
  - io_norm. reflexivity.
  - io_norm.
    destruct (for_each_pair_run w merge_tool1 merge_tool2 results_index
                repo_output_dir repo_name (f :: fs)) as (t & E & A & _).
    rewrite E. cbn [fst snd artifacts app]. exact A.
Qed.

Lemma append_same_end (a b c : string) : a ++ c = b ++ c -> a = b.
Proof.
  revert b. induction a as [| x a IH]; intros [| y b] H.
  - reflexivity.
  - apply (f_equal String.length) in H. cbn [append] in H.
    cbn [String.length] in H. rewrite length_append in H. lia.
  - apply (f_equal String.length) in H. cbn [append] in H.
    cbn [String.length] in H. rewrite length_append in H. lia.
  - cbn [append] in H. injection H as -> H. rewrite (IH b H). reflexivity.
Qed.

(** X16: the programs a run of [diff3_pair_analysis] starts are [git]
    (for the merge base), the script of the first tool, [diff3] and
    [diff]; the script of a second tool that differs from the first is
    never started. *)
Theorem pair_analysis_programs (w : World) (merge_tool1 merge_tool2 : string)
  (results_index : Z) (repo_output_dir : string) :
  Forall (fun argv => program argv = "git"
                      \/ program argv = merge_script merge_tool1
                      \/ is_diff argv = true)
    (started (trace (diff3_pair_analysis w merge_tool1 merge_tool2
                       results_index repo_output_dir)))
  /\ (merge_tool2 <> merge_tool1 ->
      ~ In (merge_script merge_tool2)
          (map program
             (started (trace (diff3_pair_analysis w merge_tool1 merge_tool2
                                results_index repo_output_dir))))).
Proof.
  assert (Hall :
    Forall (fun argv => program argv = "git"
                        \/ program argv = merge_script merge_tool1
                        \/ is_diff argv = true)
      (started (trace (diff3_pair_analysis w merge_tool1 merge_tool2
                         results_index repo_output_dir)))).
  { unfold diff3_pair_analysis. cbv zeta. io_norm.
    match goal with
    | |- context [re.findall ?p ?s] => destruct (re.findall p s) as [| f fs]
    end.
    - io_norm. cbn [started].
      constructor; [left; reflexivity |].
      constructor; [right; left; reflexivity | constructor].
    - io_norm.
      match goal with
      | |- context [for_each ?fs (pair_loop_body _ _ _ _ _ ?repo_name)] =>
          destruct (for_each_pair_run w merge_tool1 merge_tool2 results_index
                      repo_output_dir repo_name fs) as (t & E & _ & S)
      end.
      rewrite E. cbn [fst snd started app].
      constructor; [left; reflexivity |].
      constructor; [right; left; reflexivity |].
      apply Forall_forall. intros argv Hin. right. right.
      exact (proj1 (forallb_forall _ _) S argv Hin). }
  split; [exact Hall |].
  intros Hdiff Hin. apply in_map_iff in Hin.
  destruct Hin as (argv & Hprog & Hin).
  pose proof (proj1 (Forall_forall _ _) Hall argv Hin) as [Hg | [Hs | Hd]].
  - rewrite Hprog in Hg. discriminate Hg.
  - rewrite Hprog in Hs. unfold merge_script in Hs.
    apply Hdiff. apply (append_same_end _ _ ".sh").
    cbn [append] in Hs. injection Hs as Hs. exact Hs.
  - unfold is_diff in Hd. rewrite Hprog in Hd.
    apply orb_true_iff in Hd. destruct Hd as [Hd | Hd];
      apply String.eqb_eq in Hd; discriminate Hd.
Qed.

Lemma pair_analysis_programs_witness :
  ~ In (merge_script "spork")
      (map program
         (started (trace (diff3_pair_analysis missing_base_world "gitmerge_ort"
                            "spork" 42 "out")))).
Proof.
  apply (pair_analysis_programs missing_base_world "gitmerge_ort" "spork" 42 "out").
  discriminate.
Defined.

(* ===================================================================== *)
(** * Names of the reports *)
(* ===================================================================== *)

Section ReportNames.

Import os_path.

Lemma endswith_char_split (s : string) (c : ascii) :
  Py.endswith_char s c = true -> exists a, s = a ++ String c "".
Proof.
  induction s as [| x s IH]; intros H; [discriminate H |].
  destruct s as [| y s].
  - simpl in H. apply Ascii.eqb_eq in H. subst x. exists "". reflexivity.
  - change (Py.endswith_char (String x (String y s)) c)
      with (Py.endswith_char (String y s) c) in H.
    destruct (IH H) as (a & ->). exists (String x a). reflexivity.
Qed.

Lemma basename_after_sep (a last : string) :
  lacks sep last = true -> basename (a ++ String sep last) = last.
Proof.
  intros Hl. unfold basename, Py.slice_from.
  rewrite (rfind_append sep a last Hl).
  replace (Z.to_nat (Z.of_nat (String.length a) + 1))
    with (String.length (a ++ String sep ""))
    by (rewrite length_append; simpl; lia).
  replace (a ++ String sep last) with ((a ++ String sep "") ++ last)
    by (rewrite append_assoc; reflexivity).
  apply drop_append.
Qed.

Lemma basename_plain (last : string) :
  lacks sep last = true -> basename last = last.
Proof.
  intros Hl. unfold basename, Py.slice_from.
  rewrite (rfind_lacks sep last Hl). reflexivity.
Qed.

Lemma splitext_stem (stem ext : string) :
  lacks sep stem = true -> Py.all_char stem extsep = false ->
  lacks sep ext = true -> lacks extsep ext = true ->
  splitext (stem ++ String extsep ext) = (stem, String extsep ext).
Proof.
  intros Hs Hdots He Hx. unfold splitext.
  rewrite (rfind_append extsep stem ext Hx).
  rewrite (rfind_lacks sep (stem ++ String extsep ext))
    by (rewrite lacks_append, Hs; cbn [lacks]; rewrite He; reflexivity).
  replace (-1 <? Z.of_nat (String.length stem))%Z with true
    by (symmetry; apply Z.ltb_lt; lia).
  unfold Py.slice, Py.slice_to, Py.slice_from.
  rewrite Nat2Z.id. change (Z.to_nat (-1 + 1)) with 0%nat.
  rewrite Nat.sub_0_r. cbn [Py.drop].
  replace (Py.drop 0 (stem ++ String extsep ext))
    with (stem ++ String extsep ext) by (destruct stem; reflexivity).
  rewrite take_append, drop_append, Hdots. reflexivity.
Qed.

(** X17: a report is named after the conflicting file's name without its
    directory and without its last extension, and after nothing else of
    the file: whatever the directory and the extension, the report of
    tool [merge_tool] on [<directory>/<stem>.<ext>] goes to
    [join(repo_output_dir, index, merge_tool, diff_<stem>.txt)], so
    conflicting files of one merge that share the stem share the path of
    their report. *)
Theorem report_path_of_stem (repo_output_dir : string) (results_index : Z)
  (merge_tool directory stem ext : string) :
  directory = "" \/ Py.endswith_char directory sep = true ->
  lacks sep stem = true -> Py.all_char stem extsep = false ->
  lacks sep ext = true -> lacks extsep ext = true ->
  report_path repo_output_dir results_index merge_tool
    (directory ++ stem ++ "." ++ ext)
  = join repo_output_dir
      [Py.str results_index; merge_tool; "diff_" ++ stem ++ ".txt"].
Proof.
  intros Hdir Hs Hdots He Hx. unfold report_path.
  assert (Hlast : lacks sep (stem ++ String extsep ext) = true)
    by (rewrite lacks_append, Hs; cbn [lacks]; rewrite He; reflexivity).
  assert (Hbase : basename (directory ++ stem ++ "." ++ ext)
                  = stem ++ String extsep ext).
  { destruct Hdir as [-> | Hend].
    - apply basename_plain. exact Hlast.
    - destruct (endswith_char_split _ _ Hend) as (a & ->).
      rewrite append_assoc. apply basename_after_sep. exact Hlast. }
  rewrite Hbase, (splitext_stem stem ext Hs Hdots He Hx). reflexivity.
Qed.

Lemma report_path_of_stem_witness :
  report_path "out" 42 "spork" "src/main/Foo.java"
  = report_path "out" 42 "spork" "src/test/Foo.kt".
Proof.
  etransitivity.
  - exact (report_path_of_stem "out" 42 "spork" "src/main/" "Foo" "java"
             (or_intror eq_refl) eq_refl eq_refl eq_refl eq_refl).
  - symmetry.
    exact (report_path_of_stem "out" 42 "spork" "src/test/" "Foo" "kt"
             (or_intror eq_refl) eq_refl eq_refl eq_refl eq_refl).
Defined.

End ReportNames.

(* ===================================================================== *)
(** * Whole runs of the single-tool analysis *)
(* ===================================================================== *)

Section ViewerRun.

Lemma removed_app (t1 t2 : list event) :
  removed (t1 ++ t2) = (removed t1 ++ removed t2)%list.
Proof.
  induction t1 as [| e t1 IH]; [reflexivity |].
  destruct e; cbn [app removed]; rewrite IH; reflexivity.
Qed.

Variable w : World.
Variable repo_name : string.

(** One pass of the loop: the temporary file is written, and removed only
    when the viewer ended with status 0; otherwise the pass ends with the
    error of [check=True]. *)
Lemma loop_body_run (n : nat) (conflicting_file : string) :
  exists t,
    loop_body w repo_name n conflicting_file
    = (t, if opens w n then Ok tt else Raise "CalledProcessError")
    /\ map fst (artifacts t) = [temp_file_name w n]
    /\ removed t = (if opens w n then [temp_file_name w n] else [])
    /\ existsb is_rm (started t) = false.
Proof.
  unfold loop_body, run_checked, opens. cbv zeta.
  set (base := os_path.join "./repos/base" _).
  set (merge := os_path.join "./repos/programmer_merge" _).
  set (a := os_path.join "./repos/merge_attempt" _).
  rewrite compare_cases.
  destruct (Py.contains error_message
              (stderr (subprocess_run w None ["diff3"; base; a; merge])));
    io_norm;
    destruct (returncode
                (subprocess_run w None ["xdg-open"; temp_file_name w n]) =? 0)%Z;
    io_norm; eexists; repeat split.
Qed.

Lemma loop_from_all_open (files : list string) :
  forall n,
  (forall k, (n <= k < n + List.length files)%nat -> opens w k = true) ->
  exists t,
    loop_from w repo_name n files = (t, Ok tt)
    /\ map fst (artifacts t) = temp_files w n (List.length files)
    /\ removed t = temp_files w n (List.length files)
    /\ existsb is_rm (started t) = false.
Proof.
  induction files as [| f files IH]; intros n Hopen.
  - exists []. repeat split.
  - destruct (loop_body_run n f) as (t & E & A & R & St).
    rewrite (Hopen n) in E, R by (cbn [List.length]; lia).
    destruct (IH (S n)) as (t' & E' & A' & R' & St').
    { intros k Hk. apply Hopen. cbn [List.length]. lia. }
    exists (t ++ t')%list. cbn [loop_from]. rewrite E. cbn [bind]. rewrite E'.
    rewrite artifacts_app, map_app, removed_app, started_app, existsb_app.
    rewrite A, A', R, R', St, St'. repeat split.
Qed.

Lemma loop_from_first_failure (files : list string) :
  forall n i,
  (i < List.length files)%nat ->
  (forall k, (n <= k < n + i)%nat -> opens w k = true) ->
  opens w (n + i) = false ->
  exists t,
    loop_from w repo_name n files = (t, Raise "CalledProcessError")
    /\ map fst (artifacts t) = temp_files w n (S i)
    /\ removed t = temp_files w n i
    /\ existsb is_rm (started t) = false.
Proof.
  induction files as [| f files IH]; intros n i Hi Hopen Hfail;
    [cbn [List.length] in Hi; lia |].
  destruct (loop_body_run n f) as (t & E & A & R & St).
  destruct i as [| i].
  - rewrite Nat.add_0_r in Hfail. rewrite Hfail in E, R.
    exists t. cbn [loop_from]. rewrite E. cbn [bind].
    split; [reflexivity | split; [exact A | split; [exact R | exact St]]].
  - rewrite (Hopen n) in E, R by lia.
    destruct (IH (S n) i) as (t' & E' & A' & R' & St').
    { cbn [List.length] in Hi. lia. }
    { intros k Hk. apply Hopen. lia. }
    { replace (S n + i)%nat with (n + S i)%nat by lia. exact Hfail. }
    exists (t ++ t')%list. cbn [loop_from]. rewrite E. cbn [bind]. rewrite E'.
    rewrite artifacts_app, map_app, removed_app, started_app, existsb_app.
    rewrite A, A', R, R', St, St'. repeat split.
Qed.

End ViewerRun.

Lemma filter_none {A : Type} (f : A -> bool) (l : list A) :
  existsb f l = false -> filter f l = [].
Proof.
  induction l as [| x l IH]; [reflexivity |].
  cbn [existsb filter]. intros H. apply orb_false_iff in H.
  destruct H as [-> H]. exact (IH H).
Qed.

(** X18: when the viewer ends with status 0 on every temporary file, a
    run of [diff3_analysis] ends normally; it has made one temporary file
    for each conflicting file found in the console output, in order, and
    has removed every one of them; and the only [rm] it starts are the
    three that delete the clones. *)
Theorem viewer_run_cleans_up (w : World) (merge_tool : string) (repo_num : Z) :
  let console :=
    stdout (subprocess_run w None
              [merge_script merge_tool;
               rev_parse_show_toplevel w "./repos/merge_attempt";
               "TEMP_LEFT_BRANCH"; "TEMP_RIGHT_BRANCH"]) in
  let files := re.findall CONFLICT_RE console in
  (forall k, (k < List.length files)%nat -> opens w k = true) ->
  outcome (diff3_analysis w merge_tool repo_num) = Ok tt
  /\ map fst (artifacts (trace (diff3_analysis w merge_tool repo_num)))
     = temp_files w 0 (List.length files)
  /\ removed (trace (diff3_analysis w merge_tool repo_num))
     = temp_files w 0 (List.length files)
  /\ filter is_rm (started (trace (diff3_analysis w merge_tool repo_num)))
     = [["rm"; "-rf"; "./repos/base"]; ["rm"; "-rf"; "./repos/merge_attempt"];
        ["rm"; "-rf"; "./repos/programmer_merge"]].
Proof.
  intros console files Hopen.
  unfold diff3_analysis. cbv zeta. io_norm.
  unfold merge_script in console. fold console. fold files.
  match goal with
  | |- context [loop_from w ?r 0 files] =>
      destruct (loop_from_all_open w r files 0) as (t & E & A & R & St)
  end.
  { intros k Hk. apply Hopen. lia. }
  rewrite E. io_norm.
  cbn [artifacts removed started map filter].
  rewrite artifacts_app, removed_app, started_app, filter_app, map_app.
  rewrite A, R, (filter_none _ _ St).
  cbn [artifacts removed started map filter app].
  rewrite !app_nil_r. repeat split.
Qed.

Lemma viewer_run_cleans_up_witness :
  removed (trace (diff3_analysis missing_base_world "gitmerge_ort" 42))
  = ["/tmp/tmp0"; "/tmp/tmp1"].
Proof.
  destruct (viewer_run_cleans_up missing_base_world "gitmerge_ort" 42)
    as (_ & _ & H & _).
  - intros k _. reflexivity.
  - exact H.
Defined.

(** X19: when the viewer ends with a status other than 0 for the first
    time on the temporary file of the conflicting file number [k], the
    run of [diff3_analysis] ends there with the error of [check=True]:
    the temporary files of the files before [k] have been written and
    removed, the one of file [k] has been written and is left behind, no
    later file is looked at, and no [rm] is started, so the clones stay
    in place. *)
Theorem viewer_failure_stops_run (w : World) (merge_tool : string)
  (repo_num : Z) (k : nat) :
  let console :=
    stdout (subprocess_run w None
              [merge_script merge_tool;
               rev_parse_show_toplevel w "./repos/merge_attempt";
               "TEMP_LEFT_BRANCH"; "TEMP_RIGHT_BRANCH"]) in
  let files := re.findall CONFLICT_RE console in
  (k < List.length files)%nat ->
  (forall j, (j < k)%nat -> opens w j = true) ->
  opens w k = false ->
  outcome (diff3_analysis w merge_tool repo_num) = Raise "CalledProcessError"
  /\ map fst (artifacts (trace (diff3_analysis w merge_tool repo_num)))
     = temp_files w 0 (S k)
  /\ removed (trace (diff3_analysis w merge_tool repo_num)) = temp_files w 0 k
  /\ existsb is_rm (started (trace (diff3_analysis w merge_tool repo_num)))
     = false.
Proof.
  intros console files Hk Hopen Hfail.
  unfold diff3_analysis. cbv zeta. io_norm.
  unfold merge_script in console. fold console. fold files.
  match goal with
  | |- context [loop_from w ?r 0 files] =>
      destruct (loop_from_first_failure w r files 0 k Hk)
        as (t & E & A & R & St)
  end.
  { intros j Hj. apply Hopen. lia. }
  { exact Hfail. }
  rewrite E. io_norm.
  cbn [artifacts removed started map existsb].
  rewrite A, R. split; [reflexivity | split; [reflexivity | split; [reflexivity |]]].
  exact St.
Qed.

Lemma viewer_failure_stops_run_witness :
  outcome (diff3_analysis no_viewer_world "gitmerge_ort" 42)
  = Raise "CalledProcessError"
  /\ map fst (artifacts (trace (diff3_analysis no_viewer_world "gitmerge_ort" 42)))
     = ["/tmp/tmp0"]
  /\ removed (trace (diff3_analysis no_viewer_world "gitmerge_ort" 42)) = [].
Proof.
  destruct (viewer_failure_stops_run no_viewer_world "gitmerge_ort" 42 0)
    as (Ho & Hw & Hr & _).
  - vm_compute. lia.
  - intros j Hj. lia.
  - reflexivity.
  - split; [exact Ho | split; [exact Hw | exact Hr]].
Defined.

(* ===================================================================== *)
(** * The oracle against the tools *)
(* ===================================================================== *)

Section OracleDominates.

Import TEST_STATE MERGE_STATE.

(** On a merge that was kept, the oracle's outcome is at least as good as
    the outcome of any tool. *)
Lemma row_dominated (tools : list string) (r : row) (t : string) :
  In t tools -> desirable_row tools r = true -> known_outcome (r t) = true ->
  (weight MERGE_CORRECT_NAMES (r t)
   <= weight MERGE_CORRECT_NAMES (oracle_of (map r tools))
   /\ weight MERGE_INCORRECT_NAMES (oracle_of (map r tools))
      <= weight MERGE_INCORRECT_NAMES (r t)
   /\ weight MERGE_UNHANDLED_NAMES (oracle_of (map r tools))
      + weight MERGE_INCORRECT_NAMES (oracle_of (map r tools))
      <= weight MERGE_UNHANDLED_NAMES (r t) + weight MERGE_INCORRECT_NAMES (r t)
   /\ weight MERGE_UNHANDLED_NAMES (oracle_of (map r tools))
      + weight MERGE_INCORRECT_NAMES (oracle_of (map r tools))
      + weight MERGE_CORRECT_NAMES (oracle_of (map r tools)) = 1
   /\ weight MERGE_UNHANDLED_NAMES (r t) + weight MERGE_INCORRECT_NAMES (r t)
      + weight MERGE_CORRECT_NAMES (r t) = 1)%Z.
Proof.
  intros Ht Hd Hk.
  assert (Hmember : In (r t) (map r tools)) by (apply in_map; exact Ht).
  assert (Hkept : py_in (r t) UNDESIRABLE_STATES = false).
  { unfold desirable_row in Hd.
    apply negb_true_iff. exact (proj1 (forallb_forall _ _) Hd t Ht). }
  apply py_in_In in Hk.
  unfold oracle_of.
  destruct Hk as [E | [E | [E | [E | [E | []]]]]]; rewrite <- E in *.
  - rewrite (proj2 (py_in_In _ _) Hmember). cbn. lia.
  - destruct (py_in Tests_passed (map r tools));
      [| destruct (py_in Merge_failed (map r tools))]; cbn; lia.
  - destruct (py_in Tests_passed (map r tools));
      [| destruct (py_in Merge_failed (map r tools))]; cbn; lia.
  - destruct (py_in Tests_passed (map r tools)); [cbn; lia |].
    rewrite (proj2 (py_in_In _ _) Hmember). cbn. lia.
  - discriminate Hkept.
Qed.

Lemma columns_dominated (tools : list string) (t : string) (df : DataFrame) :
  In t tools ->
  forallb (desirable_row tools) df = true ->
  column_known df t = true ->
  let oracle := map (fun r => oracle_of (map r tools)) df in
  (count_in MERGE_CORRECT_NAMES (column t df)
   <= count_in MERGE_CORRECT_NAMES oracle
   /\ count_in MERGE_INCORRECT_NAMES oracle
      <= count_in MERGE_INCORRECT_NAMES (column t df)
   /\ count_in MERGE_UNHANDLED_NAMES oracle
      + count_in MERGE_INCORRECT_NAMES oracle
      <= count_in MERGE_UNHANDLED_NAMES (column t df)
         + count_in MERGE_INCORRECT_NAMES (column t df)
   /\ count_in MERGE_UNHANDLED_NAMES oracle
      + count_in MERGE_INCORRECT_NAMES oracle
      + count_in MERGE_CORRECT_NAMES oracle = Z.of_nat (List.length df)
   /\ count_in MERGE_UNHANDLED_NAMES (column t df)
      + count_in MERGE_INCORRECT_NAMES (column t df)
      + count_in MERGE_CORRECT_NAMES (column t df) = Z.of_nat (List.length df))%Z.
Proof.
  intros Ht. unfold column_known.
  induction df as [| r rs IH]; intros Hd Hk; [cbn; lia |].
  cbn [forallb column map] in Hd, Hk.
  apply andb_true_iff in Hd. destruct Hd as [Hr Hd].
  apply andb_true_iff in Hk. destruct Hk as [Hkr Hk].
  specialize (IH Hd Hk). cbv zeta in IH.
  pose proof (row_dominated tools r t Ht Hr Hkr) as Hrow.
  unfold weight in Hrow.
  cbv zeta. cbn [column map]. rewrite !count_in_cons.
  fold (column t rs). cbn [List.length]. lia.
Qed.

Lemma folded_other_column (tools : list string) (t : string)
  (df df' : DataFrame) :
  t <> ORACLE -> Forall2 (folded tools) df df' -> column t df' = column t df.
Proof.
  intros Ht. induction 1 as [| r r' rs rs' [_ Hc] _ IH]; [reflexivity |].
  cbn [column map]. rewrite (Hc t Ht). f_equal. exact IH.
Qed.

Lemma score_same_total (u1 i1 c1 u2 i2 c2 n : Z) (k : Q) :
  (0 < n)%Z -> (u1 + i1 + c1 = n)%Z -> (u2 + i2 + c2 = n)%Z ->
  (i2 <= i1)%Z -> (u2 + i2 <= u1 + i1)%Z -> 1 <= k ->
  score u1 i1 c1 k <= score u2 i2 c2 k.
Proof.
  intros Hn H1 H2 Hi Hui Hk. unfold score. rewrite H1, H2, !Z.mul_1_r.
  unfold Qminus. apply Qplus_le_compat; [apply Qle_refl |].
  apply Qopp_le_compat. unfold Qdiv. apply Qmult_le_compat_r.
  - rewrite Zle_Qle in Hi, Hui. rewrite !inject_Z_plus in Hui. nra.
  - apply Qlt_le_weak, Qinv_lt_0_compat.
    change 0 with (inject_Z 0). rewrite <- Zlt_Qlt. exact Hn.
Qed.

(** X20: on the table from which the undesired states have been removed,
    with the oracle column added, the oracle has at least as many correct
    merges as any tool whose outcomes are all counted, and at every cost
    factor from 1 on its score is at least that tool's score (scores in
    exact arithmetic). *)
Theorem oracle_dominates (tools : list string) (df0 : DataFrame) (t : string)
  (cost_factor : Q) :
  ~ In ORACLE tools -> In t tools ->
  remove_undesired tools df0 <> [] ->
  column_known (remove_undesired tools df0) t = true ->
  1 <= cost_factor ->
  exists result_df,
    add_oracle tools (remove_undesired tools df0) = Ok result_df
    /\ (count_in MERGE_CORRECT_NAMES (column t result_df)
        <= count_in MERGE_CORRECT_NAMES (column ORACLE result_df))%Z
    /\ column_score t result_df cost_factor
       <= column_score ORACLE result_df cost_factor.
Proof.
  intros Hno Ht Hne Hk Hcost.
  assert (Hneq : t <> ORACLE) by (intros ->; contradiction).
  destruct (add_oracle_folded tools (remove_undesired tools df0) Hno)
    as (result_df & Hrun & Hall).
  exists result_df. split; [exact Hrun |].
  unfold column_score.
  rewrite (folded_other_column tools t _ _ Hneq Hall).
  rewrite (folded_column tools _ _ Hall).
  assert (Hd : forallb (desirable_row tools) (remove_undesired tools df0) = true).
  { rewrite remove_undesired_filter. apply forallb_forall.
    intros r Hr. apply filter_In in Hr. tauto. }
  destruct (columns_dominated tools t _ Ht Hd Hk) as (Hc & Hi & Hui & Ho & Htot).
  split; [exact Hc |].
  apply (score_same_total _ _ _ _ _ _
           (Z.of_nat (List.length (remove_undesired tools df0))));
    try assumption.
  destruct (remove_undesired tools df0); [contradiction | cbn [List.length]; lia].
Qed.

Lemma oracle_dominates_witness :
  exists result_df,
    add_oracle ["gitmerge_ort"; "spork"]
      (remove_undesired ["gitmerge_ort"; "spork"]
         [ort_myers_row; all_timedout_row]) = Ok result_df
    /\ column_score "gitmerge_ort" result_df 2
       <= column_score ORACLE result_df 2.
Proof.
  destruct (oracle_dominates ["gitmerge_ort"; "spork"]
              [ort_myers_row; all_timedout_row] "gitmerge_ort" 2)
    as (result_df & Hrun & _ & Hscore).
  - intros [H | [H | []]]; discriminate H.
  - left. reflexivity.
  - discriminate.
  - reflexivity.
  - discriminate.
  - exists result_df. split; [exact Hrun | exact Hscore].
Defined.

End OracleDominates.

(* ===================================================================== *)
(** * The percentages of the tables *)
(* ===================================================================== *)

Section Percentages.

Local Open Scope Z_scope.

(** Rounding moves a quotient by at most one half. *)
Lemma round_div_bounds (a b : Z) :
  0 < b ->
  2 * (b * round_div a b) - b <= 2 * a <= 2 * (b * round_div a b) + b.
Proof.
  intros Hb. unfold round_div.
  pose proof (Z.div_mod a b ltac:(lia)) as Ha.
  pose proof (Z.mod_pos_bound a b Hb) as Hr.
  set (q := a / b) in *. set (r := a mod b) in *. clearbody q r.
  destruct (Z.ltb_spec (2 * r) b); [nia |].
  destruct (Z.ltb_spec b (2 * r)); [nia |].
  destruct (Z.even q); nia.
Qed.

Lemma count_in_le_length (names l : list string) :
  0 <= count_in names l <= Z.of_nat (List.length l).
Proof.
  unfold count_in. pose proof (filter_length_le (fun val => py_in val names) l).
  lia.
Qed.

Lemma round_div_percent (count total : Z) :
  0 < total -> 0 <= count <= total -> 0 <= round_div (100 * count) total <= 100.
Proof.
  intros Ht Hc. pose proof (round_div_bounds (100 * count) total Ht) as H.
  set (p := round_div (100 * count) total) in *. clearbody p. nia.
Qed.

(** X21: in a row of [build_table1] for a table that is not empty and a
    column that holds only counted outcomes, each of the three rounded
    percentages lies between 0 and 100 and together they make 99, 100 or
    101 (rounding on the exact quotient); for an empty table every
    percentage is 0. *)
Theorem table1_percentages (result_df : DataFrame) (merge_tool : string) :
  let status := column merge_tool result_df in
  let total := List.length result_df in
  let percent names := rounded_percentage (count_in names status) total in
  (result_df <> [] -> column_known result_df merge_tool = true ->
   0 <= percent MERGE_CORRECT_NAMES <= 100
   /\ 0 <= percent MERGE_UNHANDLED_NAMES <= 100
   /\ 0 <= percent MERGE_INCORRECT_NAMES <= 100
   /\ 99 <= percent MERGE_CORRECT_NAMES + percent MERGE_UNHANDLED_NAMES
            + percent MERGE_INCORRECT_NAMES <= 101)
  /\ (result_df = [] -> forall names, percent names = 0).
Proof.
  intros status total percent. split.
  - intros Hne Hk.
    assert (Ht : 0 < Z.of_nat total)
      by (subst total; destruct result_df; [contradiction | cbn [List.length]; lia]).
    assert (Hp : forall names,
               percent names
               = round_div (100 * count_in names status) (Z.of_nat total)).
    { intros names. unfold percent, rounded_percentage.
      destruct (Nat.eqb_spec total 0) as [E | _]; [lia | reflexivity]. }
    assert (Hlen : Z.of_nat (List.length status) = Z.of_nat total)
      by (unfold status, column, total; rewrite length_map; reflexivity).
    pose proof (count_sum_all result_df merge_tool) as Hsum.
    rewrite Hk in Hsum. apply Z.eqb_eq in Hsum. fold status in Hsum.
    rewrite Hlen in Hsum.
    pose proof (count_in_le_length MERGE_CORRECT_NAMES status) as Hc.
    pose proof (count_in_le_length MERGE_UNHANDLED_NAMES status) as Hu.
    pose proof (count_in_le_length MERGE_INCORRECT_NAMES status) as Hi.
    rewrite Hlen in Hc, Hu, Hi.
    rewrite !Hp.
    pose proof (round_div_bounds (100 * count_in MERGE_CORRECT_NAMES status)
                  (Z.of_nat total) Ht) as Bc.
    pose proof (round_div_bounds (100 * count_in MERGE_UNHANDLED_NAMES status)
                  (Z.of_nat total) Ht) as Bu.
    pose proof (round_div_bounds (100 * count_in MERGE_INCORRECT_NAMES status)
                  (Z.of_nat total) Ht) as Bi.
    pose proof (round_div_percent _ _ Ht Hc) as Pc.
    pose proof (round_div_percent _ _ Ht Hu) as Pu.
    pose proof (round_div_percent _ _ Ht Hi) as Pi.
    set (pc := round_div (100 * count_in MERGE_CORRECT_NAMES status) _) in *.
    set (pu := round_div (100 * count_in MERGE_UNHANDLED_NAMES status) _) in *.
    set (pi := round_div (100 * count_in MERGE_INCORRECT_NAMES status) _) in *.
    set (c := count_in MERGE_CORRECT_NAMES status) in *.
    set (u := count_in MERGE_UNHANDLED_NAMES status) in *.
    set (i := count_in MERGE_INCORRECT_NAMES status) in *.
    set (n := Z.of_nat total) in *.
    clearbody pc pu pi c u i n.
    split; [exact Pc | split; [exact Pu | split; [exact Pi |]]].
    assert (H1 : n * (2 * (pc + pu + pi) - 203) <= 0) by nia.
    assert (H2 : 0 <= n * (2 * (pc + pu + pi) - 197)) by nia.
    nia.
  - intros -> names. reflexivity.
Qed.

Lemma table1_percentages_witness :
  99 <= rounded_percentage 1 3 + rounded_percentage 1 3 + rounded_percentage 1 3
     <= 101.
Proof.
  pose (r := row_of [("spork", "Tests_passed")]).
  pose (s := row_of [("spork", "Tests_failed")]).
  pose (t := row_of [("spork", "Merge_failed")]).
  destruct (table1_percentages [r; s; t] "spork") as [H _].
  destruct H as (_ & _ & _ & Hsum); [discriminate | reflexivity |].
  exact Hsum.
Defined.

Lemma count_in_filter_split (names : list string) (t : string)
  (f : row -> bool) (df : DataFrame) :
  count_in names (column t (filter f df))
  + count_in names (column t (filter (fun r => negb (f r)) df))
  = count_in names (column t df).
Proof.
  induction df as [| r rs IH]; [reflexivity |].
  cbn [filter column map]. fold (column t rs).
  destruct (f r); cbn [negb column map]; rewrite !count_in_cons;
    fold (column t (filter f rs));
    fold (column t (filter (fun r => negb (f r)) rs)); lia.
Qed.

(** X22: the counts [build_table2] prints for the main-branch merges and
    for the other merges add up to the count of the whole table; a
    percentage lies between 0 and 100 when its group has a merge, and an
    empty group shows as 0 on the main side but as -1 on the other
    side. *)
Theorem table2_cells (result_df : DataFrame) (names : list string)
  (merge_tool : string) :
  let main := main_rows result_df in
  let feature := feature_rows result_df in
  fst (main_cell names merge_tool main)
  + fst (feature_cell names merge_tool feature)
  = count_in names (column merge_tool result_df)
  /\ (main <> [] -> 0 <= snd (main_cell names merge_tool main) <= 100)
  /\ (feature <> [] -> 0 <= snd (feature_cell names merge_tool feature) <= 100)
  /\ (main = [] -> snd (main_cell names merge_tool main) = 0)
  /\ (feature = [] -> snd (feature_cell names merge_tool feature) = -1).
Proof.
  intros main feature. unfold main_cell, feature_cell. cbn [fst snd].
  assert (Hsize : forall df : DataFrame,
             Z.of_nat (List.length (column merge_tool df))
             = Z.of_nat (List.length df))
    by (intros df; unfold column; rewrite length_map; reflexivity).
  split; [apply count_in_filter_split |].
  clearbody main feature.
  pose proof (count_in_le_length names (column merge_tool main)) as Hm.
  pose proof (count_in_le_length names (column merge_tool feature)) as Hf.
  rewrite Hsize in Hm, Hf.
  split; [| split; [| split]].
  - intros Hne. unfold rounded_percentage.
    destruct main as [| r rs]; [contradiction |].
    cbn [Nat.eqb negb]. apply round_div_percent; [cbn [List.length]; lia |].
    exact Hm.
  - intros Hne. unfold rounded_percentage_feature.
    destruct feature as [| r rs]; [contradiction |].
    cbn [Nat.ltb Nat.leb]. apply round_div_percent; [cbn [List.length]; lia |].
    exact Hf.
  - intros ->. reflexivity.
  - intros ->. reflexivity.
Qed.

(** A table whose merges are all on the main branch. *)
Lemma table2_cells_witness :
  snd (feature_cell MERGE_CORRECT_NAMES "spork"
         (feature_rows [row_of [("branch_name", "main");
                                ("spork", "Tests_passed")]])) = -1
  /\ snd (main_cell MERGE_CORRECT_NAMES "spork"
            (main_rows [row_of [("branch_name", "main");
                                ("spork", "Tests_passed")]])) = 100.
Proof.
  destruct (table2_cells [row_of [("branch_name", "main");
                                  ("spork", "Tests_passed")]]
              MERGE_CORRECT_NAMES "spork") as (_ & _ & _ & _ & H).
  split; [apply H; reflexivity | reflexivity].
Defined.

End Percentages.
